(** * NonAdminBackup reconciler: a shallow embedding of
    [internal/controller/nonadminbackup_controller.go]

    The controller is modelled as explicit state passing over a small model
    of the cluster API.  Go structs are records, [nil]-able pointers, slices
    and maps are [option]s, [map[string]string] is [gmap string string], Go
    [int] and [time] values are [Z].  Every client call can fail; the failures
    of one pass are drawn from a schedule stored in the cluster state, so a
    statement quantified over cluster states covers every interleaving of API
    errors. *)

From Stdlib Require Import ZArith String List Bool Lia.
From stdpp Require Import base tactics option list gmap strings.

Open Scope string_scope.
Open Scope list_scope.
Open Scope Z_scope.

(** ** Go built-ins *)

(** [metav1.Time]; the zero time is [0]. *)
Definition Time := Z.

(** [IsZero] on a pointer to [metav1.Time]: a nil pointer or the zero time. *)
Definition Time_IsZero (t : option Time) : bool :=
  match t with
  | None => true
  | Some t => t =? 0
  end.

(** A Go slice: [None] is the nil slice. *)
Definition slice (A : Type) := option (list A).

(** [len(s)] *)
Definition len {A} (s : slice A) : Z :=
  match s with
  | None => 0
  | Some l => Z.of_nat (length l)
  end.

(** [append(s, xs...)]: appending nothing to a nil slice leaves it nil. *)
Definition append {A} (s : slice A) (xs : list A) : slice A :=
  match s, xs with
  | None, [] => None
  | _, _ => Some (default [] s ++ xs)
  end.

(** [m[k]] on a [map[string]string]: the zero string when the key is absent
    (also for the nil map). *)
Definition index (m : gmap string string) (k : string) : string :=
  default "" (m !! k).

(** The zero test of [reflect.Value.IsZero] at the kinds that occur in
    [BackupSpec]. *)
Class Zero (A : Type) := is_zero : A → bool.

(** pointers, slices and maps: zero iff nil *)
Global Instance Zero_nilable {A} : Zero (option A) :=
  λ v, match v with None => true | Some _ => false end.
Global Instance Zero_string : Zero string := λ v, bool_decide (v = "").
(** [metav1.Duration] wraps an int64 *)
Global Instance Zero_int : Zero Z := λ v, v =? 0.

(** ** velero and apimachinery types (external packages) *)

Module ObjectMeta.
Record t := mk {
    Name : string;
    GenerateName : string;
    Namespace : string;
    UID : string;
    CreationTimestamp : Time;
    DeletionTimestamp : option Time;
    Labels : gmap string string;
    Annotations : option (gmap string string);
    Finalizers : list string;
  }.
Definition zero : t := mk "" "" "" "" 0 None ∅ None [].
Definition with_Finalizers (f : list string) (m : t) : t :=
    mk (Name m) (GenerateName m) (Namespace m) (UID m) (CreationTimestamp m)
       (DeletionTimestamp m) (Labels m) (Annotations m) f.
Definition with_DeletionTimestamp (d : option Time) (m : t) : t :=
    mk (Name m) (GenerateName m) (Namespace m) (UID m) (CreationTimestamp m)
       d (Labels m) (Annotations m) (Finalizers m).
Global Instance eq_dec : EqDecision t.
Proof. solve_decision. Defined.
End ObjectMeta.

(** [metav1.Condition] *)
Module Condition.
Record t := mk {
    Type_ : string;
    Status : string;
    ObservedGeneration : Z;
    LastTransitionTime : Time;
    Reason : string;
    Message : string;
  }.
Global Instance eq_dec : EqDecision t.
Proof. solve_decision. Defined.
End Condition.

Definition ConditionTrue := "True".
Definition ConditionFalse := "False".

(** [metav1.LabelSelector] *)
Module LabelSelector.
Record Requirement := mkRequirement {
    Key : string;
    Operator : string;
    Values : slice string;
  }.
Record t := mk {
    MatchLabels : option (gmap string string);
    MatchExpressions : slice Requirement;
  }.
Global Instance Requirement_eq_dec : EqDecision Requirement.
Proof. solve_decision. Defined.
Global Instance eq_dec : EqDecision t.
Proof. solve_decision. Defined.
End LabelSelector.

(** The struct-valued fields of [velerov1.BackupSpec].  The controller never
    looks inside them, it only tests them for the zero value and copies them:
    hook specs are kept to their names. *)
Module Metadata.
Record t := mk { Labels : option (gmap string string) }.
Global Instance eq_dec : EqDecision t.
Proof. solve_decision. Defined.
Global Instance zero : Zero t := λ v, is_zero (Labels v).
End Metadata.

Module BackupHooks.
Record t := mk { Resources : slice string }.
Global Instance eq_dec : EqDecision t.
Proof. solve_decision. Defined.
Global Instance zero : Zero t := λ v, is_zero (Resources v).
End BackupHooks.

Module TypedLocalObjectReference.
Record t := mk { APIGroup : option string; Kind : string; Name : string }.
Global Instance eq_dec : EqDecision t.
Proof. solve_decision. Defined.
End TypedLocalObjectReference.

Module UploaderConfigForBackup.
Record t := mk { ParallelFilesUpload : Z }.
Global Instance eq_dec : EqDecision t.
Proof. solve_decision. Defined.
End UploaderConfigForBackup.

(** [velerov1.BackupSpec], fields in declaration order. *)
Module BackupSpec.
Record t := mk {
    Metadata : Metadata.t;
    IncludedNamespaces : slice string;
    ExcludedNamespaces : slice string;
    IncludedResources : slice string;
    ExcludedResources : slice string;
    IncludedClusterScopedResources : slice string;
    ExcludedClusterScopedResources : slice string;
    IncludedNamespaceScopedResources : slice string;
    ExcludedNamespaceScopedResources : slice string;
    LabelSelector : option LabelSelector.t;
    OrLabelSelectors : slice (option LabelSelector.t);
    SnapshotVolumes : option bool;
    TTL : Z;
    IncludeClusterResources : option bool;
    Hooks : BackupHooks.t;
    StorageLocation : string;
    VolumeSnapshotLocations : slice string;
    DefaultVolumesToRestic : option bool;
    DefaultVolumesToFsBackup : option bool;
    OrderedResources : option (gmap string string);
    CSISnapshotTimeout : Z;
    ItemOperationTimeout : Z;
    ResourcePolicy : option TypedLocalObjectReference.t;
    SnapshotMoveData : option bool;
    DataMover : string;
    UploaderConfig : option UploaderConfigForBackup.t;
    VolumeGroupSnapshotLabelKey : string;
  }.
Global Instance eq_dec : EqDecision t.
Proof. solve_decision. Defined.

  (** The zero value, [velerov1.BackupSpec{}]. *)
Definition zero : t :=
    mk (Metadata.mk None) None None None None None None None None None None
       None 0 None (BackupHooks.mk None) "" None None None None 0 0 None None
       "" None "".
End BackupSpec.

(** ** Reflection over [BackupSpec]

    [reflect.ValueOf(spec).Elem()] is a struct value whose fields are read by
    position ([Field(index)], [Type().Field(index).Name]) and by name
    ([FieldByName]).  A field is named by a constructor of [Field]; [fields]
    lists them in the order of [range NumField()]. *)

Inductive Field :=
  | FMetadata | FIncludedNamespaces | FExcludedNamespaces | FIncludedResources
  | FExcludedResources | FIncludedClusterScopedResources
  | FExcludedClusterScopedResources | FIncludedNamespaceScopedResources
  | FExcludedNamespaceScopedResources | FLabelSelector | FOrLabelSelectors
  | FSnapshotVolumes | FTTL | FIncludeClusterResources | FHooks
  | FStorageLocation | FVolumeSnapshotLocations | FDefaultVolumesToRestic
  | FDefaultVolumesToFsBackup | FOrderedResources | FCSISnapshotTimeout
  | FItemOperationTimeout | FResourcePolicy | FSnapshotMoveData | FDataMover
  | FUploaderConfig | FVolumeGroupSnapshotLabelKey.

Global Instance Field_eq_dec : EqDecision Field.
Proof. solve_decision. Defined.

Definition fields : list Field :=
  [ FMetadata; FIncludedNamespaces; FExcludedNamespaces; FIncludedResources;
    FExcludedResources; FIncludedClusterScopedResources;
    FExcludedClusterScopedResources; FIncludedNamespaceScopedResources;
    FExcludedNamespaceScopedResources; FLabelSelector; FOrLabelSelectors;
    FSnapshotVolumes; FTTL; FIncludeClusterResources; FHooks;
    FStorageLocation; FVolumeSnapshotLocations; FDefaultVolumesToRestic;
    FDefaultVolumesToFsBackup; FOrderedResources; FCSISnapshotTimeout;
    FItemOperationTimeout; FResourcePolicy; FSnapshotMoveData; FDataMover;
    FUploaderConfig; FVolumeGroupSnapshotLabelKey ].

(** The Go type of each field. *)
Definition FieldType (f : Field) : Type :=
  match f with
  | FMetadata => Metadata.t
  | FIncludedNamespaces | FExcludedNamespaces | FIncludedResources
  | FExcludedResources | FIncludedClusterScopedResources
  | FExcludedClusterScopedResources | FIncludedNamespaceScopedResources
  | FExcludedNamespaceScopedResources | FVolumeSnapshotLocations => slice string
  | FLabelSelector => option LabelSelector.t
  | FOrLabelSelectors => slice (option LabelSelector.t)
  | FSnapshotVolumes | FIncludeClusterResources | FDefaultVolumesToRestic
  | FDefaultVolumesToFsBackup | FSnapshotMoveData => option bool
  | FTTL | FCSISnapshotTimeout | FItemOperationTimeout => Z
  | FHooks => BackupHooks.t
  | FStorageLocation | FDataMover | FVolumeGroupSnapshotLabelKey => string
  | FOrderedResources => option (gmap string string)
  | FResourcePolicy => option TypedLocalObjectReference.t
  | FUploaderConfig => option UploaderConfigForBackup.t
  end.

(** [v.FieldByName(name)] *)
Definition FieldByName (f : Field) (v : BackupSpec.t) : FieldType f :=
  match f with
  | FMetadata => BackupSpec.Metadata v
  | FIncludedNamespaces => BackupSpec.IncludedNamespaces v
  | FExcludedNamespaces => BackupSpec.ExcludedNamespaces v
  | FIncludedResources => BackupSpec.IncludedResources v
  | FExcludedResources => BackupSpec.ExcludedResources v
  | FIncludedClusterScopedResources => BackupSpec.IncludedClusterScopedResources v
  | FExcludedClusterScopedResources => BackupSpec.ExcludedClusterScopedResources v
  | FIncludedNamespaceScopedResources => BackupSpec.IncludedNamespaceScopedResources v
  | FExcludedNamespaceScopedResources => BackupSpec.ExcludedNamespaceScopedResources v
  | FLabelSelector => BackupSpec.LabelSelector v
  | FOrLabelSelectors => BackupSpec.OrLabelSelectors v
  | FSnapshotVolumes => BackupSpec.SnapshotVolumes v
  | FTTL => BackupSpec.TTL v
  | FIncludeClusterResources => BackupSpec.IncludeClusterResources v
  | FHooks => BackupSpec.Hooks v
  | FStorageLocation => BackupSpec.StorageLocation v
  | FVolumeSnapshotLocations => BackupSpec.VolumeSnapshotLocations v
  | FDefaultVolumesToRestic => BackupSpec.DefaultVolumesToRestic v
  | FDefaultVolumesToFsBackup => BackupSpec.DefaultVolumesToFsBackup v
  | FOrderedResources => BackupSpec.OrderedResources v
  | FCSISnapshotTimeout => BackupSpec.CSISnapshotTimeout v
  | FItemOperationTimeout => BackupSpec.ItemOperationTimeout v
  | FResourcePolicy => BackupSpec.ResourcePolicy v
  | FSnapshotMoveData => BackupSpec.SnapshotMoveData v
  | FDataMover => BackupSpec.DataMover v
  | FUploaderConfig => BackupSpec.UploaderConfig v
  | FVolumeGroupSnapshotLabelKey => BackupSpec.VolumeGroupSnapshotLabelKey v
  end.

(** [field.IsZero()] *)
Definition IsZero (f : Field) : FieldType f → bool :=
  match f with
  | FMetadata => is_zero
  | FIncludedNamespaces | FExcludedNamespaces | FIncludedResources
  | FExcludedResources | FIncludedClusterScopedResources
  | FExcludedClusterScopedResources | FIncludedNamespaceScopedResources
  | FExcludedNamespaceScopedResources | FVolumeSnapshotLocations => is_zero
  | FLabelSelector => is_zero
  | FOrLabelSelectors => is_zero
  | FSnapshotVolumes | FIncludeClusterResources | FDefaultVolumesToRestic
  | FDefaultVolumesToFsBackup | FSnapshotMoveData => is_zero
  | FTTL | FCSISnapshotTimeout | FItemOperationTimeout => is_zero
  | FHooks => is_zero
  | FStorageLocation | FDataMover | FVolumeGroupSnapshotLabelKey => is_zero
  | FOrderedResources => is_zero
  | FResourcePolicy => is_zero
  | FUploaderConfig => is_zero
  end.

(** The new content of field [g] after field [f] was set to [x]. *)
Definition assign (f : Field) (x : FieldType f) (g : Field) (old : FieldType g)
  : FieldType g :=
  match decide (f = g) with
  | left e => eq_rect f FieldType x g e
  | right _ => old
  end.

(** [v.FieldByName(name).Set(x)] on the struct behind the pointer. *)
Definition SetField (f : Field) (x : FieldType f) (v : BackupSpec.t) : BackupSpec.t :=
  let new g := assign f x g (FieldByName g v) in
  BackupSpec.mk
    (new FMetadata) (new FIncludedNamespaces) (new FExcludedNamespaces)
    (new FIncludedResources) (new FExcludedResources)
    (new FIncludedClusterScopedResources) (new FExcludedClusterScopedResources)
    (new FIncludedNamespaceScopedResources)
    (new FExcludedNamespaceScopedResources) (new FLabelSelector)
    (new FOrLabelSelectors) (new FSnapshotVolumes) (new FTTL)
    (new FIncludeClusterResources) (new FHooks) (new FStorageLocation)
    (new FVolumeSnapshotLocations) (new FDefaultVolumesToRestic)
    (new FDefaultVolumesToFsBackup) (new FOrderedResources)
    (new FCSISnapshotTimeout) (new FItemOperationTimeout) (new FResourcePolicy)
    (new FSnapshotMoveData) (new FDataMover) (new FUploaderConfig)
    (new FVolumeGroupSnapshotLabelKey).

(** The body of the loop at lines 677-684 for one field: the enforced value
    is copied when it is not zero and the current value is zero. *)
Definition enforceField (enforcedSpec : BackupSpec.t) (backupSpec : BackupSpec.t)
    (enforcedFieldName : Field) : BackupSpec.t :=
  let enforcedField := FieldByName enforcedFieldName enforcedSpec in
  let currentField := FieldByName enforcedFieldName backupSpec in
  if negb (IsZero enforcedFieldName enforcedField)
     && IsZero enforcedFieldName currentField
  then SetField enforcedFieldName enforcedField backupSpec
  else backupSpec.

(** The loop [for index := range enforcedSpec.NumField()]. *)
Definition enforceFields (enforcedSpec backupSpec : BackupSpec.t) : BackupSpec.t :=
  foldl (enforceField enforcedSpec) backupSpec fields.

(** The merge as the specification words it: field by field, the enforced
    value when it is non-zero and the tenant's is zero, the tenant's
    otherwise. *)
Definition merged (f : Field) (enforced tenant : BackupSpec.t) : FieldType f :=
  if negb (IsZero f (FieldByName f enforced)) && IsZero f (FieldByName f tenant)
  then FieldByName f enforced
  else FieldByName f tenant.

Definition merge (enforced tenant : BackupSpec.t) : BackupSpec.t :=
  BackupSpec.mk
    (merged FMetadata enforced tenant) (merged FIncludedNamespaces enforced tenant)
    (merged FExcludedNamespaces enforced tenant)
    (merged FIncludedResources enforced tenant)
    (merged FExcludedResources enforced tenant)
    (merged FIncludedClusterScopedResources enforced tenant)
    (merged FExcludedClusterScopedResources enforced tenant)
    (merged FIncludedNamespaceScopedResources enforced tenant)
    (merged FExcludedNamespaceScopedResources enforced tenant)
    (merged FLabelSelector enforced tenant) (merged FOrLabelSelectors enforced tenant)
    (merged FSnapshotVolumes enforced tenant) (merged FTTL enforced tenant)
    (merged FIncludeClusterResources enforced tenant) (merged FHooks enforced tenant)
    (merged FStorageLocation enforced tenant)
    (merged FVolumeSnapshotLocations enforced tenant)
    (merged FDefaultVolumesToRestic enforced tenant)
    (merged FDefaultVolumesToFsBackup enforced tenant)
    (merged FOrderedResources enforced tenant)
    (merged FCSISnapshotTimeout enforced tenant)
    (merged FItemOperationTimeout enforced tenant)
    (merged FResourcePolicy enforced tenant) (merged FSnapshotMoveData enforced tenant)
    (merged FDataMover enforced tenant) (merged FUploaderConfig enforced tenant)
    (merged FVolumeGroupSnapshotLabelKey enforced tenant).

(** ** velero API objects

    [BackupStatus] is mirrored whole into the tenant status and compared with
    [reflect.DeepEqual]; the fields kept are the ones the queue position
    depends on. *)
Module BackupStatus.
Record t := mk {
    Phase : string;
    StartTimestamp : option Time;
    CompletionTimestamp : option Time;
  }.
Definition zero : t := mk "" None None.
Global Instance eq_dec : EqDecision t.
Proof. solve_decision. Defined.
End BackupStatus.

Module Backup.
Record t := mk {
    ObjectMeta : ObjectMeta.t;
    Spec : BackupSpec.t;
    Status : BackupStatus.t;
  }.
Definition Name b := ObjectMeta.Name (ObjectMeta b).
Definition Namespace b := ObjectMeta.Namespace (ObjectMeta b).
Definition Labels b := ObjectMeta.Labels (ObjectMeta b).
Definition Annotations b := ObjectMeta.Annotations (ObjectMeta b).
Definition UID b := ObjectMeta.UID (ObjectMeta b).
Definition CreationTimestamp b := ObjectMeta.CreationTimestamp (ObjectMeta b).
Global Instance eq_dec : EqDecision t.
Proof. solve_decision. Defined.
End Backup.

Module DeleteBackupRequestStatus.
Record t := mk { Phase : string; Errors : slice string }.
Definition zero : t := mk "" None.
Global Instance eq_dec : EqDecision t.
Proof. solve_decision. Defined.
End DeleteBackupRequestStatus.

Module DeleteBackupRequest.
Record t := mk {
    ObjectMeta : ObjectMeta.t;
    BackupName : string;                       (* Spec.BackupName *)
    Status : DeleteBackupRequestStatus.t;
  }.
Definition Name d := ObjectMeta.Name (ObjectMeta d).
Definition Namespace d := ObjectMeta.Namespace (ObjectMeta d).
Definition Labels d := ObjectMeta.Labels (ObjectMeta d).
Global Instance eq_dec : EqDecision t.
Proof. solve_decision. Defined.
End DeleteBackupRequest.

Module PodVolumeBackup.
Record t := mk {
    ObjectMeta : ObjectMeta.t;
    Phase : string;                            (* Status.Phase *)
  }.
Definition Namespace p := ObjectMeta.Namespace (ObjectMeta p).
Definition Labels p := ObjectMeta.Labels (ObjectMeta p).
End PodVolumeBackup.

Module DataUpload.
Record t := mk {
    ObjectMeta : ObjectMeta.t;
    Phase : string;                            (* Status.Phase *)
  }.
Definition Namespace p := ObjectMeta.Namespace (ObjectMeta p).
Definition Labels p := ObjectMeta.Labels (ObjectMeta p).
End DataUpload.

(** velero's phase and label constants *)
Definition PodVolumeBackupPhaseNew := "New".
Definition PodVolumeBackupPhaseInProgress := "InProgress".
Definition PodVolumeBackupPhaseCompleted := "Completed".
Definition PodVolumeBackupPhaseFailed := "Failed".

Definition DataUploadPhaseNew := "New".
Definition DataUploadPhaseAccepted := "Accepted".
Definition DataUploadPhasePrepared := "Prepared".
Definition DataUploadPhaseInProgress := "InProgress".
Definition DataUploadPhaseCanceling := "Canceling".
Definition DataUploadPhaseCanceled := "Canceled".
Definition DataUploadPhaseCompleted := "Completed".
Definition DataUploadPhaseFailed := "Failed".

Definition BackupNameLabel := "velero.io/backup-name".
Definition BackupUIDLabel := "velero.io/backup-uid".

(** ** The tenant API, package [nacv1alpha1]

    Modelled from the spec: the type declarations of [api/v1alpha1] are not
    part of the sources at hand; the records follow section 3 of the
    specification and the field accesses of the controller. *)

Definition NonAdminPhase := string.
Definition NonAdminPhaseNew : NonAdminPhase := "New".
Definition NonAdminPhaseBackingOff : NonAdminPhase := "BackingOff".
Definition NonAdminPhaseCreated : NonAdminPhase := "Created".
Definition NonAdminPhaseDeleting : NonAdminPhase := "Deleting".

Definition NonAdminConditionAccepted := "Accepted".
Definition NonAdminConditionQueued := "Queued".
Definition NonAdminConditionDeleting := "Deleting".

Module VeleroBackup.
Record t := mk {
    NACUUID : string;
    Namespace : string;
    Name : string;
    Spec : option BackupSpec.t;
    Status : option BackupStatus.t;
  }.
Definition zero : t := mk "" "" "" None None.
Global Instance eq_dec : EqDecision t.
Proof. solve_decision. Defined.
End VeleroBackup.

Module VeleroDeleteBackupRequest.
Record t := mk {
    NACUUID : string;
    Namespace : string;
    Name : string;
    Status : option DeleteBackupRequestStatus.t;
  }.
Definition zero : t := mk "" "" "" None.
Global Instance eq_dec : EqDecision t.
Proof. solve_decision. Defined.
End VeleroDeleteBackupRequest.

Module QueueInfo.
Record t := mk { EstimatedQueuePosition : Z }.
Global Instance eq_dec : EqDecision t.
Proof. solve_decision. Defined.
End QueueInfo.

Module FileSystemPodVolumeBackups.
Record t := mk {
    Total : Z;
    New : Z;
    InProgress : Z;
    Failed : Z;
    Completed : Z;
  }.
Definition zero : t := mk 0 0 0 0 0.
Global Instance eq_dec : EqDecision t.
Proof. solve_decision. Defined.
End FileSystemPodVolumeBackups.

Module DataMoverDataUploads.
Record t := mk {
    Total : Z;
    New : Z;
    Accepted : Z;
    Prepared : Z;
    InProgress : Z;
    Canceling : Z;
    Canceled : Z;
    Failed : Z;
    Completed : Z;
  }.
Definition zero : t := mk 0 0 0 0 0 0 0 0 0.
Global Instance eq_dec : EqDecision t.
Proof. solve_decision. Defined.
End DataMoverDataUploads.

Module NonAdminBackupStatus.
Record t := mk {
    Phase : NonAdminPhase;
    Conditions : list Condition.t;
    VeleroBackup : option VeleroBackup.t;
    VeleroDeleteBackupRequest : option VeleroDeleteBackupRequest.t;
    QueueInfo : option QueueInfo.t;
    FileSystemPodVolumeBackups : option FileSystemPodVolumeBackups.t;
    DataMoverDataUploads : option DataMoverDataUploads.t;
  }.
Definition zero : t := mk "" [] None None None None None.
Definition with_Phase p s :=
    mk p (Conditions s) (VeleroBackup s) (VeleroDeleteBackupRequest s)
       (QueueInfo s) (FileSystemPodVolumeBackups s) (DataMoverDataUploads s).
Definition with_Conditions c s :=
    mk (Phase s) c (VeleroBackup s) (VeleroDeleteBackupRequest s)
       (QueueInfo s) (FileSystemPodVolumeBackups s) (DataMoverDataUploads s).
Definition with_VeleroBackup v s :=
    mk (Phase s) (Conditions s) v (VeleroDeleteBackupRequest s)
       (QueueInfo s) (FileSystemPodVolumeBackups s) (DataMoverDataUploads s).
Definition with_VeleroDeleteBackupRequest v s :=
    mk (Phase s) (Conditions s) (VeleroBackup s) v
       (QueueInfo s) (FileSystemPodVolumeBackups s) (DataMoverDataUploads s).
Definition with_QueueInfo q s :=
    mk (Phase s) (Conditions s) (VeleroBackup s) (VeleroDeleteBackupRequest s)
       q (FileSystemPodVolumeBackups s) (DataMoverDataUploads s).
Definition with_FileSystemPodVolumeBackups c s :=
    mk (Phase s) (Conditions s) (VeleroBackup s) (VeleroDeleteBackupRequest s)
       (QueueInfo s) c (DataMoverDataUploads s).
Definition with_DataMoverDataUploads c s :=
    mk (Phase s) (Conditions s) (VeleroBackup s) (VeleroDeleteBackupRequest s)
       (QueueInfo s) (FileSystemPodVolumeBackups s) c.
Global Instance eq_dec : EqDecision t.
Proof. solve_decision. Defined.
End NonAdminBackupStatus.

Module NonAdminBackupSpec.
Record t := mk {
    BackupSpec : BackupSpec.t;
    DeleteBackup : bool;
  }.
Global Instance eq_dec : EqDecision t.
Proof. solve_decision. Defined.
End NonAdminBackupSpec.

Module NonAdminBackup.
Record t := mk {
    ObjectMeta : ObjectMeta.t;
    Spec : NonAdminBackupSpec.t;
    Status : NonAdminBackupStatus.t;
  }.
Definition zero : t :=
    mk ObjectMeta.zero (NonAdminBackupSpec.mk BackupSpec.zero false)
       NonAdminBackupStatus.zero.
Definition Name n := ObjectMeta.Name (ObjectMeta n).
Definition Namespace n := ObjectMeta.Namespace (ObjectMeta n).
Definition Labels n := ObjectMeta.Labels (ObjectMeta n).
Definition Finalizers n := ObjectMeta.Finalizers (ObjectMeta n).
Definition DeletionTimestamp n := ObjectMeta.DeletionTimestamp (ObjectMeta n).
Definition with_ObjectMeta m n := mk m (Spec n) (Status n).
Definition with_Status s n := mk (ObjectMeta n) (Spec n) s.
Global Instance eq_dec : EqDecision t.
Proof. solve_decision. Defined.
End NonAdminBackup.

Module NonAdminRestore.
Record t := mk {
    ObjectMeta : ObjectMeta.t;
    BackupName : string;                       (* Spec.RestoreSpec.BackupName *)
  }.
Definition Namespace r := ObjectMeta.Namespace (ObjectMeta r).
Definition Name r := ObjectMeta.Name (ObjectMeta r).
Global Instance eq_dec : EqDecision t.
Proof. solve_decision. Defined.
End NonAdminRestore.

Module NonAdminBackupStorageLocation.
Record t := mk {
    ObjectMeta : ObjectMeta.t;
    (* Status.VeleroBackupStorageLocation, a pointer; its Name *)
    VeleroBackupStorageLocation : option string;
  }.
Definition Namespace r := ObjectMeta.Namespace (ObjectMeta r).
Definition Name r := ObjectMeta.Name (ObjectMeta r).
End NonAdminBackupStorageLocation.

(** ** apimachinery and controller-runtime helpers (external packages) *)

(** [meta.FindStatusCondition] followed by the in-place update of
    [meta.SetStatusCondition]: the first condition of the type is updated,
    a missing one is appended.  [now] is [time.Now()]. *)
Definition updateCondition (now : Time) (existing new : Condition.t)
  : Condition.t * bool :=
  let statusChanged := negb (bool_decide (Condition.Status existing = Condition.Status new)) in
  let reasonChanged := negb (bool_decide (Condition.Reason existing = Condition.Reason new)) in
  let messageChanged := negb (bool_decide (Condition.Message existing = Condition.Message new)) in
  let generationChanged :=
    negb (Condition.ObservedGeneration existing =? Condition.ObservedGeneration new) in
  (Condition.mk (Condition.Type_ existing) (Condition.Status new)
     (Condition.ObservedGeneration new)
     (if statusChanged
      then (if Condition.LastTransitionTime new =? 0 then now
            else Condition.LastTransitionTime new)
      else Condition.LastTransitionTime existing)
     (Condition.Reason new) (Condition.Message new),
   statusChanged || reasonChanged || messageChanged || generationChanged).

Fixpoint SetStatusCondition (now : Time) (conditions : list Condition.t)
    (newCondition : Condition.t) : list Condition.t * bool :=
  match conditions with
  | [] =>
      ([Condition.mk (Condition.Type_ newCondition) (Condition.Status newCondition)
          (Condition.ObservedGeneration newCondition)
          (if Condition.LastTransitionTime newCondition =? 0 then now
           else Condition.LastTransitionTime newCondition)
          (Condition.Reason newCondition) (Condition.Message newCondition)],
       true)
  | existing :: rest =>
      if bool_decide (Condition.Type_ existing = Condition.Type_ newCondition)
      then let '(c, changed) := updateCondition now existing newCondition in
           (c :: rest, changed)
      else let '(rest', changed) := SetStatusCondition now rest newCondition in
           (existing :: rest', changed)
  end.

(** [meta.IsStatusConditionTrue] *)
Fixpoint IsStatusConditionTrue (conditions : list Condition.t)
    (conditionType : string) : bool :=
  match conditions with
  | [] => false
  | c :: rest =>
      if bool_decide (Condition.Type_ c = conditionType)
      then bool_decide (Condition.Status c = ConditionTrue)
      else IsStatusConditionTrue rest conditionType
  end.

(** [meta.FindStatusCondition]: the first condition of the type. *)
Fixpoint FindStatusCondition (conditions : list Condition.t)
    (conditionType : string) : option Condition.t :=
  match conditions with
  | [] => None
  | c :: rest =>
      if bool_decide (Condition.Type_ c = conditionType) then Some c
      else FindStatusCondition rest conditionType
  end.

(** [controllerutil.ContainsFinalizer], [AddFinalizer], [RemoveFinalizer] *)
Definition ContainsFinalizer (o : NonAdminBackup.t) (finalizer : string) : bool :=
  bool_decide (finalizer ∈ NonAdminBackup.Finalizers o).

Definition AddFinalizer (o : NonAdminBackup.t) (finalizer : string) : NonAdminBackup.t :=
  if ContainsFinalizer o finalizer then o
  else NonAdminBackup.with_ObjectMeta
         (ObjectMeta.with_Finalizers (NonAdminBackup.Finalizers o ++ [finalizer])
            (NonAdminBackup.ObjectMeta o)) o.

Definition RemoveFinalizer (o : NonAdminBackup.t) (finalizer : string) : NonAdminBackup.t :=
  NonAdminBackup.with_ObjectMeta
    (ObjectMeta.with_Finalizers
       (filter (λ f, f ≠ finalizer) (NonAdminBackup.Finalizers o))
       (NonAdminBackup.ObjectMeta o)) o.

(** ** Pure helpers of the controller (lines 851-1035) *)

(** [updateNonAdminPhase]: the new phase and whether it changed. *)
Definition updateNonAdminPhase (phase newPhase : NonAdminPhase) : NonAdminPhase * bool :=
  if bool_decide (phase = newPhase) then (phase, false) else (newPhase, true).

(** [updateNonAdminBackupVeleroBackupSpecStatus]; the nil pointers of the
    status are replaced by empty structs before the comparison, also when the
    function then reports no change. *)
Definition updateNonAdminBackupVeleroBackupSpecStatus
    (status : NonAdminBackupStatus.t) (veleroBackup : option Backup.t)
  : NonAdminBackupStatus.t * bool :=
  match veleroBackup with
  | None => (status, false)
  | Some veleroBackup =>
      let vb := default VeleroBackup.zero (NonAdminBackupStatus.VeleroBackup status) in
      let spec := default BackupSpec.zero (VeleroBackup.Spec vb) in
      let st := default BackupStatus.zero (VeleroBackup.Status vb) in
      if bool_decide (spec = Backup.Spec veleroBackup)
         && bool_decide (st = Backup.Status veleroBackup)
      then (NonAdminBackupStatus.with_VeleroBackup
              (Some (VeleroBackup.mk (VeleroBackup.NACUUID vb) (VeleroBackup.Namespace vb)
                       (VeleroBackup.Name vb) (Some spec) (Some st))) status,
            false)
      else (NonAdminBackupStatus.with_VeleroBackup
              (Some (VeleroBackup.mk (VeleroBackup.NACUUID vb) (VeleroBackup.Namespace vb)
                       (VeleroBackup.Name vb) (Some (Backup.Spec veleroBackup))
                       (Some (Backup.Status veleroBackup)))) status,
            true)
  end.

(** [updateNonAdminBackupDeleteBackupRequestStatus] *)
Definition updateNonAdminBackupDeleteBackupRequestStatus
    (status : NonAdminBackupStatus.t)
    (veleroDeleteBackupRequest : option DeleteBackupRequest.t)
  : NonAdminBackupStatus.t * bool :=
  match veleroDeleteBackupRequest with
  | None => (status, false)
  | Some veleroDeleteBackupRequest =>
      let r := default VeleroDeleteBackupRequest.zero
                 (NonAdminBackupStatus.VeleroDeleteBackupRequest status) in
      let st := default DeleteBackupRequestStatus.zero (VeleroDeleteBackupRequest.Status r) in
      if bool_decide (st = DeleteBackupRequest.Status veleroDeleteBackupRequest)
      then (NonAdminBackupStatus.with_VeleroDeleteBackupRequest
              (Some (VeleroDeleteBackupRequest.mk (VeleroDeleteBackupRequest.NACUUID r)
                       (VeleroDeleteBackupRequest.Namespace r)
                       (VeleroDeleteBackupRequest.Name r) (Some st))) status,
            false)
      else (NonAdminBackupStatus.with_VeleroDeleteBackupRequest
              (Some (VeleroDeleteBackupRequest.mk (VeleroDeleteBackupRequest.NACUUID r)
                       (VeleroDeleteBackupRequest.Namespace r)
                       (VeleroDeleteBackupRequest.Name r)
                       (Some (DeleteBackupRequest.Status veleroDeleteBackupRequest)))) status,
            true)
  end.

(** [if *field != value { *field = value; updated = true }] *)
Definition setCounter (field value : Z) (updated : bool) : Z * bool :=
  if bool_decide (field ≠ value) then (value, true) else (field, updated).

(** The [switch] of the loop over [podVolumeBackupList.Items]: the local
    counters [numberOfNew], [numberOfInProgress], [numberOfFailed],
    [numberOfCompleted]; any other phase takes the [default: continue]. *)
Definition tallyPodVolumeBackup (n : Z * Z * Z * Z) (podVolumeBackup : PodVolumeBackup.t)
  : Z * Z * Z * Z :=
  let '(numberOfNew, numberOfInProgress, numberOfFailed, numberOfCompleted) := n in
  let phase := PodVolumeBackup.Phase podVolumeBackup in
  if bool_decide (phase = PodVolumeBackupPhaseNew)
  then (numberOfNew + 1, numberOfInProgress, numberOfFailed, numberOfCompleted)
  else if bool_decide (phase = PodVolumeBackupPhaseInProgress)
  then (numberOfNew, numberOfInProgress + 1, numberOfFailed, numberOfCompleted)
  else if bool_decide (phase = PodVolumeBackupPhaseFailed)
  then (numberOfNew, numberOfInProgress, numberOfFailed + 1, numberOfCompleted)
  else if bool_decide (phase = PodVolumeBackupPhaseCompleted)
  then (numberOfNew, numberOfInProgress, numberOfFailed, numberOfCompleted + 1)
  else n.

Definition updateNonAdminBackupPodVolumeBackupStatus
    (status : NonAdminBackupStatus.t) (items : list PodVolumeBackup.t)
  : NonAdminBackupStatus.t * bool :=
  let c := default FileSystemPodVolumeBackups.zero
             (NonAdminBackupStatus.FileSystemPodVolumeBackups status) in
  let updated := false in
  let '(total, updated) :=
    setCounter (FileSystemPodVolumeBackups.Total c) (Z.of_nat (length items)) updated in
  let '(numberOfNew, numberOfInProgress, numberOfFailed, numberOfCompleted) :=
    foldl tallyPodVolumeBackup (0, 0, 0, 0) items in
  let '(new, updated) := setCounter (FileSystemPodVolumeBackups.New c) numberOfNew updated in
  let '(inProgress, updated) :=
    setCounter (FileSystemPodVolumeBackups.InProgress c) numberOfInProgress updated in
  let '(failed, updated) :=
    setCounter (FileSystemPodVolumeBackups.Failed c) numberOfFailed updated in
  let '(completed, updated) :=
    setCounter (FileSystemPodVolumeBackups.Completed c) numberOfCompleted updated in
  (NonAdminBackupStatus.with_FileSystemPodVolumeBackups
     (Some (FileSystemPodVolumeBackups.mk total new inProgress failed completed)) status,
   updated).

(** The local counters of the loop over [dataUploadList.Items]. *)
Record dataUploadTally := mkTally {
  numberOfNew : Z;
  numberOfAccepted : Z;
  numberOfPrepared : Z;
  numberOfInProgress : Z;
  numberOfCanceling : Z;
  numberOfCanceled : Z;
  numberOfFailed : Z;
  numberOfCompleted : Z;
}.

Definition tallyDataUpload (n : dataUploadTally) (dataUpload : DataUpload.t)
  : dataUploadTally :=
  let 'mkTally new accepted prepared inProgress canceling canceled failed completed := n in
  let phase := DataUpload.Phase dataUpload in
  if bool_decide (phase = DataUploadPhaseNew)
  then mkTally (new + 1) accepted prepared inProgress canceling canceled failed completed
  else if bool_decide (phase = DataUploadPhaseAccepted)
  then mkTally new (accepted + 1) prepared inProgress canceling canceled failed completed
  else if bool_decide (phase = DataUploadPhasePrepared)
  then mkTally new accepted (prepared + 1) inProgress canceling canceled failed completed
  else if bool_decide (phase = DataUploadPhaseInProgress)
  then mkTally new accepted prepared (inProgress + 1) canceling canceled failed completed
  else if bool_decide (phase = DataUploadPhaseCanceling)
  then mkTally new accepted prepared inProgress (canceling + 1) canceled failed completed
  else if bool_decide (phase = DataUploadPhaseCanceled)
  then mkTally new accepted prepared inProgress canceling (canceled + 1) failed completed
  else if bool_decide (phase = DataUploadPhaseFailed)
  then mkTally new accepted prepared inProgress canceling canceled (failed + 1) completed
  else if bool_decide (phase = DataUploadPhaseCompleted)
  then mkTally new accepted prepared inProgress canceling canceled failed (completed + 1)
  else n.

Definition updateNonAdminBackupDataUploadStatus
    (status : NonAdminBackupStatus.t) (items : list DataUpload.t)
  : NonAdminBackupStatus.t * bool :=
  let c := default DataMoverDataUploads.zero
             (NonAdminBackupStatus.DataMoverDataUploads status) in
  let updated := false in
  let '(total, updated) :=
    setCounter (DataMoverDataUploads.Total c) (Z.of_nat (length items)) updated in
  let n := foldl tallyDataUpload (mkTally 0 0 0 0 0 0 0 0) items in
  let '(new, updated) := setCounter (DataMoverDataUploads.New c) (numberOfNew n) updated in
  let '(accepted, updated) :=
    setCounter (DataMoverDataUploads.Accepted c) (numberOfAccepted n) updated in
  let '(prepared, updated) :=
    setCounter (DataMoverDataUploads.Prepared c) (numberOfPrepared n) updated in
  let '(inProgress, updated) :=
    setCounter (DataMoverDataUploads.InProgress c) (numberOfInProgress n) updated in
  let '(canceling, updated) :=
    setCounter (DataMoverDataUploads.Canceling c) (numberOfCanceling n) updated in
  let '(canceled, updated) :=
    setCounter (DataMoverDataUploads.Canceled c) (numberOfCanceled n) updated in
  let '(failed, updated) :=
    setCounter (DataMoverDataUploads.Failed c) (numberOfFailed n) updated in
  let '(completed, updated) :=
    setCounter (DataMoverDataUploads.Completed c) (numberOfCompleted n) updated in
  (NonAdminBackupStatus.with_DataMoverDataUploads
     (Some (DataMoverDataUploads.mk total new accepted prepared inProgress canceling
              canceled failed completed)) status,
   updated).

(** ** Errors *)

(** Go [error] values: an API status error with its reason
    ([apierrors.IsNotFound] tests the reason), [errors.New(msg)], and
    [reconcile.TerminalError(err)], which tells the controller runtime not to
    retry. *)
Inductive error :=
  | StatusError (reason : string)
  | errors_New (msg : string)
  | TerminalError (err : error).

Global Instance error_eq_dec : EqDecision error.
Proof. solve_decision. Defined.

Definition StatusReasonNotFound := "NotFound".
Definition StatusReasonAlreadyExists := "AlreadyExists".
Definition StatusReasonInternalError := "InternalError".

Definition IsNotFound (err : error) : bool :=
  match err with
  | StatusError reason => bool_decide (reason = StatusReasonNotFound)
  | _ => false
  end.

(** [err.Error()] *)
Fixpoint Error (err : error) : string :=
  match err with
  | StatusError reason => reason
  | errors_New msg => msg
  | TerminalError err => String.append "terminal error: " (Error err)
  end.

(** Whether the controller runtime suppresses the retry. *)
Definition isTerminal (err : error) : bool :=
  match err with
  | TerminalError _ => true
  | _ => false
  end.

(** ** The cluster API

    The state the reconciler reads and writes through [client.Client]: the
    NonAdminBackup stored under the key being reconciled, the engine objects
    of the cluster, and the tenant-side restores and storage locations.
    [faults] is the schedule of the API failures still to come (one entry is
    consumed by every client call, [true] makes the call fail); [calls] is the
    log of the write calls issued so far, failed ones included. *)

Inductive Call :=
  | StatusUpdate (nab : NonAdminBackup.t)                 (* r.Status().Update(ctx, nab) *)
  | Update (nab : NonAdminBackup.t)                       (* r.Update(ctx, nab) *)
  | DeleteNonAdminBackup (nab : NonAdminBackup.t)         (* r.Delete(ctx, nab) *)
  | DeleteNonAdminRestore (nar : NonAdminRestore.t)
  | CreateBackup (backup : Backup.t)                      (* r.Create(ctx, veleroBackup) *)
  | DeleteBackup (backup : Backup.t)
  | CreateDeleteBackupRequest (dbr : DeleteBackupRequest.t)
  | DeleteDeleteBackupRequest (dbr : DeleteBackupRequest.t).

Module Cluster.
Record t := mk {
    nonAdminBackup : option NonAdminBackup.t;
    backups : list Backup.t;
    deleteBackupRequests : list DeleteBackupRequest.t;
    nonAdminRestores : list NonAdminRestore.t;
    nonAdminBackupStorageLocations : list NonAdminBackupStorageLocation.t;
    podVolumeBackups : list PodVolumeBackup.t;
    dataUploads : list DataUpload.t;
    clock : positive;              (* the server's time, never the zero time *)
    nextUID : string;              (* the UID given to the next created object *)
    nextName : string;             (* the suffix appended to a generateName *)
    faults : list bool;
    calls : list Call;
  }.
Definition with_nonAdminBackup n c :=
    mk n (backups c) (deleteBackupRequests c) (nonAdminRestores c)
       (nonAdminBackupStorageLocations c) (podVolumeBackups c) (dataUploads c)
       (clock c) (nextUID c) (nextName c) (faults c) (calls c).
Definition with_backups b c :=
    mk (nonAdminBackup c) b (deleteBackupRequests c) (nonAdminRestores c)
       (nonAdminBackupStorageLocations c) (podVolumeBackups c) (dataUploads c)
       (clock c) (nextUID c) (nextName c) (faults c) (calls c).
Definition with_deleteBackupRequests d c :=
    mk (nonAdminBackup c) (backups c) d (nonAdminRestores c)
       (nonAdminBackupStorageLocations c) (podVolumeBackups c) (dataUploads c)
       (clock c) (nextUID c) (nextName c) (faults c) (calls c).
Definition with_nonAdminRestores r c :=
    mk (nonAdminBackup c) (backups c) (deleteBackupRequests c) r
       (nonAdminBackupStorageLocations c) (podVolumeBackups c) (dataUploads c)
       (clock c) (nextUID c) (nextName c) (faults c) (calls c).
Definition with_faults f c :=
    mk (nonAdminBackup c) (backups c) (deleteBackupRequests c) (nonAdminRestores c)
       (nonAdminBackupStorageLocations c) (podVolumeBackups c) (dataUploads c)
       (clock c) (nextUID c) (nextName c) f (calls c).
Definition with_calls l c :=
    mk (nonAdminBackup c) (backups c) (deleteBackupRequests c) (nonAdminRestores c)
       (nonAdminBackupStorageLocations c) (podVolumeBackups c) (dataUploads c)
       (clock c) (nextUID c) (nextName c) (faults c) l.
Definition now c : Time := Z.pos (clock c).
End Cluster.

(** [types.NamespacedName] *)
Record NamespacedName := { Namespace : string; Name : string }.

Definition hasKey (key : NamespacedName) (meta : ObjectMeta.t) : bool :=
  bool_decide (ObjectMeta.Namespace meta = Namespace key)
  && bool_decide (ObjectMeta.Name meta = Name key).

Definition keyOf (meta : ObjectMeta.t) : NamespacedName :=
  {| Namespace := ObjectMeta.Namespace meta; Name := ObjectMeta.Name meta |}.

(** [labels.SelectorFromSet]: every pair of the set is a label of the object. *)
Definition selects (selector : list (string * string)) (labels : gmap string string) : bool :=
  forallb (λ kv, bool_decide (labels !! kv.1 = Some kv.2)) selector.

(** Every client call first draws from the fault schedule. *)
Definition drawFault (c : Cluster.t) : bool * Cluster.t :=
  (hd false (Cluster.faults c), Cluster.with_faults (tl (Cluster.faults c)) c).

Definition logCall (call : Call) (c : Cluster.t) : Cluster.t :=
  Cluster.with_calls (Cluster.calls c ++ [call]) c.

(** The stored NonAdminBackup, when it is the one named by [key]. *)
Definition stored (key : NamespacedName) (c : Cluster.t) : option NonAdminBackup.t :=
  match Cluster.nonAdminBackup c with
  | Some n => if hasKey key (NonAdminBackup.ObjectMeta n) then Some n else None
  | None => None
  end.

(** [r.Get(ctx, key, nab)] *)
Definition Get (key : NamespacedName) (c : Cluster.t)
  : (NonAdminBackup.t + error) * Cluster.t :=
  let '(failed, c) := drawFault c in
  if failed then (inr (StatusError StatusReasonInternalError), c)
  else match stored key c with
       | Some n => (inl n, c)
       | None => (inr (StatusError StatusReasonNotFound), c)
       end.

(** [r.Status().Update(ctx, nab)]: only the status of the stored object is
    replaced; the answer is the stored object. *)
Definition Status_Update (nab : NonAdminBackup.t) (c : Cluster.t)
  : (NonAdminBackup.t + error) * Cluster.t :=
  let c := logCall (StatusUpdate nab) c in
  let '(failed, c) := drawFault c in
  if failed then (inr (StatusError StatusReasonInternalError), c)
  else match stored (keyOf (NonAdminBackup.ObjectMeta nab)) c with
       | Some n =>
           let n' := NonAdminBackup.with_Status (NonAdminBackup.Status nab) n in
           (inl n', Cluster.with_nonAdminBackup (Some n') c)
       | None => (inr (StatusError StatusReasonNotFound), c)
       end.

(** [r.Update(ctx, nab)]: metadata and spec are replaced, the status and the
    deletion timestamp are the server's; an object marked for deletion whose
    last finalizer goes away is removed. *)
Definition Client_Update (nab : NonAdminBackup.t) (c : Cluster.t)
  : (NonAdminBackup.t + error) * Cluster.t :=
  let c := logCall (Update nab) c in
  let '(failed, c) := drawFault c in
  if failed then (inr (StatusError StatusReasonInternalError), c)
  else match stored (keyOf (NonAdminBackup.ObjectMeta nab)) c with
       | Some n =>
           let n' :=
             NonAdminBackup.mk
               (ObjectMeta.with_DeletionTimestamp (NonAdminBackup.DeletionTimestamp n)
                  (NonAdminBackup.ObjectMeta nab))
               (NonAdminBackup.Spec nab) (NonAdminBackup.Status n) in
           (inl n',
            Cluster.with_nonAdminBackup
              (match NonAdminBackup.DeletionTimestamp n', NonAdminBackup.Finalizers n' with
               | Some _, [] => None
               | _, _ => Some n'
               end) c)
       | None => (inr (StatusError StatusReasonNotFound), c)
       end.

(** [r.Delete(ctx, nab)]: an object without finalizers is removed, one with
    finalizers gets its deletion timestamp. *)
Definition Client_Delete (nab : NonAdminBackup.t) (c : Cluster.t)
  : option error * Cluster.t :=
  let c := logCall (DeleteNonAdminBackup nab) c in
  let '(failed, c) := drawFault c in
  if failed then (Some (StatusError StatusReasonInternalError), c)
  else match stored (keyOf (NonAdminBackup.ObjectMeta nab)) c with
       | Some n =>
           (None,
            Cluster.with_nonAdminBackup
              (match NonAdminBackup.Finalizers n, NonAdminBackup.DeletionTimestamp n with
               | [], _ => None
               | _, Some _ => Some n
               | _, None =>
                   Some (NonAdminBackup.with_ObjectMeta
                           (ObjectMeta.with_DeletionTimestamp (Some (Cluster.now c))
                              (NonAdminBackup.ObjectMeta n)) n)
               end) c)
       | None => (Some (StatusError StatusReasonNotFound), c)
       end.

(** [r.List] of velero Backups in a namespace, by label selector. *)
Definition List_Backups (namespace : string) (selector : list (string * string))
    (c : Cluster.t) : (list Backup.t + error) * Cluster.t :=
  let '(failed, c) := drawFault c in
  if failed then (inr (StatusError StatusReasonInternalError), c)
  else (inl (filter (λ b, Backup.Namespace b = namespace
                          ∧ selects selector (Backup.Labels b) = true)
               (Cluster.backups c)), c).

(** [r.Create(ctx, veleroBackup)]: the server fills in UID and creation time. *)
Definition Create_Backup (backup : Backup.t) (c : Cluster.t)
  : (Backup.t + error) * Cluster.t :=
  let c := logCall (CreateBackup backup) c in
  let '(failed, c) := drawFault c in
  if failed then (inr (StatusError StatusReasonInternalError), c)
  else if existsb (λ b, hasKey (keyOf (Backup.ObjectMeta backup)) (Backup.ObjectMeta b))
            (Cluster.backups c)
  then (inr (StatusError StatusReasonAlreadyExists), c)
  else
    let m := Backup.ObjectMeta backup in
    let created :=
      Backup.mk
        (ObjectMeta.mk (ObjectMeta.Name m) (ObjectMeta.GenerateName m)
           (ObjectMeta.Namespace m) (Cluster.nextUID c) (Cluster.now c)
           (ObjectMeta.DeletionTimestamp m) (ObjectMeta.Labels m)
           (ObjectMeta.Annotations m) (ObjectMeta.Finalizers m))
        (Backup.Spec backup) (Backup.Status backup) in
    (inl created, Cluster.with_backups (Cluster.backups c ++ [created]) c).

(** What the API server does to the metadata of an object on a delete
    call: an object without finalizers is removed, an object with finalizers
    stays and gets its deletion timestamp, unless it has one already. *)
Definition releaseObject (now : Time) (m : ObjectMeta.t) : option ObjectMeta.t :=
  match ObjectMeta.Finalizers m with
  | [] => None
  | _ :: _ =>
      Some (match ObjectMeta.DeletionTimestamp m with
            | Some _ => m
            | None => ObjectMeta.with_DeletionTimestamp (Some now) m
            end)
  end.

(** The objects of [l] after a delete call on the object named [key]. *)
Definition releaseNamed {A} (meta : A → ObjectMeta.t) (with_meta : ObjectMeta.t → A → A)
    (key : NamespacedName) (now : Time) (l : list A) : list A :=
  omap (λ x, if hasKey key (meta x)
             then (λ m, with_meta m x) <$> releaseObject now (meta x)
             else Some x) l.

(** [r.Delete(ctx, veleroBackup)]: the deletion is initiated, a Backup that
    holds a finalizer stays, marked for deletion. *)
Definition Delete_Backup (backup : Backup.t) (c : Cluster.t)
  : option error * Cluster.t :=
  let c := logCall (DeleteBackup backup) c in
  let '(failed, c) := drawFault c in
  if failed then (Some (StatusError StatusReasonInternalError), c)
  else
    let key := keyOf (Backup.ObjectMeta backup) in
    if existsb (λ b, hasKey key (Backup.ObjectMeta b)) (Cluster.backups c)
    then (None,
          Cluster.with_backups
            (releaseNamed Backup.ObjectMeta
               (λ m b, Backup.mk m (Backup.Spec b) (Backup.Status b))
               key (Cluster.now c) (Cluster.backups c)) c)
    else (Some (StatusError StatusReasonNotFound), c).

(** [r.List] of DeleteBackupRequests in a namespace, by label selector. *)
Definition List_DeleteBackupRequests (namespace : string)
    (selector : list (string * string)) (c : Cluster.t)
  : (list DeleteBackupRequest.t + error) * Cluster.t :=
  let '(failed, c) := drawFault c in
  if failed then (inr (StatusError StatusReasonInternalError), c)
  else (inl (filter (λ d, DeleteBackupRequest.Namespace d = namespace
                          ∧ selects selector (DeleteBackupRequest.Labels d) = true)
               (Cluster.deleteBackupRequests c)), c).

(** [veleroclient.CreateRetryGenerateName]: the object has a generateName and
    no name, the server appends a suffix; the retries on a name collision
    are left to the fault schedule. *)
Definition CreateRetryGenerateName (dbr : DeleteBackupRequest.t) (c : Cluster.t)
  : (DeleteBackupRequest.t + error) * Cluster.t :=
  let c := logCall (CreateDeleteBackupRequest dbr) c in
  let '(failed, c) := drawFault c in
  if failed then (inr (StatusError StatusReasonInternalError), c)
  else
    let m := DeleteBackupRequest.ObjectMeta dbr in
    let name :=
      if bool_decide (ObjectMeta.Name m = "")
      then String.append (ObjectMeta.GenerateName m) (Cluster.nextName c)
      else ObjectMeta.Name m in
    let created :=
      DeleteBackupRequest.mk
        (ObjectMeta.mk name (ObjectMeta.GenerateName m) (ObjectMeta.Namespace m)
           (Cluster.nextUID c) (Cluster.now c) (ObjectMeta.DeletionTimestamp m)
           (ObjectMeta.Labels m) (ObjectMeta.Annotations m) (ObjectMeta.Finalizers m))
        (DeleteBackupRequest.BackupName dbr) (DeleteBackupRequest.Status dbr) in
    if existsb (λ d, hasKey (keyOf (DeleteBackupRequest.ObjectMeta created))
                       (DeleteBackupRequest.ObjectMeta d))
         (Cluster.deleteBackupRequests c)
    then (inr (StatusError StatusReasonAlreadyExists), c)
    else (inl created,
          Cluster.with_deleteBackupRequests (Cluster.deleteBackupRequests c ++ [created]) c).

(** [r.Delete(ctx, deleteBackupRequest)]; finalizers are honoured as for the
    Backups. *)
Definition Delete_DeleteBackupRequest (dbr : DeleteBackupRequest.t) (c : Cluster.t)
  : option error * Cluster.t :=
  let c := logCall (DeleteDeleteBackupRequest dbr) c in
  let '(failed, c) := drawFault c in
  if failed then (Some (StatusError StatusReasonInternalError), c)
  else
    let key := keyOf (DeleteBackupRequest.ObjectMeta dbr) in
    if existsb (λ d, hasKey key (DeleteBackupRequest.ObjectMeta d))
         (Cluster.deleteBackupRequests c)
    then (None,
          Cluster.with_deleteBackupRequests
            (releaseNamed DeleteBackupRequest.ObjectMeta
               (λ m d, DeleteBackupRequest.mk m (DeleteBackupRequest.BackupName d)
                         (DeleteBackupRequest.Status d))
               key (Cluster.now c) (Cluster.deleteBackupRequests c)) c)
    else (Some (StatusError StatusReasonNotFound), c).

(** [r.List(ctx, nonAdminRestores, client.InNamespace(namespace))] *)
Definition List_NonAdminRestores (namespace : string) (c : Cluster.t)
  : (list NonAdminRestore.t + error) * Cluster.t :=
  let '(failed, c) := drawFault c in
  if failed then (inr (StatusError StatusReasonInternalError), c)
  else (inl (filter (λ r, NonAdminRestore.Namespace r = namespace)
               (Cluster.nonAdminRestores c)), c).

(** [r.Delete(ctx, &nonAdminRestore)]; a restore that holds a finalizer is
    only marked for deletion. *)
Definition Delete_NonAdminRestore (nar : NonAdminRestore.t) (c : Cluster.t)
  : option error * Cluster.t :=
  let c := logCall (DeleteNonAdminRestore nar) c in
  let '(failed, c) := drawFault c in
  if failed then (Some (StatusError StatusReasonInternalError), c)
  else
    let key := keyOf (NonAdminRestore.ObjectMeta nar) in
    if existsb (λ r, hasKey key (NonAdminRestore.ObjectMeta r)) (Cluster.nonAdminRestores c)
    then (None,
          Cluster.with_nonAdminRestores
            (releaseNamed NonAdminRestore.ObjectMeta
               (λ m r, NonAdminRestore.mk m (NonAdminRestore.BackupName r))
               key (Cluster.now c) (Cluster.nonAdminRestores c)) c)
    else (Some (StatusError StatusReasonNotFound), c).

(** [r.Get(ctx, key, nonAdminBsl)] *)
Definition Get_NonAdminBackupStorageLocation (key : NamespacedName) (c : Cluster.t)
  : (NonAdminBackupStorageLocation.t + error) * Cluster.t :=
  let '(failed, c) := drawFault c in
  if failed then (inr (StatusError StatusReasonInternalError), c)
  else match List.find (λ l, hasKey key (NonAdminBackupStorageLocation.ObjectMeta l))
               (Cluster.nonAdminBackupStorageLocations c) with
       | Some l => (inl l, c)
       | None => (inr (StatusError StatusReasonNotFound), c)
       end.

(** [r.List] of PodVolumeBackups and of DataUploads by label selector.  On
    an error the list handed in by the caller stays empty. *)
Definition List_PodVolumeBackups (namespace : string) (selector : list (string * string))
    (c : Cluster.t) : (list PodVolumeBackup.t + error) * Cluster.t :=
  let '(failed, c) := drawFault c in
  if failed then (inr (StatusError StatusReasonInternalError), c)
  else (inl (filter (λ p, PodVolumeBackup.Namespace p = namespace
                          ∧ selects selector (PodVolumeBackup.Labels p) = true)
               (Cluster.podVolumeBackups c)), c).

Definition List_DataUploads (namespace : string) (selector : list (string * string))
    (c : Cluster.t) : (list DataUpload.t + error) * Cluster.t :=
  let '(failed, c) := drawFault c in
  if failed then (inr (StatusError StatusReasonInternalError), c)
  else (inl (filter (λ p, DataUpload.Namespace p = namespace
                          ∧ selects selector (DataUpload.Labels p) = true)
               (Cluster.dataUploads c)), c).

(** ** Packages [constant] and [function]

    The declarations of [internal/common/constant] and the helpers of
    [internal/common/function] are not part of the sources at hand.  The
    string constants and the helpers whose behaviour the specification leaves
    open are parameters of the development; the helpers the specification
    describes are modelled from it below. *)

Definition constant_EmptyString : string := "".

Record Constants := {
  NabFinalizerName : string;
  NabSyncLabel : string;
  NabOriginNACUUIDLabel : string;
  NabOriginNamespaceAnnotation : string;
  NabOriginNameAnnotation : string;
  NabOriginUIDAnnotation : string;
  (* the resource names nacv1alpha1.NonAdminBackups, ... *)
  NonAdminBackups : string;
  NonAdminRestores : string;
  NonAdminBackupStorageLocations : string;
}.

Record Functions := {
  (* function.GenerateNacObjectUUID(namespace, name): the UUID minted *)
  GenerateNacObjectUUID : string → string → string;
  (* function.CheckLabelAnnotationValueIsValid(labels, key) *)
  CheckLabelAnnotationValueIsValid : gmap string string → string → bool;
  (* function.ValidateBackupSpec(ctx, client, oadpNamespace, nab, enforcedSpec):
     nil or the validation error; it reads the cluster and the object *)
  ValidateBackupSpec :
    Cluster.t → string → NonAdminBackup.t → BackupSpec.t → option error;
  (* function.GetNonAdminLabels() *)
  GetNonAdminLabels : gmap string string;
  (* label.GetValidName(name) of velero *)
  GetValidName : string → string;
  (* the engine phases the queue position counts as terminal *)
  terminalBackupPhase : string → bool;
}.

(** [NonAdminBackupReconciler]; the embedded client is the cluster state. *)
Record NonAdminBackupReconciler := {
  EnforcedBackupSpec : BackupSpec.t;
  OADPNamespace : string;
}.

(** The packages and the reconciler in use are found by instance resolution. *)
Existing Class Constants.
Existing Class Functions.
Existing Class NonAdminBackupReconciler.

(** ** The reconciler *)

(** The state of one pass: the cluster and the object behind the pointer
    [nab] that every step receives. *)
Record State := { cluster : Cluster.t; nab : NonAdminBackup.t }.

(** A statement either goes on with a value, executes [return requeue, err],
    or panics. *)
Inductive Flow (A : Type) :=
  | Next (a : A)
  | Return (requeue : bool) (err : option error)
  | Panic.
Arguments Next {A} a.
Arguments Return {A} requeue err.
Arguments Panic {A}.

Definition M (A : Type) : Type := State → Flow A * State.

Global Instance M_ret : MRet M := λ A a s, (Next a, s).

Global Instance M_bind : MBind M := λ A B k m s,
  match m s with
  | (Next a, s') => k a s'
  | (Return requeue err, s') => (Return requeue err, s')
  | (Panic, s') => (Panic, s')
  end.

(** [return requeue, err] *)
Definition return_ {A} (requeue : bool) (err : option error) : M A :=
  λ s, (Return requeue err, s).

Definition panic {A} : M A := λ s, (Panic, s).

(** [if err != nil { return false, err }] *)
Definition check (err : option error) : M unit :=
  match err with
  | Some err => return_ false (Some err)
  | None => mret tt
  end.

Definition when (b : bool) (m : M unit) : M unit := if b then m else mret tt.

Definition getNab : M NonAdminBackup.t := λ s, (Next (nab s), s).
Definition setNab (n : NonAdminBackup.t) : M unit :=
  λ s, (Next tt, {| cluster := cluster s; nab := n |}).
Definition getCluster : M Cluster.t := λ s, (Next (cluster s), s).

(** A client call. *)
Definition call {A} (f : Cluster.t → A * Cluster.t) : M A :=
  λ s, let '(a, c) := f (cluster s) in (Next a, {| cluster := c; nab := nab s |}).

(** A client call that decodes the answer into [nab]. *)
Definition callInto (f : NonAdminBackup.t → Cluster.t → (NonAdminBackup.t + error) * Cluster.t)
  : M (option error) :=
  n ← getNab;
  r ← call (f n);
  match r with
  | inl n' => setNab n';; mret None
  | inr err => mret (Some err)
  end.

(** A step of the reconciler, [nonAdminBackupReconcileStepFunction]. *)
Definition Step := M Empty_set.

Section Controller.
Context {constant : Constants} {function : Functions}
    {r : NonAdminBackupReconciler}.

Definition alwaysExcludedNamespacedResources : list string :=
    [ constant.(NonAdminBackups); constant.(NonAdminRestores);
      constant.(NonAdminBackupStorageLocations) ].

Definition alwaysExcludedClusterResources : list string :=
    [ "securitycontextconstraints"; "clusterroles"; "clusterrolebindings";
      "priorityclasses"; "customresourcedefinitions";
      "virtualmachineclusterinstancetypes"; "virtualmachineclusterpreferences" ].

  (** Modelled from the spec: [function.GetVeleroBackupByLabel] is missing
      from the sources; section 4.3: list by the UUID label in the operator
      namespace, no match gives [(nil, nil)], one match the object, more than
      one an error. *)
Definition GetVeleroBackupByLabel (namespace uuid : string) (c : Cluster.t)
    : (option Backup.t + error) * Cluster.t :=
    let '(listed, c) :=
      List_Backups namespace [(constant.(NabOriginNACUUIDLabel), uuid)] c in
    match listed with
    | inr err => (inr err, c)
    | inl [] => (inl None, c)
    | inl [backup] => (inl (Some backup), c)
    | inl _ => (inr (errors_New "multiple VeleroBackup objects found"), c)
    end.

  (** Modelled from the spec: [function.GetVeleroDeleteBackupRequestByLabel]
      is missing from the sources; the lookup of section 4.3 over the delete
      requests. *)
Definition GetVeleroDeleteBackupRequestByLabel (namespace uuid : string)
      (c : Cluster.t) : (option DeleteBackupRequest.t + error) * Cluster.t :=
    let '(listed, c) :=
      List_DeleteBackupRequests namespace [(constant.(NabOriginNACUUIDLabel), uuid)] c in
    match listed with
    | inr err => (inr err, c)
    | inl [] => (inl None, c)
    | inl [dbr] => (inl (Some dbr), c)
    | inl _ => (inr (errors_New "multiple DeleteBackupRequest objects found"), c)
    end.

  (** Modelled from the spec: [function.GetBackupQueueInfo] is missing from
      the sources; section 4.4: count the engine backups of the operator
      namespace created earlier than this one whose phase is not terminal,
      the position is the count plus one. *)
Definition GetBackupQueueInfo (namespace : string) (targetBackup : Backup.t)
      (c : Cluster.t) : (QueueInfo.t + error) * Cluster.t :=
    let '(listed, c) := List_Backups namespace [] c in
    match listed with
    | inr err => (inr err, c)
    | inl backups =>
        let earlier :=
          filter (λ b, Backup.CreationTimestamp b < Backup.CreationTimestamp targetBackup
                       ∧ function.(terminalBackupPhase)
                           (BackupStatus.Phase (Backup.Status b)) = false)
            backups in
        (inl (QueueInfo.mk (Z.of_nat (length earlier) + 1)), c)
    end.

  (** Modelled from the spec: [function.GetNonAdminBackupAnnotations] is
      missing from the sources; section 3: the annotations record the origin
      namespace, name and UID. *)
Definition GetNonAdminBackupAnnotations (meta : ObjectMeta.t) : gmap string string :=
    <[constant.(NabOriginNamespaceAnnotation) := ObjectMeta.Namespace meta]>
      (<[constant.(NabOriginNameAnnotation) := ObjectMeta.Name meta]>
         (<[constant.(NabOriginUIDAnnotation) := ObjectMeta.UID meta]> ∅)).

  (** [updateNonAdminPhase(&nab.Status.Phase, newPhase)] *)
Definition setPhase (newPhase : NonAdminPhase) : M bool :=
    n ← getNab;
    let '(phase, updated) :=
      updateNonAdminPhase (NonAdminBackupStatus.Phase (NonAdminBackup.Status n)) newPhase in
    setNab (NonAdminBackup.with_Status
              (NonAdminBackupStatus.with_Phase phase (NonAdminBackup.Status n)) n);;
    mret updated.

  (** [meta.SetStatusCondition(&nab.Status.Conditions, metav1.Condition{...})] *)
Definition setCondition (type status reason message : string) : M bool :=
    n ← getNab;
    c ← getCluster;
    let '(conditions, changed) :=
      SetStatusCondition (Cluster.now c)
        (NonAdminBackupStatus.Conditions (NonAdminBackup.Status n))
        (Condition.mk type status 0 0 reason message) in
    setNab (NonAdminBackup.with_Status
              (NonAdminBackupStatus.with_Conditions conditions (NonAdminBackup.Status n)) n);;
    mret changed.

  (** A pure update of [nab.Status] that reports whether it changed it. *)
Definition onStatus (f : NonAdminBackupStatus.t → NonAdminBackupStatus.t * bool) : M bool :=
    n ← getNab;
    let '(status, updated) := f (NonAdminBackup.Status n) in
    setNab (NonAdminBackup.with_Status status n);;
    mret updated.

  (** Lines 185-214. *)
Definition setStatusAndConditionForDeletionAndCallDelete : Step :=
    updatedPhase ← setPhase NonAdminPhaseDeleting;
    updatedCondition ←
      setCondition NonAdminConditionDeleting ConditionTrue "DeletionPending"
        "backup accepted for deletion";
    when (updatedPhase || updatedCondition)
      (err ← callInto Status_Update; check err);;
    n ← getNab;
    if Time_IsZero (NonAdminBackup.DeletionTimestamp n)
    then err ← call (Client_Delete n);
         check err;;
         return_ true None
    else return_ false None.

  (** Lines 228-251. *)
Definition setStatusForDirectKubernetesAPIDeletion : Step :=
    updatedPhase ← setPhase NonAdminPhaseDeleting;
    updatedCondition ←
      setCondition NonAdminConditionDeleting ConditionTrue "DeletionPending"
        "permanent backup deletion requires setting spec.deleteBackup to true";
    when (updatedPhase || updatedCondition)
      (err ← callInto Status_Update; check err);;
    return_ false None.

  (** The loop of lines 261-269. *)
Fixpoint deleteMatchingRestores (name : string) (items : list NonAdminRestore.t)
    : M unit :=
    match items with
    | [] => mret tt
    | nonAdminRestore :: rest =>
        when (bool_decide (NonAdminRestore.BackupName nonAdminRestore = name))
          (err ← call (Delete_NonAdminRestore nonAdminRestore); check err);;
        deleteMatchingRestores name rest
    end.

  (** Lines 253-272. *)
Definition deleteNonAdminRestores : Step :=
    n ← getNab;
    listed ← call (List_NonAdminRestores (NonAdminBackup.Namespace n));
    match listed with
    | inr err => return_ false (Some err)
    | inl items =>
        deleteMatchingRestores (NonAdminBackup.Name n) items;;
        return_ false None
    end.

  (** Lines 457-470. *)
Definition removeNabFinalizerUponVeleroBackupDeletion : Step :=
    n ← getNab;
    setNab (RemoveFinalizer n constant.(NabFinalizerName));;
    err ← callInto Client_Update;
    check err;;
    return_ false None.

  (** [nab.Status.VeleroBackup == nil || nab.Status.VeleroBackup.NACUUID == ""];
      the UUID otherwise. *)
Definition statusNACUUID (n : NonAdminBackup.t) : option string :=
    match NonAdminBackupStatus.VeleroBackup (NonAdminBackup.Status n) with
    | None => None
    | Some vb =>
        if bool_decide (VeleroBackup.NACUUID vb = constant_EmptyString) then None
        else Some (VeleroBackup.NACUUID vb)
    end.

  (** The delete request built at lines 323-334. *)
Definition buildDeleteBackupRequest (n : NonAdminBackup.t) (veleroBackup : Backup.t)
      (veleroBackupNACUUID : string) : DeleteBackupRequest.t :=
    DeleteBackupRequest.mk
      (ObjectMeta.mk "" (String.append (Backup.Name veleroBackup) "-")
         r.(OADPNamespace) "" 0 None
         (function.(GetNonAdminLabels)
          ∪ <[BackupNameLabel := function.(GetValidName) (Backup.Name veleroBackup)]>
              (<[BackupUIDLabel := Backup.UID veleroBackup]>
                 (<[constant.(NabOriginNACUUIDLabel) := veleroBackupNACUUID]> ∅)))
         (Some (GetNonAdminBackupAnnotations (NonAdminBackup.ObjectMeta n)))
         [])
      (Backup.Name veleroBackup) DeleteBackupRequestStatus.zero.

  (** Lines 291-363. *)
Definition createVeleroDeleteBackupRequest : Step :=
    n ← getNab;
    match (if ContainsFinalizer n constant.(NabFinalizerName)
           then statusNACUUID n else None) with
    | None => return_ false None
    | Some veleroBackupNACUUID =>
        found ← call (GetVeleroBackupByLabel r.(OADPNamespace) veleroBackupNACUUID);
        match found with
        | inr err => return_ false (Some err)
        | inl None => removeNabFinalizerUponVeleroBackupDeletion
        | inl (Some veleroBackup) =>
            foundRequest ←
              call (GetVeleroDeleteBackupRequestByLabel r.(OADPNamespace)
                      veleroBackupNACUUID);
            match foundRequest with
            | inr err => return_ false (Some err)
            | inl foundRequest =>
                deleteBackupRequest ←
                  match foundRequest with
                  | Some deleteBackupRequest => mret deleteBackupRequest
                  | None =>
                      created ←
                        call (CreateRetryGenerateName
                                (buildDeleteBackupRequest n veleroBackup
                                   veleroBackupNACUUID));
                      match created with
                      | inr err => return_ false (Some err)
                      | inl deleteBackupRequest =>
                          setNab
                            (NonAdminBackup.with_Status
                               (NonAdminBackupStatus.with_VeleroDeleteBackupRequest
                                  (Some (VeleroDeleteBackupRequest.mk
                                           veleroBackupNACUUID r.(OADPNamespace)
                                           (DeleteBackupRequest.Name deleteBackupRequest)
                                           None))
                                  (NonAdminBackup.Status n)) n);;
                          mret deleteBackupRequest
                      end
                  end;
                updated ←
                  onStatus (λ status,
                    updateNonAdminBackupDeleteBackupRequestStatus status
                      (Some deleteBackupRequest));
                when updated (err ← callInto Status_Update; check err);;
                return_ false None
            end
        end
    end.

  (** Lines 376-403. *)
Definition deleteVeleroBackupObjects : Step :=
    n ← getNab;
    match statusNACUUID n with
    | None => return_ false None
    | Some veleroBackupNACUUID =>
        found ← call (GetVeleroBackupByLabel r.(OADPNamespace) veleroBackupNACUUID);
        match found with
        | inr err => return_ false (Some err)
        | inl (Some veleroBackup) =>
            err ← call (Delete_Backup veleroBackup);
            check err;;
            return_ false None
        | inl None => removeNabFinalizerUponVeleroBackupDeletion
        end
    end.

  (** Lines 416-437. *)
Definition deleteDeleteBackupRequestObjects : Step :=
    n ← getNab;
    match statusNACUUID n with
    | None => return_ false None
    | Some veleroBackupNACUUID =>
        found ←
          call (GetVeleroDeleteBackupRequestByLabel r.(OADPNamespace) veleroBackupNACUUID);
        match found with
        | inr err => return_ false (Some err)
        | inl (Some deleteBackupRequest) =>
            err ← call (Delete_DeleteBackupRequest deleteBackupRequest);
            check err;;
            return_ false None
        | inl None => return_ false None
        end
    end.

  (** Lines 484-503. *)
Definition initNabCreate : Step :=
    n ← getNab;
    if negb (bool_decide (NonAdminBackupStatus.Phase (NonAdminBackup.Status n)
                          = constant_EmptyString))
    then return_ false None
    else
      updated ← setPhase NonAdminPhaseNew;
      when updated (err ← callInto Status_Update; check err);;
      return_ false None.

  (** Lines 517-560. *)
Definition validateSpec : Step :=
    n ← getNab;
    c ← getCluster;
    match function.(ValidateBackupSpec) c r.(OADPNamespace) n r.(EnforcedBackupSpec) with
    | Some err =>
        updatedPhase ← setPhase NonAdminPhaseBackingOff;
        updatedCondition ←
          setCondition NonAdminConditionAccepted ConditionFalse "InvalidBackupSpec"
            (Error err);
        when (updatedPhase || updatedCondition)
          (updateErr ← callInto Status_Update; check updateErr);;
        return_ false (Some (TerminalError err))
    | None =>
        updated ←
          setCondition NonAdminConditionAccepted ConditionTrue "BackupAccepted"
            "backup accepted";
        when updated (err ← callInto Status_Update; check err);;
        return_ false None
    end.

  (** Lines 571-602. *)
Definition setBackupUUIDInStatus : Step :=
    err ← callInto (λ nabOriginal, Get (keyOf (NonAdminBackup.ObjectMeta nabOriginal)));
    check err;;
    n ← getNab;
    match statusNACUUID n with
    | None =>
        let veleroBackupNACUUID :=
          match NonAdminBackup.Labels n !! constant.(NabSyncLabel) with
          | Some value => value
          | None =>
              function.(GenerateNacObjectUUID) (NonAdminBackup.Namespace n)
                (NonAdminBackup.Name n)
          end in
        setNab (NonAdminBackup.with_Status
                  (NonAdminBackupStatus.with_VeleroBackup
                     (Some (VeleroBackup.mk veleroBackupNACUUID r.(OADPNamespace)
                              veleroBackupNACUUID None None))
                     (NonAdminBackup.Status n)) n);;
        err ← callInto Status_Update;
        check err;;
        return_ false None
    | Some _ => return_ false None
    end.

  (** Lines 604-619. *)
Definition setFinalizerOnNonAdminBackup : Step :=
    n ← getNab;
    if negb (ContainsFinalizer n constant.(NabFinalizerName))
    then
      setNab (AddFinalizer n constant.(NabFinalizerName));;
      err ← callInto Client_Update;
      check err;;
      return_ false None
    else return_ false None.

  (** Lines 686-718: what the controller does to the merged spec before the
      engine object is built. *)
Definition confineNamespaces (namespace : string) (backupSpec : BackupSpec.t)
    : BackupSpec.t :=
    SetField FIncludedNamespaces (Some [namespace]) backupSpec.

Definition excludeNonAdminResources (backupSpec : BackupSpec.t) : BackupSpec.t :=
    let haveNewResourceFilterParameters :=
      (0 <? len (BackupSpec.IncludedClusterScopedResources backupSpec))
      || (0 <? len (BackupSpec.ExcludedClusterScopedResources backupSpec))
      || (0 <? len (BackupSpec.IncludedNamespaceScopedResources backupSpec))
      || (0 <? len (BackupSpec.ExcludedNamespaceScopedResources backupSpec)) in
    if haveNewResourceFilterParameters
    then
      let backupSpec :=
        SetField FExcludedNamespaceScopedResources
          (append (BackupSpec.ExcludedNamespaceScopedResources backupSpec)
             alwaysExcludedNamespacedResources) backupSpec in
      SetField FExcludedClusterScopedResources
        (append (BackupSpec.ExcludedClusterScopedResources backupSpec)
           alwaysExcludedClusterResources) backupSpec
    else
      let backupSpec :=
        SetField FExcludedResources
          (append (BackupSpec.ExcludedResources backupSpec)
             alwaysExcludedNamespacedResources) backupSpec in
      SetField FExcludedResources
        (append (BackupSpec.ExcludedResources backupSpec)
           alwaysExcludedClusterResources) backupSpec.

  (** Lines 720-733: the engine object handed to [r.Create]. *)
Definition buildVeleroBackup (n : NonAdminBackup.t) (veleroBackupNACUUID : string)
      (backupSpec : BackupSpec.t) : Backup.t :=
    Backup.mk
      (ObjectMeta.mk veleroBackupNACUUID "" r.(OADPNamespace) "" 0 None
         (<[constant.(NabOriginNACUUIDLabel) := veleroBackupNACUUID]>
            function.(GetNonAdminLabels))
         (Some (GetNonAdminBackupAnnotations (NonAdminBackup.ObjectMeta n)))
         [])
      backupSpec BackupStatus.zero.

  (** Lines 646-743, the branch [veleroBackup == nil]: refuse when the object
      is being synced or was already created, create the engine object
      otherwise. *)
Definition createMissingVeleroBackup (veleroBackupNACUUID : string) : M Backup.t :=
    n ← getNab;
    let syncing :=
      function.(CheckLabelAnnotationValueIsValid) (NonAdminBackup.Labels n)
        constant.(NabSyncLabel) in
    if syncing
       || bool_decide (NonAdminBackupStatus.Phase (NonAdminBackup.Status n)
                       = NonAdminPhaseCreated)
    then
      (* err is nil on entry: the lookup succeeded *)
      let err : option error := None in
      let err :=
        if syncing
        then Some (errors_New "related Velero Backup to be synced from does not exist")
        else err in
      let err :=
        if IsStatusConditionTrue (NonAdminBackupStatus.Conditions (NonAdminBackup.Status n))
             NonAdminConditionQueued
        then Some (errors_New "NonAdminBackup is finalized and its associated Velero Backup has been removed. Please create a new NonAdminBackup to initiate a new backup")
        else err in
      updatedPhase ← setPhase NonAdminPhaseBackingOff;
      match err with
      | None => panic                       (* err.Error() on the nil error *)
      | Some err =>
          updatedCondition ←
            setCondition NonAdminConditionAccepted ConditionFalse
              "VeleroBackupNotFound" (Error err);
          when (updatedPhase || updatedCondition)
            (updateErr ← callInto Status_Update; check updateErr);;
          return_ false (Some (TerminalError err))
      end
    else
      let backupSpec :=
        enforceFields r.(EnforcedBackupSpec)
          (NonAdminBackupSpec.BackupSpec (NonAdminBackup.Spec n)) in
      let backupSpec := confineNamespaces (NonAdminBackup.Namespace n) backupSpec in
      backupSpec ←
        (if negb (bool_decide (BackupSpec.StorageLocation backupSpec = constant_EmptyString))
         then
           got ←
             call (Get_NonAdminBackupStorageLocation
                     {| Name := BackupSpec.StorageLocation backupSpec;
                        Namespace := NonAdminBackup.Namespace n |});
           match got with
           | inr nabslErr => return_ false (Some nabslErr)
           | inl nonAdminBsl =>
               match NonAdminBackupStorageLocation.VeleroBackupStorageLocation
                       nonAdminBsl with
               | None => panic              (* nil pointer dereference *)
               | Some name => mret (SetField FStorageLocation name backupSpec)
               end
           end
         else mret backupSpec);
      let backupSpec := excludeNonAdminResources backupSpec in
      created ← call (Create_Backup (buildVeleroBackup n veleroBackupNACUUID backupSpec));
      match created with
      | inr err => return_ false (Some err)
      | inl veleroBackup => mret veleroBackup
      end.

  (** Lines 631-811. *)
Definition createVeleroBackupAndSyncWithNonAdminBackup : Step :=
    n ← getNab;
    match statusNACUUID n with
    | None =>
        return_ false
          (Some (errors_New "unable to get Velero Backup UUID from NonAdminBackup Status"))
    | Some veleroBackupNACUUID =>
        found ← call (GetVeleroBackupByLabel r.(OADPNamespace) veleroBackupNACUUID);
        match found with
        | inr err => return_ false (Some err)
        | inl found =>
            veleroBackup ←
              match found with
              | None => createMissingVeleroBackup veleroBackupNACUUID
              | Some veleroBackup =>
                  if match Backup.Annotations veleroBackup with
                     | None => true
                     | Some annotations =>
                         negb (bool_decide
                                 (index annotations constant.(NabOriginNamespaceAnnotation)
                                  = NonAdminBackup.Namespace n))
                     end
                  then
                    return_ false
                      (Some (TerminalError
                               (errors_New "related Velero Backup does not point to NonAdminBackup namespace")))
                  else mret veleroBackup
              end;
            queueInfo ← call (GetBackupQueueInfo r.(OADPNamespace) veleroBackup);
            updatedQueueInfo ←
              match queueInfo with
              | inr _ => mret false
              | inl queueInfo =>
                  onStatus (λ status,
                    (NonAdminBackupStatus.with_QueueInfo (Some queueInfo) status, true))
              end;
            updatedPhase ← setPhase NonAdminPhaseCreated;
            updatedCondition ←
              setCondition NonAdminConditionQueued ConditionTrue "BackupScheduled"
                "Created Velero Backup object";
            updated ←
              onStatus (λ status,
                updateNonAdminBackupVeleroBackupSpecStatus status (Some veleroBackup));
            podVolumeBackups ←
              call (List_PodVolumeBackups r.(OADPNamespace)
                      [(BackupNameLabel, function.(GetValidName) (Backup.Name veleroBackup))]);
            updatedPodVolumeBackupStatus ←
              onStatus (λ status,
                updateNonAdminBackupPodVolumeBackupStatus status
                  (match podVolumeBackups with inl items => items | inr _ => [] end));
            dataUploads ←
              call (List_DataUploads r.(OADPNamespace)
                      [(BackupNameLabel, function.(GetValidName) (Backup.Name veleroBackup))]);
            updatedDataUploadStatus ←
              onStatus (λ status,
                updateNonAdminBackupDataUploadStatus status
                  (match dataUploads with inl items => items | inr _ => [] end));
            when (updated || updatedPhase || updatedCondition || updatedQueueInfo
                  || updatedPodVolumeBackupStatus || updatedDataUploadStatus)
              (err ← callInto Status_Update; check err);;
            return_ false None
        end
    end.

  (** ** [Reconcile] *)

  (** The [switch] of lines 117-158: the steps of the pass. *)
Definition reconcileSteps (n : NonAdminBackup.t) : list Step :=
    if NonAdminBackupSpec.DeleteBackup (NonAdminBackup.Spec n)
    then [ setStatusAndConditionForDeletionAndCallDelete;
           deleteNonAdminRestores;
           createVeleroDeleteBackupRequest ]
    else if negb (Time_IsZero (NonAdminBackup.DeletionTimestamp n))
    then [ setStatusForDirectKubernetesAPIDeletion;
           deleteDeleteBackupRequestObjects;
           deleteVeleroBackupObjects ]
    else if function.(CheckLabelAnnotationValueIsValid) (NonAdminBackup.Labels n)
              constant.(NabSyncLabel)
    then [ setBackupUUIDInStatus;
           setFinalizerOnNonAdminBackup;
           createVeleroBackupAndSyncWithNonAdminBackup ]
    else [ initNabCreate;
           validateSpec;
           setBackupUUIDInStatus;
           setFinalizerOnNonAdminBackup;
           createVeleroBackupAndSyncWithNonAdminBackup ].

  (** What [Reconcile] hands back to the controller runtime: [ctrl.Result]
      with its [Requeue] flag and the error, or a panic. *)
Inductive Outcome :=
    | Result (requeue : bool) (err : option error)
    | Panicked.

  (** The loop of lines 161-168. *)
Fixpoint runSteps (steps : list Step) (s : State) : Outcome * State :=
    match steps with
    | [] => (Result false None, s)
    | step :: rest =>
        match step s with
        | (Return _ (Some err), s') => (Result false (Some err), s')
        | (Return true None, s') => (Result true None, s')
        | (Return false None, s') => runSteps rest s'
        | (Panic, s') => (Panicked, s')
        | (Next impossible, _) => match impossible with end
        end
    end.

  (** Lines 97-172. *)
Definition Reconcile (req : NamespacedName) (c : Cluster.t) : Outcome * Cluster.t :=
    let '(got, c) := Get req c in
    match got with
    | inr err =>
        if IsNotFound err then (Result false None, c)
        else (Result false (Some err), c)
    | inl n =>
        let '(outcome, s) := runSteps (reconcileSteps n) {| cluster := c; nab := n |} in
        (outcome, cluster s)
    end.

  (** ** Statements about a pass *)

  (** The exits of the loop of [Reconcile]: what a step's return makes the
      pass return, [None] when the pass goes on with the next step. *)
Definition exitOf (flow : Flow Empty_set) : option Outcome :=
    match flow with
    | Return _ (Some err) => Some (Result false (Some err))
    | Return true None => Some (Result true None)
    | Return false None => None
    | Panic => Some Panicked
    | Next impossible => match impossible with end
    end.

  (** The engine Backups the lookup by UUID finds. *)
Definition backupsByUUID (uuid : string) (c : Cluster.t) : list Backup.t :=
    filter (λ b, Backup.Namespace b = r.(OADPNamespace)
                 ∧ selects [(constant.(NabOriginNACUUIDLabel), uuid)] (Backup.Labels b) = true)
      (Cluster.backups c).

  (** The spec of an engine Backup built for the tenant object [n]: the
      enforced fields merged into the tenant's spec, the namespaces confined,
      the storage location possibly translated, the internal resources
      excluded. *)
Definition engineSpecFor (n : NonAdminBackup.t) (spec : BackupSpec.t) : Prop :=
    let confined :=
      confineNamespaces (NonAdminBackup.Namespace n)
        (enforceFields r.(EnforcedBackupSpec)
           (NonAdminBackupSpec.BackupSpec (NonAdminBackup.Spec n))) in
    ∃ base,
      (base = confined ∨ ∃ name, base = SetField FStorageLocation name confined)
      ∧ spec = excludeNonAdminResources base.

  (** The fields the controller rewrites after the merge. *)
Definition rewrittenField (f : Field) : bool :=
    match f with
    | FIncludedNamespaces | FStorageLocation | FExcludedResources
    | FExcludedNamespaceScopedResources | FExcludedClusterScopedResources => true
    | _ => false
    end.

  (** *** Namespace confinement and the spec of the engine object *)

  (** A creation call is for the tenant object [n0]. *)
Definition okCreate (n0 : NonAdminBackup.t) (call : Call) : Prop :=
    match call with
    | CreateBackup b => engineSpecFor n0 (Backup.Spec b)
    | _ => True
    end.

  (** The log [l] extends [calls0] by calls whose creations are for [n0]. *)
Definition extends (n0 : NonAdminBackup.t) (calls0 l : list Call) : Prop :=
    ∃ new, l = calls0 ++ new ∧ Forall (okCreate n0) new.

  (** Namespace and spec of the object in hand and of the stored object
      are those of [n0]; the creations issued so far are for [n0]. *)
Definition confinedInv (n0 : NonAdminBackup.t) (calls0 : list Call) (s : State) : Prop :=
    NonAdminBackup.Namespace (nab s) = NonAdminBackup.Namespace n0
    ∧ NonAdminBackup.Spec (nab s) = NonAdminBackup.Spec n0
    ∧ (∀ n, Cluster.nonAdminBackup (cluster s) = Some n →
            NonAdminBackup.Spec n = NonAdminBackup.Spec n0)
    ∧ extends n0 calls0 (Cluster.calls (cluster s)).

Definition confinedStep (n0 : NonAdminBackup.t) (calls0 : list Call) (step : Step) : Prop :=
    ∀ s, confinedInv n0 calls0 s → match step s with (_, s') => confinedInv n0 calls0 s' end.

  (** *** Counting child resources *)

  (** The number of listed PodVolumeBackups in a phase, and of those in a
      phase the switch does not name. *)
Definition podVolumeBackupsIn (phase : string) (items : list PodVolumeBackup.t) : Z :=
    Z.of_nat (length (filter (λ p, PodVolumeBackup.Phase p = phase) items)).

Definition podVolumeBackupsUnrecognized (items : list PodVolumeBackup.t) : Z :=
    Z.of_nat (length (filter (λ p, PodVolumeBackup.Phase p ∉
        [PodVolumeBackupPhaseNew; PodVolumeBackupPhaseInProgress;
         PodVolumeBackupPhaseFailed; PodVolumeBackupPhaseCompleted]) items)).

Definition dataUploadsIn (phase : string) (items : list DataUpload.t) : Z :=
    Z.of_nat (length (filter (λ p, DataUpload.Phase p = phase) items)).

Definition dataUploadsUnrecognized (items : list DataUpload.t) : Z :=
    Z.of_nat (length (filter (λ p, DataUpload.Phase p ∉
        [DataUploadPhaseNew; DataUploadPhaseAccepted; DataUploadPhasePrepared;
         DataUploadPhaseInProgress; DataUploadPhaseCanceling; DataUploadPhaseCanceled;
         DataUploadPhaseFailed; DataUploadPhaseCompleted]) items)).

  (** *** Path selection *)

  (** The four paths of section 4.5 of the specification. *)
Inductive Path := GracefulDelete | DirectDelete | SyncImport | CreateUpdate.

  (** The selection as the specification words it: [spec.deleteBackup]
      first, then a set deletion timestamp, then a valid sync label, the
      create/update path otherwise. *)
Definition selectPath (n : NonAdminBackup.t) : Path :=
    if NonAdminBackupSpec.DeleteBackup (NonAdminBackup.Spec n) then GracefulDelete
    else if negb (Time_IsZero (NonAdminBackup.DeletionTimestamp n)) then DirectDelete
    else if function.(CheckLabelAnnotationValueIsValid) (NonAdminBackup.Labels n)
              constant.(NabSyncLabel)
    then SyncImport
    else CreateUpdate.

  (** The step sequence of each path. *)
Definition pathSteps (p : Path) : list Step :=
    match p with
    | GracefulDelete =>
        [ setStatusAndConditionForDeletionAndCallDelete; deleteNonAdminRestores;
          createVeleroDeleteBackupRequest ]
    | DirectDelete =>
        [ setStatusForDirectKubernetesAPIDeletion; deleteDeleteBackupRequestObjects;
          deleteVeleroBackupObjects ]
    | SyncImport =>
        [ setBackupUUIDInStatus; setFinalizerOnNonAdminBackup;
          createVeleroBackupAndSyncWithNonAdminBackup ]
    | CreateUpdate =>
        [ initNabCreate; validateSpec; setBackupUUIDInStatus;
          setFinalizerOnNonAdminBackup; createVeleroBackupAndSyncWithNonAdminBackup ]
    end.

  (** *** Refusals *)

  (** The object in hand is the stored one. *)
Definition coherent (s : State) : Prop :=
    Cluster.nonAdminBackup (cluster s) = Some (nab s).

  (** The object carries the condition [type] with this status, reason and
      message. *)
Definition hasCondition (n : NonAdminBackup.t) (type status reason message : string)
    : Prop :=
    ∃ c, FindStatusCondition (NonAdminBackupStatus.Conditions (NonAdminBackup.Status n)) type
         = Some c
         ∧ Condition.Status c = status ∧ Condition.Reason c = reason
         ∧ Condition.Message c = message.

  (** The message of the refusal at lines 648-653. *)
Definition notFoundMessage (n : NonAdminBackup.t) : string :=
    if IsStatusConditionTrue (NonAdminBackupStatus.Conditions (NonAdminBackup.Status n))
         NonAdminConditionQueued
    then "NonAdminBackup is finalized and its associated Velero Backup has been removed. Please create a new NonAdminBackup to initiate a new backup"
    else "related Velero Backup to be synced from does not exist".

  (** A step refused with [err]: it wrote at most the status, left the object
      in phase BackingOff with condition Accepted False, and returned the
      terminal error, or the error of the failed status update. *)
Definition refusedWith (reason : string) (err : error) (s : State)
      (result : Flow Empty_set * State) : Prop :=
    let '(flow, s') := result in
    (Cluster.calls (cluster s') = Cluster.calls (cluster s)
     ∨ ∃ n, Cluster.calls (cluster s') = Cluster.calls (cluster s) ++ [StatusUpdate n])
    ∧ Cluster.backups (cluster s') = Cluster.backups (cluster s)
    ∧ NonAdminBackupStatus.Phase (NonAdminBackup.Status (nab s')) = NonAdminPhaseBackingOff
    ∧ hasCondition (nab s') NonAdminConditionAccepted ConditionFalse reason (Error err)
    ∧ ((flow = Return false (Some (TerminalError err))
        ∧ (coherent s → coherent s'))
       ∨ (∃ failure n,
            flow = Return false (Some (StatusError failure))
            ∧ Cluster.calls (cluster s') = Cluster.calls (cluster s) ++ [StatusUpdate n]
            ∧ Cluster.nonAdminBackup (cluster s') = Cluster.nonAdminBackup (cluster s))).

  (** *** The write log of a pass *)

  (** The engine Backups of the creation calls of a log. *)
Definition createdBackups (calls : list Call) : list Backup.t :=
    omap (λ call, match call with CreateBackup b => Some b | _ => None end) calls.

  (** The objects of the status updates of a log. *)
Definition statusUpdates (calls : list Call) : list NonAdminBackup.t :=
    omap (λ call, match call with StatusUpdate n => Some n | _ => None end) calls.

  (** The write calls a pass adds to the log. *)
Definition newCalls (before after : Cluster.t) : list Call :=
    drop (length (Cluster.calls before)) (Cluster.calls after).

  (** A step under a precondition: when it lets the loop go on, [post]
      holds; when it ends the pass, [final] holds. *)
Definition triple (pre : State → Prop) (step : Step) (post final : State → Prop)
    : Prop :=
    ∀ s, pre s →
         match step s with
         | (Return false None, s') => post s'
         | (_, s') => final s'
         end.

  (** *** Finalizer discipline *)

  (** The object holds the finalizer of the controller. *)
Definition held (n : NonAdminBackup.t) : bool :=
    ContainsFinalizer n constant.(NabFinalizerName).

  (** A call that neither creates an engine Backup nor writes the metadata
      of the tenant object. *)
Definition quiet (call : Call) : bool :=
    match call with
    | CreateBackup _ | Update _ => false
    | _ => true
    end.

Definition isCreateBackup (call : Call) : bool :=
    match call with
    | CreateBackup _ => true
    | _ => false
    end.

  (** Whether the last metadata written holds the finalizer; [holds] says so
      for the object before the log. *)
Fixpoint heldAfter (holds : bool) (log : list Call) : bool :=
    match log with
    | [] => holds
    | Update m :: rest => heldAfter (held m) rest
    | _ :: rest => heldAfter holds rest
    end.

  (** Every creation of the log is issued while the metadata last written
      holds the finalizer. *)
Fixpoint createsGuarded (holds : bool) (log : list Call) : bool :=
    match log with
    | [] => true
    | Update m :: rest => createsGuarded (held m) rest
    | CreateBackup _ :: rest => holds && createsGuarded holds rest
    | _ :: rest => createsGuarded holds rest
    end.

  (** Every metadata write of the log holds the finalizer. *)
Definition updatesHold (log : list Call) : bool :=
    forallb (λ call, match call with Update m => held m | _ => true end) log.

  (** The stored object exists and holds the finalizer. *)
Definition storedHolds (s : State) : Prop :=
    ∃ n, Cluster.nonAdminBackup (cluster s) = Some n ∧ held n = true.

  (** Before the finalizer step of the sync-import and create/update paths:
      the finalizers are those of the object fetched, and only the status
      has been written. *)
Definition finalizersKept (n0 : NonAdminBackup.t) (calls0 : list Call) (s : State)
    : Prop :=
    (∃ n, Cluster.nonAdminBackup (cluster s) = Some n
          ∧ NonAdminBackup.Finalizers n = NonAdminBackup.Finalizers n0)
    ∧ NonAdminBackup.Finalizers (nab s) = NonAdminBackup.Finalizers n0
    ∧ ∃ new, Cluster.calls (cluster s) = calls0 ++ new ∧ forallb quiet new = true.

  (** After the finalizer step: the stored object and the object in hand hold
      the finalizer, and no engine Backup has been created yet. *)
Definition finalizerHeld (n0 : NonAdminBackup.t) (calls0 : list Call) (s : State)
    : Prop :=
    storedHolds s
    ∧ held (nab s) = true
    ∧ ∃ new, Cluster.calls (cluster s) = calls0 ++ new
             ∧ forallb (λ call, negb (isCreateBackup call)) new = true
             ∧ heldAfter (held n0) new = true
             ∧ updatesHold new = true.

  (** At the end of a sync-import or create/update pass. *)
Definition createdUnderFinalizer (n0 : NonAdminBackup.t) (calls0 : list Call)
      (s : State) : Prop :=
    ∃ new, Cluster.calls (cluster s) = calls0 ++ new
           ∧ createsGuarded (held n0) new = true
           ∧ (held n0 = true ∨ existsb isCreateBackup new = true → storedHolds s)
           ∧ updatesHold new = true.

  (** Before the last step of the delete paths: no engine Backup was created,
      the metadata was not written, a finalizer held is still held. *)
Definition finalizerUntouched (n0 : NonAdminBackup.t) (calls0 : list Call)
      (s : State) : Prop :=
    (held n0 = true → storedHolds s)
    ∧ ∃ new, Cluster.calls (cluster s) = calls0 ++ new ∧ forallb quiet new = true.

  (** At the end of a delete pass: the finalizer is untouched, or the last
      call of the pass wrote the metadata of an object whose engine Backup
      the lookup by UUID does not find. *)
Definition removedWhenAbsent (n0 : NonAdminBackup.t) (calls0 : list Call)
      (s : State) : Prop :=
    finalizerUntouched n0 calls0 s
    ∨ ∃ quietCalls m uuid,
        Cluster.calls (cluster s) = calls0 ++ quietCalls ++ [Update m]
        ∧ forallb quiet quietCalls = true
        ∧ statusNACUUID m = Some uuid
        ∧ backupsByUUID uuid (cluster s) = [].

  (** The finalizer discipline of a pass that started in cluster [c] with
      the object [n0] and ended in state [s]. *)
Definition disciplined (n0 : NonAdminBackup.t) (creating : Prop) (c : Cluster.t)
      (s : State) : Prop :=
    createsGuarded (held n0) (newCalls c (cluster s)) = true
    ∧ (existsb isCreateBackup (newCalls c (cluster s)) = true →
       creating ∧ ∃ n, Cluster.nonAdminBackup (cluster s) = Some n ∧ held n = true)
    ∧ (∀ m, Update m ∈ newCalls c (cluster s) → held m = false →
            ∃ uuid, statusNACUUID m = Some uuid ∧ backupsByUUID uuid (cluster s) = [])
    ∧ (held n0 = true →
       (∀ n, Cluster.nonAdminBackup (cluster s) = Some n → held n = false) →
       ∃ m uuid, Update m ∈ newCalls c (cluster s)
                 ∧ statusNACUUID m = Some uuid
                 ∧ backupsByUUID uuid (cluster s) = []).

  (** The metadata writes without the finalizer among the writes [new] of a
      step that started in [s] and ended in [s']: such a write comes only
      after the lookup by UUID of the step has found no engine Backup.  The
      object in hand carries a UUID, no engine Backup of the operator
      namespace carries that UUID in the cluster the step started in, the
      write is the only write of the step, it writes the object in hand less
      the finalizer, and the step leaves the engine Backups as they are. *)
Definition removalOf (s : State) (new : list Call) (s' : State) : Prop :=
    ∀ m, Update m ∈ new → held m = false →
         ∃ uuid,
           statusNACUUID (nab s) = Some uuid
           ∧ backupsByUUID uuid (cluster s) = []
           ∧ new = [Update m]
           ∧ m = RemoveFinalizer (nab s) constant.(NabFinalizerName)
           ∧ Cluster.backups (cluster s') = Cluster.backups (cluster s).

  (** The step removes the finalizer only when it has just observed that
      the lookup by UUID finds no engine Backup. *)
Definition removesOnlyWhenAbsent (step : Step) : Prop :=
    ∀ s, removalOf s (newCalls (cluster s) (cluster (step s).2)) (step s).2.

  (** A call that leaves the metadata of the tenant object and the engine
      Backups alone. *)
Definition still (call : Call) : bool :=
    match call with
    | Update _ | CreateBackup _ | DeleteBackup _ => false
    | _ => true
    end.

  (** Before the last step of the delete paths: the engine Backups are those
      of the cluster [c0] the pass started in, and the calls since were all
      [still]. *)
Definition backupsUntouched (c0 : Cluster.t) (s : State) : Prop :=
    Cluster.backups (cluster s) = Cluster.backups c0
    ∧ ∃ new, Cluster.calls (cluster s) = Cluster.calls c0 ++ new
             ∧ forallb still new = true.

  (** At the end of a pass from the cluster [c0] to the cluster [c']: a
      metadata write without the finalizer is for an object whose UUID no
      engine Backup carried when the pass began, and the pass has neither
      changed the engine Backups nor called delete on one. *)
Definition removedOnlyWhenAbsent (c0 c' : Cluster.t) : Prop :=
    ∀ m, Update m ∈ newCalls c0 c' → held m = false →
         ∃ uuid,
           statusNACUUID m = Some uuid
           ∧ backupsByUUID uuid c0 = []
           ∧ Cluster.backups c' = Cluster.backups c0
           ∧ ∀ b, DeleteBackup b ∉ newCalls c0 c'.


  (** *** Phases *)

  (** The phases a pass on [path] may write over the phase [before]. *)
Definition writablePhase (path : Path) (before after : NonAdminPhase) : Prop :=
    after = before
    ∨ match path with
      | GracefulDelete | DirectDelete => after = NonAdminPhaseDeleting
      | SyncImport => after = NonAdminPhaseBackingOff ∨ after = NonAdminPhaseCreated
      | CreateUpdate =>
          after = NonAdminPhaseBackingOff ∨ after = NonAdminPhaseCreated
          ∨ (before = constant_EmptyString ∧ after = NonAdminPhaseNew)
      end.

Definition phaseOf (n : NonAdminBackup.t) : NonAdminPhase :=
    NonAdminBackupStatus.Phase (NonAdminBackup.Status n).

  (** The phase in hand, the stored phase and the phases of the status
      updates issued since [calls0] are all within [allowed]. *)
Definition phasesWithin (allowed : NonAdminPhase → Prop) (calls0 : list Call)
      (s : State) : Prop :=
    allowed (phaseOf (nab s))
    ∧ (∀ n, Cluster.nonAdminBackup (cluster s) = Some n → allowed (phaseOf n))
    ∧ ∃ new, Cluster.calls (cluster s) = calls0 ++ new
             ∧ Forall (λ call, match call with
                               | StatusUpdate n => allowed (phaseOf n)
                               | _ => True
                               end) new.

  (** The edges of the phase graph of invariant I5 of the specification. *)
Definition phaseGraph : list (NonAdminPhase * NonAdminPhase) :=
    [ (NonAdminPhaseNew, NonAdminPhaseBackingOff); (NonAdminPhaseNew, NonAdminPhaseCreated);
      (NonAdminPhaseCreated, NonAdminPhaseDeleting);
      (NonAdminPhaseBackingOff, NonAdminPhaseDeleting) ].

Definition keepsPhases (allowed : NonAdminPhase → Prop) (calls0 : list Call)
      (step : Step) : Prop :=
    ∀ s, phasesWithin allowed calls0 s →
         match step s with (_, s') => phasesWithin allowed calls0 s' end.

  (** *** The write footprint of the paths *)

  (** The write calls a pass on [path] may issue. *)
Definition permitted (path : Path) (call : Call) : bool :=
    match path, call with
    | GracefulDelete,
      (StatusUpdate _ | DeleteNonAdminBackup _ | DeleteNonAdminRestore _
       | CreateDeleteBackupRequest _ | Update _) => true
    | DirectDelete,
      (StatusUpdate _ | DeleteDeleteBackupRequest _ | DeleteBackup _ | Update _) => true
    | SyncImport, (StatusUpdate _ | Update _) => true
    | CreateUpdate, (StatusUpdate _ | Update _ | CreateBackup _) => true
    | _, _ => false
    end.

  (** The labels in hand and the stored labels are those of [n0]; the calls
      issued since [calls0] are all [allowed]. *)
Definition footprintInv (allowed : Call → Prop) (n0 : NonAdminBackup.t)
      (calls0 : list Call) (s : State) : Prop :=
    NonAdminBackup.Labels (nab s) = NonAdminBackup.Labels n0
    ∧ (∀ n, Cluster.nonAdminBackup (cluster s) = Some n →
            NonAdminBackup.Labels n = NonAdminBackup.Labels n0)
    ∧ ∃ new, Cluster.calls (cluster s) = calls0 ++ new ∧ Forall allowed new.

Definition keepsFootprint (allowed : Call → Prop) (n0 : NonAdminBackup.t)
      (calls0 : list Call) (step : Step) : Prop :=
    ∀ s, footprintInv allowed n0 calls0 s →
         match step s with (_, s') => footprintInv allowed n0 calls0 s' end.

  (** The engine Backup [b] is the one of the UUID: in the operator
      namespace, named and labelled by the UUID. *)
Definition backupOf (uuid : string) (b : Backup.t) : Prop :=
    Backup.Namespace b = r.(OADPNamespace)
    ∧ Backup.Name b = uuid
    ∧ Backup.Labels b !! constant.(NabOriginNACUUIDLabel) = Some uuid.

  (** The storage location the merged spec asks for. *)
Definition wantedLocation (n : NonAdminBackup.t) : string :=
    BackupSpec.StorageLocation
      (enforceFields r.(EnforcedBackupSpec)
         (NonAdminBackupSpec.BackupSpec (NonAdminBackup.Spec n))).

  (** The storage location of the engine Backup [b] created for [n]: none
      when none is asked for, else the engine location that the tenant-side
      location of that name, in the tenant's namespace, stands for. *)
Definition locatedFor (c : Cluster.t) (n : NonAdminBackup.t) (b : Backup.t) : Prop :=
    (wantedLocation n = constant_EmptyString
     ∧ BackupSpec.StorageLocation (Backup.Spec b) = constant_EmptyString)
    ∨ (wantedLocation n ≠ constant_EmptyString
       ∧ ∃ nabsl,
           nabsl ∈ Cluster.nonAdminBackupStorageLocations c
           ∧ NonAdminBackupStorageLocation.Namespace nabsl = NonAdminBackup.Namespace n
           ∧ NonAdminBackupStorageLocation.Name nabsl = wantedLocation n
           ∧ NonAdminBackupStorageLocation.VeleroBackupStorageLocation nabsl
             = Some (BackupSpec.StorageLocation (Backup.Spec b))).

  (** What the engine-object step started in [s] has created when its
      calls are [new]: nothing, or one Backup, of the UUID of the status,
      which the lookup had not found, for an object that is neither synced
      nor in phase Created. *)
Definition createsOf (s : State) (new : list Call) : Prop :=
    createdBackups new = []
    ∨ ∃ b uuid,
        createdBackups new = [b]
        ∧ statusNACUUID (nab s) = Some uuid
        ∧ backupsByUUID uuid (cluster s) = []
        ∧ backupOf uuid b
        ∧ locatedFor (cluster s) (nab s) b
        ∧ function.(CheckLabelAnnotationValueIsValid) (NonAdminBackup.Labels (nab s))
            constant.(NabSyncLabel) = false
        ∧ NonAdminBackupStatus.Phase (NonAdminBackup.Status (nab s)) ≠ NonAdminPhaseCreated.

  (** The exclusion lists of [spec] hold the internal resources: in the
      legacy list, or in the two scoped lists. *)
Definition excludesInternalResources (spec : BackupSpec.t) : Prop :=
    let within (l : list string) (s : slice string) := l ⊆ default [] s in
    (within alwaysExcludedNamespacedResources (BackupSpec.ExcludedResources spec)
     ∧ within alwaysExcludedClusterResources (BackupSpec.ExcludedResources spec))
    ∨ (within alwaysExcludedNamespacedResources
         (BackupSpec.ExcludedNamespaceScopedResources spec)
       ∧ within alwaysExcludedClusterResources
           (BackupSpec.ExcludedClusterScopedResources spec)).

  (** Every entry of the three exclusion lists of [before] is in the same
      list of [after]. *)
Definition keepsExclusions (before after : BackupSpec.t) : Prop :=
    default [] (BackupSpec.ExcludedResources before)
      ⊆ default [] (BackupSpec.ExcludedResources after)
    ∧ default [] (BackupSpec.ExcludedNamespaceScopedResources before)
        ⊆ default [] (BackupSpec.ExcludedNamespaceScopedResources after)
    ∧ default [] (BackupSpec.ExcludedClusterScopedResources before)
        ⊆ default [] (BackupSpec.ExcludedClusterScopedResources after).

  (** The merged spec uses one of the scoped resource filters. *)
Definition haveNewResourceFilterParameters (spec : BackupSpec.t) : bool :=
    (0 <? len (BackupSpec.IncludedClusterScopedResources spec))
    || (0 <? len (BackupSpec.ExcludedClusterScopedResources spec))
    || (0 <? len (BackupSpec.IncludedNamespaceScopedResources spec))
    || (0 <? len (BackupSpec.ExcludedNamespaceScopedResources spec)).

  (** The UUID [setBackupUUIDInStatus] assigns to [n]: the value of the sync
      label when the label is there, a generated one otherwise. *)
Definition assignedUUID (n : NonAdminBackup.t) : string :=
    match NonAdminBackup.Labels n !! constant.(NabSyncLabel) with
    | Some value => value
    | None =>
        function.(GenerateNacObjectUUID) (NonAdminBackup.Namespace n) (NonAdminBackup.Name n)
    end.

  (** [n] with the reference to the engine Backup of [uuid] in its status. *)
Definition withUUID (uuid : string) (n : NonAdminBackup.t) : NonAdminBackup.t :=
    NonAdminBackup.with_Status
      (NonAdminBackupStatus.with_VeleroBackup
         (Some (VeleroBackup.mk uuid r.(OADPNamespace) uuid None None))
         (NonAdminBackup.Status n)) n.

  (** The step result asks for a requeue. *)
Definition asksRequeue (flow : Flow Empty_set) : bool :=
    match flow with
    | Return true _ => true
    | _ => false
    end.

  (** The step never asks for a requeue. *)
Definition neverRequeues (step : Step) : Prop :=
    ∀ s, match step s with (flow, _) => asksRequeue flow = false end.

  (** The restore [nar] of the tenant namespace refers to the backup [n]. *)
Definition restoreOf (n : NonAdminBackup.t) (nar : NonAdminRestore.t) : Prop :=
    NonAdminRestore.Namespace nar = NonAdminBackup.Namespace n
    ∧ NonAdminRestore.BackupName nar = NonAdminBackup.Name n.

  (** The object holds a finalizer and carries a deletion timestamp: a
      delete call has been accepted, the object stays until its finalizers
      are gone. *)
Definition markedForDeletion (m : ObjectMeta.t) : Prop :=
    ObjectMeta.Finalizers m ≠ [] ∧ ObjectMeta.DeletionTimestamp m ≠ None.

  (** The restore [after] is the restore [before] of an earlier cluster,
      possibly marked for deletion since. *)
Definition sameRestore (before after : NonAdminRestore.t) : Prop :=
    keyOf (NonAdminRestore.ObjectMeta after) = keyOf (NonAdminRestore.ObjectMeta before)
    ∧ NonAdminRestore.BackupName after = NonAdminRestore.BackupName before
    ∧ (markedForDeletion (NonAdminRestore.ObjectMeta before) →
       markedForDeletion (NonAdminRestore.ObjectMeta after)).

  (** What the loop over the restores has done when it ends in [s'] with
      [flow]: it issued delete calls only, for listed restores that name the
      backup; every restore left is one of before; when the loop ran to its
      end, every restore left under the key of a listed restore that names
      the backup is marked for deletion. *)
Definition restoresDeleted (name : string) (items : list NonAdminRestore.t)
      (s : State) (flow : Flow unit) (s' : State) : Prop :=
    nab s' = nab s
    ∧ (∀ x', x' ∈ Cluster.nonAdminRestores (cluster s') →
             ∃ x, x ∈ Cluster.nonAdminRestores (cluster s) ∧ sameRestore x x')
    ∧ (∃ deleted,
         Cluster.calls (cluster s')
         = Cluster.calls (cluster s) ++ map DeleteNonAdminRestore deleted
         ∧ deleted ⊆ filter (λ nar, NonAdminRestore.BackupName nar = name) items)
    ∧ ((flow = Next tt
        ∧ ∀ nar, nar ∈ items → NonAdminRestore.BackupName nar = name →
                 ∀ x, x ∈ Cluster.nonAdminRestores (cluster s') →
                      hasKey (keyOf (NonAdminRestore.ObjectMeta nar))
                        (NonAdminRestore.ObjectMeta x) = true →
                      markedForDeletion (NonAdminRestore.ObjectMeta x))
       ∨ ∃ err, flow = Return false (Some err)).

  (** *** The status helpers *)

  (** What [status] records of the engine Backup, a nil pointer read as the
      empty struct. *)
Definition recordedBackup (status : NonAdminBackupStatus.t)
    : BackupSpec.t * BackupStatus.t :=
    let vb := default VeleroBackup.zero (NonAdminBackupStatus.VeleroBackup status) in
    (default BackupSpec.zero (VeleroBackup.Spec vb),
     default BackupStatus.zero (VeleroBackup.Status vb)).

  (** [status] with the spec and the status of the engine Backup [b]
      recorded under the reference it holds, an empty reference when it
      holds none. *)
Definition mirrorBackup (status : NonAdminBackupStatus.t) (b : Backup.t)
    : NonAdminBackupStatus.t :=
    let vb := default VeleroBackup.zero (NonAdminBackupStatus.VeleroBackup status) in
    NonAdminBackupStatus.with_VeleroBackup
      (Some (VeleroBackup.mk (VeleroBackup.NACUUID vb) (VeleroBackup.Namespace vb)
               (VeleroBackup.Name vb) (Some (Backup.Spec b)) (Some (Backup.Status b))))
      status.

  (** The same for the status of the delete request [d]. *)
Definition recordedRequest (status : NonAdminBackupStatus.t) : DeleteBackupRequestStatus.t :=
    default DeleteBackupRequestStatus.zero
      (VeleroDeleteBackupRequest.Status
         (default VeleroDeleteBackupRequest.zero
            (NonAdminBackupStatus.VeleroDeleteBackupRequest status))).

Definition mirrorRequest (status : NonAdminBackupStatus.t) (d : DeleteBackupRequest.t)
    : NonAdminBackupStatus.t :=
    let request := default VeleroDeleteBackupRequest.zero
                     (NonAdminBackupStatus.VeleroDeleteBackupRequest status) in
    NonAdminBackupStatus.with_VeleroDeleteBackupRequest
      (Some (VeleroDeleteBackupRequest.mk (VeleroDeleteBackupRequest.NACUUID request)
               (VeleroDeleteBackupRequest.Namespace request)
               (VeleroDeleteBackupRequest.Name request)
               (Some (DeleteBackupRequest.Status d))))
      status.

  (** *** The engine objects of a UUID *)

  (** The delete requests of the operator namespace that carry the UUID. *)
Definition requestsByUUID (uuid : string) (c : Cluster.t) : list DeleteBackupRequest.t :=
    filter (λ d, DeleteBackupRequest.Namespace d = r.(OADPNamespace)
                 ∧ selects [(constant.(NabOriginNACUUIDLabel), uuid)]
                     (DeleteBackupRequest.Labels d) = true)
      (Cluster.deleteBackupRequests c).

  (** The delete requests a log creates. *)
Definition createdRequests (calls : list Call) : list DeleteBackupRequest.t :=
    omap (λ call, match call with CreateDeleteBackupRequest d => Some d | _ => None end)
      calls.

  (** What [createVeleroDeleteBackupRequest] started in [s] has created when
      it ends in [s'] with [flow]: nothing, or one delete request, its only
      write, for the one engine Backup of the UUID of an object that holds
      the finalizer, when the lookup found no delete request of that UUID.
      The stored object is as it was; when the creation succeeded the
      request is in the cluster and the object in hand refers to it. *)
Definition requestOf (s : State) (flow : Flow Empty_set) (s' : State) : Prop :=
    createdRequests (newCalls (cluster s) (cluster s')) = []
    ∨ ∃ uuid b d,
        held (nab s) = true
        ∧ statusNACUUID (nab s) = Some uuid
        ∧ backupsByUUID uuid (cluster s) = [b]
        ∧ requestsByUUID uuid (cluster s) = []
        ∧ newCalls (cluster s) (cluster s') = [CreateDeleteBackupRequest d]
        ∧ DeleteBackupRequest.BackupName d = Backup.Name b
        ∧ DeleteBackupRequest.Namespace d = r.(OADPNamespace)
        ∧ Cluster.nonAdminBackup (cluster s') = Cluster.nonAdminBackup (cluster s)
        ∧ (flow = Return false None →
           ∃ request,
             Cluster.deleteBackupRequests (cluster s')
             = Cluster.deleteBackupRequests (cluster s) ++ [request]
             ∧ DeleteBackupRequest.BackupName request = Backup.Name b
             ∧ DeleteBackupRequest.Namespace request = r.(OADPNamespace)
             ∧ NonAdminBackupStatus.VeleroDeleteBackupRequest (NonAdminBackup.Status (nab s'))
               = Some (VeleroDeleteBackupRequest.mk uuid r.(OADPNamespace)
                         (DeleteBackupRequest.Name request)
                         (Some (DeleteBackupRequest.Status request)))).

  (** *** The result of a pass without error *)

  (** The stored object is the object in hand. *)
Definition inHand (s : State) : Prop :=
    Cluster.nonAdminBackup (cluster s) = Some (nab s).

  (** The tenant object [n] is established in the cluster [c]: it is in
      phase Created with the condition Queued true, holds the finalizer, and
      its UUID names exactly one engine Backup of the operator namespace,
      whose annotations name the namespace of [n] and whose spec and status
      are the ones the status of [n] records. *)
Definition established (c : Cluster.t) (n : NonAdminBackup.t) : Prop :=
    phaseOf n = NonAdminPhaseCreated
    ∧ IsStatusConditionTrue (NonAdminBackupStatus.Conditions (NonAdminBackup.Status n))
        NonAdminConditionQueued = true
    ∧ held n = true
    ∧ ∃ uuid b annotations,
        statusNACUUID n = Some uuid
        ∧ backupsByUUID uuid c = [b]
        ∧ Backup.Annotations b = Some annotations
        ∧ index annotations constant.(NabOriginNamespaceAnnotation)
          = NonAdminBackup.Namespace n
        ∧ recordedBackup (NonAdminBackup.Status n) = (Backup.Spec b, Backup.Status b).

  (** The stored object of the state is established. *)
Definition storedEstablished (s : State) : Prop :=
    ∃ n, Cluster.nonAdminBackup (cluster s) = Some n ∧ established (cluster s) n.

  (** *** Objects marked for deletion *)

  (** The call is not a delete call on the tenant object. *)
Definition keepsObject (call : Call) : Prop :=
    match call with
    | DeleteNonAdminBackup _ => False
    | _ => True
    end.

End Controller.

(** * An example deployment

    The constants of the operator, stand-ins for the helpers of package
    [function] that the development leaves open, and a tenant object in a
    small cluster.  The theorems of the next part are instantiated on them. *)

Definition example_constants : Constants := {|
  NabFinalizerName := "nonadminbackup.oadp.openshift.io/finalizer";
  NabSyncLabel := "openshift.io/oadp-nab-synced-from-nacuuid";
  NabOriginNACUUIDLabel := "openshift.io/oadp-nab-origin-nacuuid";
  NabOriginNamespaceAnnotation := "openshift.io/oadp-nab-origin-namespace";
  NabOriginNameAnnotation := "openshift.io/oadp-nab-origin-name";
  NabOriginUIDAnnotation := "openshift.io/oadp-nab-origin-uid";
  NonAdminBackups := "nonadminbackups";
  NonAdminRestores := "nonadminrestores";
  NonAdminBackupStorageLocations := "nonadminbackupstoragelocations";
|}.

Definition example_validation_error : error :=
  errors_New "NonAdminBackup spec.backupSpec.includedNamespaces can not contain namespaces other than its own".

(** A validation that rejects a tenant spec naming a namespace other than
    the tenant's own, and accepts every other spec. *)
Definition example_ValidateBackupSpec (c : Cluster.t) (oadpNamespace : string)
    (n : NonAdminBackup.t) (enforced : BackupSpec.t) : option error :=
  match BackupSpec.IncludedNamespaces (NonAdminBackupSpec.BackupSpec (NonAdminBackup.Spec n)) with
  | Some namespaces =>
      if forallb (λ ns, bool_decide (ns = NonAdminBackup.Namespace n)) namespaces
      then None
      else Some example_validation_error
  | None => None
  end.

Definition example_functions : Functions := {|
  GenerateNacObjectUUID := λ namespace name,
    String.append namespace (String.append "-" (String.append name "-6f1c2a"));
  CheckLabelAnnotationValueIsValid := λ labels key,
    match labels !! key with
    | Some value => negb (bool_decide (value = ""))
    | None => false
    end;
  ValidateBackupSpec := example_ValidateBackupSpec;
  GetNonAdminLabels := {[ "openshift.io/oadp" := "True" ]};
  GetValidName := λ name, name;
  terminalBackupPhase := λ phase,
    bool_decide (phase ∈ ["Completed"; "Failed"; "PartiallyFailed"; "FailedValidation"]);
|}.

(** The administrator enforces a namespace list, snapshots and a TTL. *)
Definition example_reconciler : NonAdminBackupReconciler := {|
  EnforcedBackupSpec :=
    BackupSpec.mk (Metadata.mk None) (Some ["kube-system"]) None None None None None None
      None None None (Some true) 3600 None (BackupHooks.mk None) "" None None None None
      0 0 None None "" None "";
  OADPNamespace := "openshift-adp";
|}.

(** The tenant asks for a backup without snapshots and names no namespace. *)
Definition example_spec : BackupSpec.t :=
  BackupSpec.mk (Metadata.mk None) None None None None None None None
    None None None (Some false) 0 None (BackupHooks.mk None) "" None None None None
    0 0 None None "" None "".

Definition example_nab : NonAdminBackup.t :=
  NonAdminBackup.mk
    (ObjectMeta.mk "nightly" "" "team-a" "0b5e" 100 None ∅ None [])
    (NonAdminBackupSpec.mk example_spec false)
    NonAdminBackupStatus.zero.

Definition example_request : NamespacedName :=
  {| Namespace := "team-a"; Name := "nightly" |}.

(** The cluster holding [n] and nothing else; the calls fail as [faults] says. *)
Definition example_cluster_of (n : NonAdminBackup.t) (faults : list bool) : Cluster.t :=
  Cluster.mk (Some n) [] [] [] [] [] [] 1000 "77aa" "x7k2p" faults [].

Definition example_cluster : Cluster.t := example_cluster_of example_nab [].

Section Example.
Local Existing Instances example_constants example_functions example_reconciler.

  (** The first pass over the fresh object, and the cluster it leaves. *)
Definition example_pass1 : Outcome * Cluster.t := Reconcile example_request example_cluster.
Definition example_cluster1 : Cluster.t := example_pass1.2.

  (** The engine Backup the first pass creates. *)
Definition example_backup : Backup.t :=
    default (Backup.mk ObjectMeta.zero BackupSpec.zero BackupStatus.zero)
      (head (createdBackups (Cluster.calls example_cluster1))).

  (** The second pass: nothing has changed since the first. *)
Definition example_pass2 : Outcome * Cluster.t := Reconcile example_request example_cluster1.

  (** The engine Backup is deleted behind the controller's back; the two
      passes that follow. *)
Definition example_cluster_lost : Cluster.t := Cluster.with_backups [] example_cluster1.
Definition example_pass_lost : Outcome * Cluster.t :=
    Reconcile example_request example_cluster_lost.
Definition example_pass_after_lost : Outcome * Cluster.t :=
    Reconcile example_request example_pass_lost.2.

  (** The state in which the engine-object step runs in the pass after the
      loss. *)
Definition example_state_lost : State :=
    {| cluster := example_cluster_lost;
       nab := default example_nab (Cluster.nonAdminBackup example_cluster_lost) |}.

  (** A tenant object naming a foreign namespace: the validation rejects it.
      In the second cluster the status update of the rejection fails. *)
Definition example_invalid_nab : NonAdminBackup.t :=
    NonAdminBackup.mk
      (ObjectMeta.mk "nightly" "" "team-a" "0b5e" 100 None ∅ None [])
      (NonAdminBackupSpec.mk
         (BackupSpec.mk (Metadata.mk None) (Some ["team-b"]) None None None None None None
            None None None None 0 None (BackupHooks.mk None) "" None None None None
            0 0 None None "" None "")
         false)
      NonAdminBackupStatus.zero.
Definition example_invalid_state : State :=
    {| cluster := example_cluster_of example_invalid_nab []; nab := example_invalid_nab |}.
Definition example_invalid_pass_failing_update : Outcome * Cluster.t :=
    Reconcile example_request (example_cluster_of example_invalid_nab [false; false; true]).

  (** The same object carrying a sync label, and the engine Backup it is
      synced from. *)
Definition example_sync_nab : NonAdminBackup.t :=
    NonAdminBackup.with_ObjectMeta
      (ObjectMeta.mk "nightly" "" "team-a" "0b5e" 100 None
         {[ "openshift.io/oadp-nab-synced-from-nacuuid" := "team-a-nightly-6f1c2a" ]}
         None [])
      example_invalid_nab.
Definition example_sync_cluster : Cluster.t :=
    Cluster.with_backups [example_backup] (example_cluster_of example_sync_nab []).
Definition example_sync_pass : Outcome * Cluster.t :=
    Reconcile example_request example_sync_cluster.

  (** The synced object when the engine Backup is missing. *)
Definition example_sync_state_missing : State :=
    {| cluster := example_cluster_of example_sync_nab [];
       nab := NonAdminBackup.with_Status
                (NonAdminBackupStatus.with_VeleroBackup
                   (Some (VeleroBackup.mk "team-a-nightly-6f1c2a" "openshift-adp"
                            "team-a-nightly-6f1c2a" None None))
                   NonAdminBackupStatus.zero)
                example_sync_nab |}.
End Example.

(** ** The example deployment after the first pass *)

Section ExampleLater.
Local Existing Instances example_constants example_functions example_reconciler.

  (** The object as the first pass leaves it, and the state a step of the
      second pass starts in. *)
Definition example_stored_nab : NonAdminBackup.t :=
    default example_nab (Cluster.nonAdminBackup example_cluster1).
Definition example_state : State := {| cluster := example_cluster; nab := example_nab |}.
Definition example_state1 : State :=
    {| cluster := example_cluster1; nab := example_stored_nab |}.

  (** A request for an object that does not exist. *)
Definition example_request_missing : NamespacedName :=
    {| Namespace := "team-a"; Name := "weekly" |}.

  (** The tenant asks for the deletion of the backup; the tenant's namespace
      holds a restore of it and a restore of another backup. *)
Definition example_delete_nab : NonAdminBackup.t :=
    NonAdminBackup.mk (NonAdminBackup.ObjectMeta example_stored_nab)
      (NonAdminBackupSpec.mk example_spec true) (NonAdminBackup.Status example_stored_nab).
Definition example_restore : NonAdminRestore.t :=
    NonAdminRestore.mk (ObjectMeta.mk "restore-nightly" "" "team-a" "91c3" 200 None ∅ None [])
      "nightly".
Definition example_other_restore : NonAdminRestore.t :=
    NonAdminRestore.mk (ObjectMeta.mk "restore-weekly" "" "team-a" "91c4" 201 None ∅ None [])
      "weekly".
Definition example_delete_cluster : Cluster.t :=
    Cluster.with_nonAdminRestores [example_restore; example_other_restore]
      (Cluster.with_nonAdminBackup (Some example_delete_nab) example_cluster1).

  (** The object is deleted through the API of the cluster: the deletion
      timestamp is set, the finalizer keeps the object. *)
Definition example_deleted_nab : NonAdminBackup.t :=
    NonAdminBackup.with_ObjectMeta
      (ObjectMeta.with_DeletionTimestamp (Some 1500)
         (NonAdminBackup.ObjectMeta example_stored_nab))
      example_stored_nab.
Definition example_deleted_cluster : Cluster.t :=
    Cluster.with_nonAdminBackup (Some example_deleted_nab) example_cluster1.

  (** An engine Backup with the UUID of the object whose annotations name
      another tenant namespace. *)
Definition example_foreign_backup : Backup.t :=
    Backup.mk
      (ObjectMeta.mk "team-a-nightly-6f1c2a" "" "openshift-adp" "5d20" 900 None
         {[ "openshift.io/oadp-nab-origin-nacuuid" := "team-a-nightly-6f1c2a" ]}
         (Some {[ "openshift.io/oadp-nab-origin-namespace" := "team-b" ]}) [])
      BackupSpec.zero BackupStatus.zero.
Definition example_foreign_state : State :=
    {| cluster := Cluster.with_backups [example_foreign_backup] example_cluster1;
       nab := example_stored_nab |}.

  (** The object in phase Created without conditions, its engine Backup
      lost. *)
Definition example_unqueued_state : State :=
    {| cluster := example_cluster_lost;
       nab := NonAdminBackup.with_Status
                (NonAdminBackupStatus.with_Conditions []
                   (NonAdminBackup.Status example_stored_nab))
                example_stored_nab |}.

  (** The state in which the steps of the direct-delete pass run, and the
      same state once the engine Backup is gone. *)
Definition example_deleted_state : State :=
    {| cluster := example_deleted_cluster; nab := example_deleted_nab |}.
Definition example_released_state : State :=
    {| cluster := Cluster.with_backups [] example_deleted_cluster;
       nab := example_deleted_nab |}.

  (** The cluster after the pass that asked for the deletion of the backup:
      the object is marked for deletion. *)
Definition example_marked_cluster : Cluster.t :=
    (Reconcile example_request example_delete_cluster).2.
Definition example_marked_nab : NonAdminBackup.t :=
    default example_delete_nab (Cluster.nonAdminBackup example_marked_cluster).



End ExampleLater.

(** * Proofs *)

Section Proofs.
Context {constant : Constants} {function : Functions}
    {r : NonAdminBackupReconciler}.


  (** ** The merge of the enforced spec *)

Lemma FieldByName_SetField_eq f x v : FieldByName f (SetField f x v) = x.
Proof. destruct f; reflexivity. Qed.

Lemma FieldByName_SetField_ne f g x v :
    f ≠ g → FieldByName g (SetField f x v) = FieldByName g v.
Proof. intros Hne. destruct f, g; first [ reflexivity | congruence ]. Qed.

Lemma FieldByName_enforceField e v f g :
    FieldByName g (enforceField e v f) =
    if decide (f = g) then merged g e v else FieldByName g v.
Proof.
    unfold enforceField, merged. destruct (decide (f = g)) as [<-|Hfg].
    - destruct (negb _ && _); [apply FieldByName_SetField_eq | done].
    - destruct (negb _ && _); [by apply FieldByName_SetField_ne | done].
Qed.

Lemma FieldByName_foldl_enforceField e g l v :
    NoDup l →
    FieldByName g (foldl (enforceField e) v l) =
    if decide (g ∈ l) then merged g e v else FieldByName g v.
Proof.
    intros Hnd. revert v. induction Hnd as [|f l Hf Hnd IH]; intros v; cbn [foldl].
    - destruct (decide (g ∈ [])) as [H|H]; [by apply elem_of_nil in H | done].
    - rewrite IH, FieldByName_enforceField. unfold merged.
      rewrite FieldByName_enforceField.
      destruct (decide (f = g)) as [<-|Hfg].
      + rewrite decide_False by done. rewrite decide_True by (by left). done.
      + destruct (decide (g ∈ l)) as [Hg|Hg].
        * rewrite decide_True by (by right). done.
        * rewrite decide_False; [done|]. intros [->|?]%elem_of_cons; done.
Qed.

Lemma NoDup_fields : NoDup fields.
Proof. apply (bool_decide_unpack _). vm_compute. exact I. Qed.

Lemma elem_of_fields f : f ∈ fields.
Proof. destruct f; apply (bool_decide_unpack _); vm_compute; exact I. Qed.

Lemma FieldByName_enforceFields f e v :
    FieldByName f (enforceFields e v) = merged f e v.
Proof.
    unfold enforceFields. rewrite FieldByName_foldl_enforceField by apply NoDup_fields.
    rewrite decide_True by apply elem_of_fields. done.
Qed.

Lemma BackupSpec_ext a b : (∀ f, FieldByName f a = FieldByName f b) → a = b.
Proof.
    intros H. destruct a, b.
    pose proof (H FMetadata). pose proof (H FIncludedNamespaces).
    f_equal; first [ apply (H FMetadata) | apply (H FIncludedNamespaces)
     | apply (H FExcludedNamespaces) | apply (H FIncludedResources)
     | apply (H FExcludedResources) | apply (H FIncludedClusterScopedResources)
     | apply (H FExcludedClusterScopedResources) | apply (H FIncludedNamespaceScopedResources)
     | apply (H FExcludedNamespaceScopedResources) | apply (H FLabelSelector) | apply (H FOrLabelSelectors)
     | apply (H FSnapshotVolumes) | apply (H FTTL) | apply (H FIncludeClusterResources) | apply (H FHooks)
     | apply (H FStorageLocation) | apply (H FVolumeSnapshotLocations) | apply (H FDefaultVolumesToRestic)
     | apply (H FDefaultVolumesToFsBackup) | apply (H FOrderedResources) | apply (H FCSISnapshotTimeout)
     | apply (H FItemOperationTimeout) | apply (H FResourcePolicy) | apply (H FSnapshotMoveData) | apply (H FDataMover)
     | apply (H FUploaderConfig) | apply (H FVolumeGroupSnapshotLabelKey) ].
Qed.

Lemma enforceFields_merge e v : enforceFields e v = merge e v.
Proof.
    apply BackupSpec_ext. intros f. rewrite FieldByName_enforceFields.
    destruct f; reflexivity.
Qed.

  (** ** Symbolic execution of the steps *)


Lemma bool_decide_refl {A} `{EqDecision A} (x : A) : bool_decide (x = x) = true.
Proof. by apply bool_decide_eq_true_2. Qed.

Lemma hasKey_keyOf m : hasKey (keyOf m) m = true.
Proof. unfold hasKey, keyOf. cbn. by rewrite !bool_decide_eq_true_2. Qed.

Lemma hasKey_true key m : hasKey key m = true → keyOf m = key.
Proof.
    unfold hasKey, keyOf. intros [H1 H2]%andb_prop.
    apply bool_decide_eq_true in H1, H2. destruct key; cbn in *; congruence.
Qed.

Lemma updateNonAdminPhase_unchanged p q n : updateNonAdminPhase p q = (n, false) → n = p.
Proof. unfold updateNonAdminPhase. case_bool_decide; congruence. Qed.

Lemma updateNonAdminPhase_result p q n u : updateNonAdminPhase p q = (n, u) → n = q.
Proof. unfold updateNonAdminPhase. case_bool_decide; congruence. Qed.

Lemma updateCondition_unchanged now c new c' :
    Condition.Type_ c = Condition.Type_ new →
    updateCondition now c new = (c', false) → c' = c.
Proof.
    unfold updateCondition. destruct c, new; cbn. intros ->.
    intros [= <- H]. apply orb_false_elim in H as [H Hg].
    apply orb_false_elim in H as [H Hm]. apply orb_false_elim in H as [Hs Hr].
    apply negb_false_iff in Hs, Hr, Hm, Hg.
    apply bool_decide_eq_true in Hs, Hr, Hm. apply Z.eqb_eq in Hg. subst.
    rewrite bool_decide_eq_true_2 by done. done.
Qed.

Lemma SetStatusCondition_unchanged now cs new l :
    SetStatusCondition now cs new = (l, false) → l = cs.
Proof.
    revert l. induction cs as [|c cs IH]; intros l; cbn [SetStatusCondition]; [congruence|].
    case_bool_decide as Hty.
    - destruct (updateCondition now c new) as [c' ch] eqn:E. intros [= <- ->].
      by rewrite (updateCondition_unchanged _ _ _ _ Hty E).
    - destruct (SetStatusCondition now cs new) as [rest ch]. intros [= <- ->].
      by rewrite (IH rest).
Qed.

Lemma FindStatusCondition_SetStatusCondition now conditions new l changed :
    SetStatusCondition now conditions new = (l, changed) →
    ∃ c, FindStatusCondition l (Condition.Type_ new) = Some c
         ∧ Condition.Status c = Condition.Status new
         ∧ Condition.Reason c = Condition.Reason new
         ∧ Condition.Message c = Condition.Message new.
Proof.
    revert l changed. induction conditions as [|c cs IH]; intros l changed;
      cbn [SetStatusCondition].
    - intros [= <- <-]. cbn. rewrite bool_decide_eq_true_2 by done. by eexists.
    - case_bool_decide as Hty.
      + unfold updateCondition. intros [= <- <-]. cbn.
        rewrite bool_decide_eq_true_2 by done. by eexists.
      + destruct (SetStatusCondition now cs new) as [rest ch] eqn:E.
        intros [= <- <-]. cbn. rewrite bool_decide_eq_false_2 by done. by eapply IH.
Qed.

Local Arguments enforceFields : simpl never.
Local Arguments confineNamespaces : simpl never.
Local Arguments excludeNonAdminResources : simpl never.
Local Arguments SetField : simpl never.
Local Arguments buildVeleroBackup : simpl never.
Local Arguments buildDeleteBackupRequest : simpl never.
Local Arguments SetStatusCondition : simpl never.
Local Arguments updateNonAdminPhase : simpl never.

Ltac unfold_prims :=
    cbv beta iota zeta delta
      [mbind mret M_bind M_ret call callInto getNab setNab getCluster
       return_ panic check when setPhase setCondition onStatus
       Get Status_Update Client_Update Client_Delete List_Backups Create_Backup
       Delete_Backup List_DeleteBackupRequests CreateRetryGenerateName
       Delete_DeleteBackupRequest List_NonAdminRestores Delete_NonAdminRestore
       Get_NonAdminBackupStorageLocation List_PodVolumeBackups List_DataUploads
       GetVeleroBackupByLabel GetVeleroDeleteBackupRequestByLabel GetBackupQueueInfo
       drawFault logCall stored
       Cluster.with_nonAdminBackup Cluster.with_backups Cluster.with_deleteBackupRequests
       Cluster.with_nonAdminRestores Cluster.with_faults Cluster.with_calls
       NonAdminBackup.with_Status NonAdminBackup.with_ObjectMeta
       NonAdminBackupStatus.with_Phase NonAdminBackupStatus.with_Conditions
       NonAdminBackupStatus.with_VeleroBackup
       NonAdminBackupStatus.with_VeleroDeleteBackupRequest
       NonAdminBackupStatus.with_QueueInfo
       NonAdminBackupStatus.with_FileSystemPodVolumeBackups
       NonAdminBackupStatus.with_DataMoverDataUploads
       NonAdminBackup.Namespace NonAdminBackup.Name NonAdminBackup.Labels
       NonAdminBackup.Finalizers NonAdminBackup.DeletionTimestamp
       ObjectMeta.with_Finalizers ObjectMeta.with_DeletionTimestamp
       ContainsFinalizer AddFinalizer RemoveFinalizer negb].

Ltac reduce_state :=
    cbn [cluster nab fst snd Cluster.nonAdminBackup Cluster.backups
         Cluster.deleteBackupRequests Cluster.nonAdminRestores
         Cluster.nonAdminBackupStorageLocations Cluster.podVolumeBackups
         Cluster.dataUploads Cluster.clock Cluster.nextUID Cluster.nextName
         Cluster.faults Cluster.calls Cluster.now
         NonAdminBackup.ObjectMeta NonAdminBackup.Spec NonAdminBackup.Status
         NonAdminBackupStatus.Phase NonAdminBackupStatus.Conditions
         NonAdminBackupStatus.VeleroBackup NonAdminBackupStatus.VeleroDeleteBackupRequest
         NonAdminBackupStatus.QueueInfo NonAdminBackupStatus.FileSystemPodVolumeBackups
         NonAdminBackupStatus.DataMoverDataUploads
         ObjectMeta.Name ObjectMeta.GenerateName ObjectMeta.Namespace ObjectMeta.UID
         ObjectMeta.CreationTimestamp ObjectMeta.DeletionTimestamp ObjectMeta.Labels
         ObjectMeta.Annotations ObjectMeta.Finalizers Namespace Name andb].

  (** The term on which the reduction of [t] is stuck. *)
Ltac stuck t :=
    match t with
    | match ?x with _ => _ end =>
        match x with
        | _ => stuck x
        | _ => x
        end
    | ?f _ => stuck f
    end.

Ltac head_of t :=
    lazymatch t with
    | ?f _ => head_of f
    | _ => t
    end.

Ltac unfold_head t := let h := head_of t in unfold h.

Ltac step_head :=
    lazymatch goal with
    | |- ?g => let h := stuck g in destruct h eqn:?
    end.

Lemma hasKey_same m1 m2 :
    ObjectMeta.Namespace m1 = ObjectMeta.Namespace m2 →
    ObjectMeta.Name m1 = ObjectMeta.Name m2 →
    hasKey (keyOf m1) m2 = true.
Proof.
    unfold hasKey, keyOf. cbn. intros -> ->. by rewrite !bool_decide_eq_true_2.
Qed.

Ltac exec :=
    repeat (unfold_prims; reduce_state; rewrite ?hasKey_same by reflexivity;
            try step_head).

Ltac destruct_state s :=
    destruct s as
      [[stored0 backups dbrs nars nabsls pvbs dus clock uid name faults calls]
       [[nm gen ns objuid created deleted labels annotations finalizers] spec
        [phase conditions vb vdbr qi fspvb dmdu]]].

Ltac tidy :=
    repeat match goal with
      | H : updateNonAdminPhase _ _ = (_, false) |- _ =>
          apply updateNonAdminPhase_unchanged in H; subst
      | H : SetStatusCondition _ _ _ = (_, false) |- _ =>
          apply SetStatusCondition_unchanged in H; subst
      | H : _ || _ = false |- _ => apply orb_false_elim in H as [? ?]; subst
      | H : hasKey _ _ = true |- _ => apply hasKey_true in H
      | H : (_, _) = (_, _) |- _ => injection H as ? ?; subst
      | H : Some _ = Some _ |- _ => injection H as ?; subst
      end.

  (** The loop over the restores only deletes restores. *)
Lemma deleteMatchingRestores_frame name items s :
    match deleteMatchingRestores name items s with
    | (flow, s') =>
        nab s' = nab s
        ∧ Cluster.nonAdminBackup (cluster s') = Cluster.nonAdminBackup (cluster s)
        ∧ Cluster.backups (cluster s') = Cluster.backups (cluster s)
        ∧ (∃ l, Cluster.calls (cluster s') = Cluster.calls (cluster s) ++ l
                ∧ Forall (λ c, ∃ nar, c = DeleteNonAdminRestore nar) l)
        ∧ flow ≠ Panic
    end.
Proof.
    revert s. induction items as [|nar items IH]; intros s; cbn [deleteMatchingRestores].
    - unfold_prims. repeat split; try done. exists []. by rewrite app_nil_r.
    - destruct s as [c n].
      destruct c as [stored0 backups dbrs nars nabsls pvbs dus clock uid nm faults calls].
      unfold mbind at 1, M_bind. unfold when.
      destruct (bool_decide _).
      + exec.
        all: try (repeat split; try done; eexists [_]; split; [done|];
                  repeat constructor; by eexists).
        all: lazymatch goal with
             | H : deleteMatchingRestores _ _ ?s1 = _ |- _ =>
                 specialize (IH s1); rewrite H in IH; cbn in IH;
                 destruct IH as (-> & -> & -> & (l & -> & Hl) & Hp)
             end.
        all: repeat split; try done; eexists (_ :: l); split;
          [by rewrite <- app_assoc | constructor; [by eexists | done]].
      + unfold_prims.
        specialize (IH {| cluster := Cluster.mk stored0 backups dbrs nars nabsls pvbs
                                       dus clock uid nm faults calls; nab := n |}).
        by destruct (deleteMatchingRestores _ _ _).
Qed.


  (** ** Namespace confinement and the spec of the engine object (C1, C2) *)

Section Confinement.
Context (n0 : NonAdminBackup.t) (calls0 : list Call).

Lemma engineSpecFor_plain :
      engineSpecFor n0
        (excludeNonAdminResources
           (confineNamespaces (ObjectMeta.Namespace (NonAdminBackup.ObjectMeta n0))
              (enforceFields r.(EnforcedBackupSpec)
                 (NonAdminBackupSpec.BackupSpec (NonAdminBackup.Spec n0))))).
Proof. eexists. split; [by left | done]. Qed.

Lemma engineSpecFor_located name :
      engineSpecFor n0
        (excludeNonAdminResources
           (SetField FStorageLocation name
              (confineNamespaces (ObjectMeta.Namespace (NonAdminBackup.ObjectMeta n0))
                 (enforceFields r.(EnforcedBackupSpec)
                    (NonAdminBackupSpec.BackupSpec (NonAdminBackup.Spec n0)))))).
Proof. eexists. split; [right; by eexists | done]. Qed.

Lemma extends_snoc l call : extends n0 calls0 l → okCreate n0 call → extends n0 calls0 (l ++ [call]).
Proof.
      intros (new & -> & Hnew) Hcall. exists (new ++ [call]).
      split; [by rewrite app_assoc|]. apply Forall_app. by split; [|constructor].
Qed.

Lemma extends_app l new : extends n0 calls0 l → Forall (okCreate n0) new → extends n0 calls0 (l ++ new).
Proof.
      intros (new0 & -> & Hnew0) Hnew. exists (new0 ++ new).
      split; [by rewrite app_assoc|]. by apply Forall_app.
Qed.

Ltac start_confined :=
      intros s; destruct_state s; unfold confinedInv;
      cbn [cluster nab Cluster.nonAdminBackup Cluster.calls NonAdminBackup.Namespace
           NonAdminBackup.Spec NonAdminBackup.ObjectMeta ObjectMeta.Namespace];
      intros (Hns & Hspec & Hstored & Hext).

Ltac finish_confined :=
      cbn [snd cluster nab Cluster.nonAdminBackup Cluster.calls NonAdminBackup.Namespace
           NonAdminBackup.Spec NonAdminBackup.ObjectMeta ObjectMeta.Namespace];
      unfold NonAdminBackup.Namespace in *;
      tidy;
      repeat match goal with
        | |- _ ∧ _ => split
        | |- extends _ _ (_ ++ [_]) => apply extends_snoc
        | |- okCreate _ _ =>
            first [ exact I | unfold okCreate, buildVeleroBackup; cbn [Backup.Spec] ]
        | |- engineSpecFor _ (excludeNonAdminResources (SetField FStorageLocation _ _)) =>
            apply engineSpecFor_located
        | |- engineSpecFor _ (excludeNonAdminResources (confineNamespaces _ _)) =>
            apply engineSpecFor_plain
        | |- ∀ n, _ = Some n → _ => intros ? ?; simplify_eq; cbn
        | H : keyOf _ = keyOf _ |- _ => injection H as ? ?
        end;
      try done; try (by eauto); try congruence;
      repeat (case_match; simplify_eq); cbn in *;
      try done; try (by eauto); try congruence.

Ltac confined_by def := start_confined; unfold_head def; exec; finish_confined.

Lemma initNabCreate_confined : confinedStep n0 calls0 initNabCreate.
Proof. confined_by initNabCreate. Qed.

Lemma validateSpec_confined : confinedStep n0 calls0 validateSpec.
Proof. confined_by validateSpec. Qed.

Lemma setBackupUUIDInStatus_confined : confinedStep n0 calls0 setBackupUUIDInStatus.
Proof. confined_by setBackupUUIDInStatus. Qed.

Lemma setFinalizerOnNonAdminBackup_confined : confinedStep n0 calls0 setFinalizerOnNonAdminBackup.
Proof. confined_by setFinalizerOnNonAdminBackup. Qed.

Lemma setStatusAndConditionForDeletionAndCallDelete_confined :
      confinedStep n0 calls0 setStatusAndConditionForDeletionAndCallDelete.
Proof. confined_by setStatusAndConditionForDeletionAndCallDelete. Qed.

Lemma setStatusForDirectKubernetesAPIDeletion_confined :
      confinedStep n0 calls0 setStatusForDirectKubernetesAPIDeletion.
Proof. confined_by setStatusForDirectKubernetesAPIDeletion. Qed.

Lemma deleteDeleteBackupRequestObjects_confined :
      confinedStep n0 calls0 deleteDeleteBackupRequestObjects.
Proof. confined_by deleteDeleteBackupRequestObjects. Qed.

Lemma deleteVeleroBackupObjects_confined : confinedStep n0 calls0 deleteVeleroBackupObjects.
Proof.
      start_confined.
      unfold deleteVeleroBackupObjects, removeNabFinalizerUponVeleroBackupDeletion.
      exec; finish_confined.
Qed.

Lemma createVeleroDeleteBackupRequest_confined :
      confinedStep n0 calls0 createVeleroDeleteBackupRequest.
Proof.
      start_confined.
      unfold createVeleroDeleteBackupRequest, removeNabFinalizerUponVeleroBackupDeletion.
      exec; finish_confined.
Qed.

Lemma createVeleroBackupAndSyncWithNonAdminBackup_confined :
      confinedStep n0 calls0 createVeleroBackupAndSyncWithNonAdminBackup.
Proof.
      start_confined.
      unfold createVeleroBackupAndSyncWithNonAdminBackup, createMissingVeleroBackup.
      exec. all: finish_confined.
Qed.

Lemma deleteNonAdminRestores_confined : confinedStep n0 calls0 deleteNonAdminRestores.
Proof.
      start_confined. unfold deleteNonAdminRestores. exec.
      all: try (by finish_confined).
      all: lazymatch goal with
           | H : deleteMatchingRestores ?a ?b ?s1 = _ |- _ =>
               pose proof (deleteMatchingRestores_frame a b s1) as Hf;
               rewrite H in Hf; cbn in Hf;
               destruct Hf as (Hn & Hst & _ & (l & Hc & Hl) & Hp)
           end.
      all: rewrite Hn, Hst, Hc; cbn; repeat split; try done.
      all: apply extends_app; [done|];
        eapply Forall_impl; [exact Hl|]; by intros ? [? ->].
Qed.

Lemma reconcileSteps_confined n : Forall (confinedStep n0 calls0) (reconcileSteps n).
Proof.
      unfold reconcileSteps. repeat case_match; repeat constructor;
        auto using initNabCreate_confined, validateSpec_confined,
          setBackupUUIDInStatus_confined, setFinalizerOnNonAdminBackup_confined,
          createVeleroBackupAndSyncWithNonAdminBackup_confined,
          setStatusAndConditionForDeletionAndCallDelete_confined,
          deleteNonAdminRestores_confined, createVeleroDeleteBackupRequest_confined,
          setStatusForDirectKubernetesAPIDeletion_confined,
          deleteDeleteBackupRequestObjects_confined, deleteVeleroBackupObjects_confined.
Qed.
End Confinement.

  (** An invariant kept by every step is kept by the loop over the steps. *)
Lemma runSteps_preserves (I : State → Prop) steps :
    Forall (λ step : Step, ∀ s, I s → match step s with (_, s') => I s' end) steps →
    ∀ s, I s → I (runSteps steps s).2.
Proof.
    induction 1 as [|step steps Hstep _ IH]; intros s Hs; cbn [runSteps]; [done|].
    specialize (Hstep s Hs). destruct (step s) as [flow s'].
    destruct flow as [[]|[] []|]; cbn; auto.
Qed.

  (** [Reconcile] found no object to work on: nothing was written. *)
Lemma Reconcile_absent req c :
    stored req c = None → Cluster.calls (Reconcile req c).2 = Cluster.calls c.
Proof.
    intros Hst. unfold Reconcile, Get, drawFault.
    destruct (hd false (Cluster.faults c)); [done|].
    unfold stored in *. cbn [Cluster.nonAdminBackup Cluster.with_faults] in *.
    rewrite Hst. by destruct (IsNotFound _).
Qed.

  (** Every creation issued by a pass has the spec built for the stored
      object. *)
Lemma Reconcile_creates req c n0 b :
    stored req c = Some n0 →
    CreateBackup b ∈ Cluster.calls (Reconcile req c).2 →
    CreateBackup b ∈ Cluster.calls c ∨ engineSpecFor n0 (Backup.Spec b).
Proof.
    intros Hst. unfold Reconcile, Get, drawFault.
    destruct (hd false (Cluster.faults c)) eqn:Hf; [by left|].
    unfold stored in *. cbn [Cluster.nonAdminBackup Cluster.with_faults] in *.
    rewrite Hst.
    pose proof (runSteps_preserves (confinedInv n0 (Cluster.calls c)) _
                  (reconcileSteps_confined n0 (Cluster.calls c) n0)) as Hrun.
    match goal with
    | |- context [runSteps _ ?s0] => specialize (Hrun s0)
    end.
    destruct (runSteps _ _) as [outcome s']. cbn [snd] in *.
    destruct Hrun as (_ & _ & _ & new & -> & Hnew).
    { repeat split; try done.
      - cbn. intros n Hn. destruct (Cluster.nonAdminBackup c) as [n1|]; [|done].
        destruct (hasKey _ _); congruence.
      - exists []. by rewrite app_nil_r. }
    intros [Hin|Hin]%elem_of_app; [by left|right].
    rewrite Forall_forall in Hnew. exact (Hnew _ Hin).
Qed.

  (** The fields of the spec built for [n]. *)
Lemma FieldByName_excludeNonAdminResources f spec :
    f ≠ FExcludedResources → f ≠ FExcludedNamespaceScopedResources →
    f ≠ FExcludedClusterScopedResources →
    FieldByName f (excludeNonAdminResources spec) = FieldByName f spec.
Proof.
    intros. unfold excludeNonAdminResources.
    destruct (_ || _); by rewrite !FieldByName_SetField_ne.
Qed.

Lemma engineSpecFor_field n spec f :
    engineSpecFor n spec → rewrittenField f = false →
    FieldByName f spec
    = merged f r.(EnforcedBackupSpec)
        (NonAdminBackupSpec.BackupSpec (NonAdminBackup.Spec n)).
Proof.
    intros (base & Hbase & ->) Hf.
    rewrite FieldByName_excludeNonAdminResources by (intros ->; done).
    assert (FieldByName f base
            = FieldByName f (confineNamespaces (NonAdminBackup.Namespace n)
                               (enforceFields r.(EnforcedBackupSpec)
                                  (NonAdminBackupSpec.BackupSpec (NonAdminBackup.Spec n)))))
      as ->.
    { destruct Hbase as [->|[name ->]]; [done|].
      rewrite FieldByName_SetField_ne; [done|]. by intros <-. }
    unfold confineNamespaces. rewrite FieldByName_SetField_ne by (by intros <-).
    apply FieldByName_enforceFields.
Qed.

Lemma engineSpecFor_IncludedNamespaces n spec :
    engineSpecFor n spec →
    BackupSpec.IncludedNamespaces spec = Some [NonAdminBackup.Namespace n].
Proof.
    intros (base & Hbase & ->).
    change (FieldByName FIncludedNamespaces (excludeNonAdminResources base)
            = Some [NonAdminBackup.Namespace n]).
    rewrite FieldByName_excludeNonAdminResources by done.
    destruct Hbase as [->|[name ->]].
    - unfold confineNamespaces. apply FieldByName_SetField_eq.
    - rewrite FieldByName_SetField_ne by done.
      unfold confineNamespaces. apply FieldByName_SetField_eq.
Qed.

  (** C1. Every engine Backup a reconciliation pass creates has
      [spec.includedNamespaces] equal to the one-element list holding the
      namespace of the NonAdminBackup being reconciled, whatever the tenant's
      spec and the enforced spec contain. *)
Theorem created_backup_includes_only_tenant_namespace req c b :
    CreateBackup b ∈ Cluster.calls (Reconcile req c).2 →
    CreateBackup b ∈ Cluster.calls c
    ∨ BackupSpec.IncludedNamespaces (Backup.Spec b) = Some [Namespace req].
Proof.
    intros Hin. destruct (stored req c) as [n0|] eqn:Hst.
    - destruct (Reconcile_creates req c n0 b Hst Hin) as [?|Hspec]; [by left|right].
      rewrite (engineSpecFor_IncludedNamespaces _ _ Hspec).
      unfold stored in Hst. destruct (Cluster.nonAdminBackup c) as [n1|]; [|done].
      destruct (hasKey _ _) eqn:Hk; [|done]. simplify_eq.
      apply hasKey_true in Hk. by rewrite <- Hk.
    - left. by rewrite Reconcile_absent in Hin.
Qed.

  (** C2 (amended). The spec of a created engine Backup equals, in every
      field other than IncludedNamespaces, StorageLocation, ExcludedResources,
      ExcludedNamespaceScopedResources and ExcludedClusterScopedResources
      (which the controller rewrites after the merge), the tenant spec with
      the enforced field copied in exactly when the enforced field is
      non-zero and the tenant's is zero; a non-zero tenant field is never
      replaced by an enforced value. *)
Theorem created_backup_spec_is_merge_outside_rewritten_fields req c n0 b f :
    stored req c = Some n0 →
    CreateBackup b ∈ Cluster.calls (Reconcile req c).2 →
    rewrittenField f = false →
    let enforced := r.(EnforcedBackupSpec) in
    let tenant := NonAdminBackupSpec.BackupSpec (NonAdminBackup.Spec n0) in
    CreateBackup b ∈ Cluster.calls c
    ∨ (FieldByName f (Backup.Spec b)
       = (if negb (IsZero f (FieldByName f enforced)) && IsZero f (FieldByName f tenant)
          then FieldByName f enforced else FieldByName f tenant))
      ∧ (IsZero f (FieldByName f tenant) = false →
         FieldByName f (Backup.Spec b) = FieldByName f tenant)
      ∧ (∀ g, IsZero g (FieldByName g tenant) = false →
              FieldByName g (merge enforced tenant) = FieldByName g tenant).
Proof.
    intros Hst Hin Hf enforced tenant.
    destruct (Reconcile_creates req c n0 b Hst Hin) as [?|Hspec]; [by left|right].
    pose proof (engineSpecFor_field _ _ f Hspec Hf) as Hfield.
    fold enforced tenant in Hfield. unfold merged in Hfield.
    split; [done|]. split.
    - intros Hz. rewrite Hfield, Hz. by rewrite andb_false_r.
    - intros g Hz. rewrite <- enforceFields_merge, FieldByName_enforceFields.
      unfold merged. rewrite Hz. by rewrite andb_false_r.
Qed.

  (** ** The counters of child resources (C10) *)

Lemma setCounter_value field value updated : (setCounter field value updated).1 = value.
Proof.
    unfold setCounter. destruct (decide (field = value)) as [->|Hne].
    - by rewrite bool_decide_eq_false_2 by (intros H; by apply H).
    - by rewrite bool_decide_eq_true_2.
Qed.

Lemma indicator_filter_cons {A} (P : A → Prop) `{∀ x, Decision (P x)} x l :
    Z.of_nat (length (filter P (x :: l)))
    = (if decide (P x) then 1 else 0) + Z.of_nat (length (filter P l)).
Proof. rewrite filter_cons. destruct (decide (P x)); cbn [length]; lia. Qed.

Lemma foldl_tallyPodVolumeBackup items a b c d :
    foldl tallyPodVolumeBackup (a, b, c, d) items
    = (a + podVolumeBackupsIn PodVolumeBackupPhaseNew items,
       b + podVolumeBackupsIn PodVolumeBackupPhaseInProgress items,
       c + podVolumeBackupsIn PodVolumeBackupPhaseFailed items,
       d + podVolumeBackupsIn PodVolumeBackupPhaseCompleted items).
Proof.
    unfold podVolumeBackupsIn.
    revert a b c d. induction items as [|p items IH]; intros a b c d; cbn [foldl].
    - cbn. by rewrite !Z.add_0_r.
    - destruct (tallyPodVolumeBackup (a, b, c, d) p) as [[[a' b'] c'] d'] eqn:E.
      rewrite IH, !indicator_filter_cons. clear IH. revert E.
      unfold tallyPodVolumeBackup.
      unfold PodVolumeBackupPhaseNew, PodVolumeBackupPhaseInProgress,
      PodVolumeBackupPhaseFailed, PodVolumeBackupPhaseCompleted in *.
      generalize (PodVolumeBackup.Phase p). intros ph.
      repeat match goal with
        | |- context [bool_decide (ph = ?k)] =>
            destruct (decide (ph = k)) as [->|?];
            [ repeat (case_bool_decide; try congruence);
              repeat (case_decide; try congruence);
              intros ?; simplify_eq;
              repeat match goal with |- (_, _) = (_, _) => apply (f_equal2 pair) end; lia
            | rewrite (bool_decide_eq_false_2 (ph = k)) by done ]
        end.
      intros ?; simplify_eq.
      repeat match goal with |- (_, _) = (_, _) => apply (f_equal2 pair) end; lia.
Qed.

Lemma podVolumeBackups_partition items :
    podVolumeBackupsIn PodVolumeBackupPhaseNew items
    + podVolumeBackupsIn PodVolumeBackupPhaseInProgress items
    + podVolumeBackupsIn PodVolumeBackupPhaseFailed items
    + podVolumeBackupsIn PodVolumeBackupPhaseCompleted items
    + podVolumeBackupsUnrecognized items
    = Z.of_nat (length items).
Proof.
    unfold podVolumeBackupsIn, podVolumeBackupsUnrecognized.
    unfold PodVolumeBackupPhaseNew, PodVolumeBackupPhaseInProgress,
      PodVolumeBackupPhaseFailed, PodVolumeBackupPhaseCompleted in *.
    induction items as [|p items IH]; [done|].
    rewrite !indicator_filter_cons. cbn [length]. revert IH.
    generalize (PodVolumeBackup.Phase p). intros ph IH.
    repeat match goal with
      | |- context [decide (ph = ?k)] =>
          destruct (decide (ph = k)) as [->|?];
          [ repeat match goal with
              | |- context [decide ?P] => destruct (decide P); try discriminate
              end;
            try lia; exfalso; clear IH; set_unfold; intuition congruence | ]
      end.
    destruct (decide (ph ∉ _)) as [?|Hn]; [lia|].
    exfalso. apply Hn. set_unfold. intuition congruence.
Qed.

Lemma foldl_tallyDataUpload items n :
    foldl tallyDataUpload n items
    = mkTally
        (numberOfNew n + dataUploadsIn DataUploadPhaseNew items)
        (numberOfAccepted n + dataUploadsIn DataUploadPhaseAccepted items)
        (numberOfPrepared n + dataUploadsIn DataUploadPhasePrepared items)
        (numberOfInProgress n + dataUploadsIn DataUploadPhaseInProgress items)
        (numberOfCanceling n + dataUploadsIn DataUploadPhaseCanceling items)
        (numberOfCanceled n + dataUploadsIn DataUploadPhaseCanceled items)
        (numberOfFailed n + dataUploadsIn DataUploadPhaseFailed items)
        (numberOfCompleted n + dataUploadsIn DataUploadPhaseCompleted items).
Proof.
    unfold dataUploadsIn.
    revert n. induction items as [|p items IH]; intros n; cbn [foldl].
    - destruct n. cbn. by rewrite !Z.add_0_r.
    - rewrite IH, !indicator_filter_cons. clear IH. destruct n.
      unfold tallyDataUpload.
      unfold DataUploadPhaseNew, DataUploadPhaseAccepted, DataUploadPhasePrepared,
      DataUploadPhaseInProgress, DataUploadPhaseCanceling, DataUploadPhaseCanceled,
      DataUploadPhaseFailed, DataUploadPhaseCompleted in *.
      generalize (DataUpload.Phase p). intros ph.
      repeat match goal with
        | |- context [bool_decide (ph = ?k)] =>
            destruct (decide (ph = k)) as [->|?];
            [ repeat (case_bool_decide; try congruence);
              repeat (case_decide; try congruence);
              cbn; f_equal; lia
            | rewrite (bool_decide_eq_false_2 (ph = k)) by done ]
        end.
      cbn. f_equal; lia.
Qed.

Lemma dataUploads_partition items :
    dataUploadsIn DataUploadPhaseNew items
    + dataUploadsIn DataUploadPhaseAccepted items
    + dataUploadsIn DataUploadPhasePrepared items
    + dataUploadsIn DataUploadPhaseInProgress items
    + dataUploadsIn DataUploadPhaseCanceling items
    + dataUploadsIn DataUploadPhaseCanceled items
    + dataUploadsIn DataUploadPhaseFailed items
    + dataUploadsIn DataUploadPhaseCompleted items
    + dataUploadsUnrecognized items
    = Z.of_nat (length items).
Proof.
    unfold dataUploadsIn, dataUploadsUnrecognized.
    unfold DataUploadPhaseNew, DataUploadPhaseAccepted, DataUploadPhasePrepared,
      DataUploadPhaseInProgress, DataUploadPhaseCanceling, DataUploadPhaseCanceled,
      DataUploadPhaseFailed, DataUploadPhaseCompleted in *.
    induction items as [|p items IH]; [done|].
    rewrite !indicator_filter_cons. cbn [length]. revert IH.
    generalize (DataUpload.Phase p). intros ph IH.
    repeat match goal with
      | |- context [decide (ph = ?k)] =>
          destruct (decide (ph = k)) as [->|?];
          [ repeat match goal with
              | |- context [decide ?P] => destruct (decide P); try discriminate
              end;
            try lia; exfalso; clear IH; set_unfold; intuition congruence | ]
      end.
    destruct (decide (ph ∉ _)) as [?|Hn]; [lia|].
    exfalso. apply Hn. set_unfold. intuition congruence.
Qed.

  (** C10. After an update of the projected counters, Total is the number of
      listed objects and each per-phase counter is the number of listed
      objects in that phase; an object in a phase the switch does not name
      counts in Total only, so the per-phase counters sum to Total minus the
      number of such objects, at most Total. *)
Theorem child_counters_total_and_phases status
      (podVolumeBackups : list PodVolumeBackup.t) (dataUploads : list DataUpload.t) :
    (∃ c,
      NonAdminBackupStatus.FileSystemPodVolumeBackups
        (updateNonAdminBackupPodVolumeBackupStatus status podVolumeBackups).1 = Some c
      ∧ FileSystemPodVolumeBackups.Total c = Z.of_nat (length podVolumeBackups)
      ∧ FileSystemPodVolumeBackups.New c
        = podVolumeBackupsIn PodVolumeBackupPhaseNew podVolumeBackups
      ∧ FileSystemPodVolumeBackups.InProgress c
        = podVolumeBackupsIn PodVolumeBackupPhaseInProgress podVolumeBackups
      ∧ FileSystemPodVolumeBackups.Failed c
        = podVolumeBackupsIn PodVolumeBackupPhaseFailed podVolumeBackups
      ∧ FileSystemPodVolumeBackups.Completed c
        = podVolumeBackupsIn PodVolumeBackupPhaseCompleted podVolumeBackups
      ∧ FileSystemPodVolumeBackups.New c + FileSystemPodVolumeBackups.InProgress c
        + FileSystemPodVolumeBackups.Failed c + FileSystemPodVolumeBackups.Completed c
        = FileSystemPodVolumeBackups.Total c
          - podVolumeBackupsUnrecognized podVolumeBackups
      ∧ FileSystemPodVolumeBackups.New c + FileSystemPodVolumeBackups.InProgress c
        + FileSystemPodVolumeBackups.Failed c + FileSystemPodVolumeBackups.Completed c
        ≤ FileSystemPodVolumeBackups.Total c)
    ∧ (∃ c,
      NonAdminBackupStatus.DataMoverDataUploads
        (updateNonAdminBackupDataUploadStatus status dataUploads).1 = Some c
      ∧ DataMoverDataUploads.Total c = Z.of_nat (length dataUploads)
      ∧ DataMoverDataUploads.New c = dataUploadsIn DataUploadPhaseNew dataUploads
      ∧ DataMoverDataUploads.Accepted c = dataUploadsIn DataUploadPhaseAccepted dataUploads
      ∧ DataMoverDataUploads.Prepared c = dataUploadsIn DataUploadPhasePrepared dataUploads
      ∧ DataMoverDataUploads.InProgress c
        = dataUploadsIn DataUploadPhaseInProgress dataUploads
      ∧ DataMoverDataUploads.Canceling c = dataUploadsIn DataUploadPhaseCanceling dataUploads
      ∧ DataMoverDataUploads.Canceled c = dataUploadsIn DataUploadPhaseCanceled dataUploads
      ∧ DataMoverDataUploads.Failed c = dataUploadsIn DataUploadPhaseFailed dataUploads
      ∧ DataMoverDataUploads.Completed c = dataUploadsIn DataUploadPhaseCompleted dataUploads
      ∧ DataMoverDataUploads.New c + DataMoverDataUploads.Accepted c
        + DataMoverDataUploads.Prepared c + DataMoverDataUploads.InProgress c
        + DataMoverDataUploads.Canceling c + DataMoverDataUploads.Canceled c
        + DataMoverDataUploads.Failed c + DataMoverDataUploads.Completed c
        = DataMoverDataUploads.Total c - dataUploadsUnrecognized dataUploads
      ∧ DataMoverDataUploads.New c + DataMoverDataUploads.Accepted c
        + DataMoverDataUploads.Prepared c + DataMoverDataUploads.InProgress c
        + DataMoverDataUploads.Canceling c + DataMoverDataUploads.Canceled c
        + DataMoverDataUploads.Failed c + DataMoverDataUploads.Completed c
        ≤ DataMoverDataUploads.Total c).
Proof.
    split.
    - unfold updateNonAdminBackupPodVolumeBackupStatus.
      rewrite foldl_tallyPodVolumeBackup.
      pose proof (podVolumeBackups_partition podVolumeBackups) as Hsum.
      assert (0 ≤ podVolumeBackupsUnrecognized podVolumeBackups)
        by (unfold podVolumeBackupsUnrecognized; lia).
      repeat match goal with
        | |- context [setCounter ?f ?v ?u] =>
            let H := fresh in
            pose proof (setCounter_value f v u) as H;
            destruct (setCounter f v u); cbn [fst] in H; subst
        end.
      cbn. eexists. split; [done|]. cbn. repeat split; lia.
    - unfold updateNonAdminBackupDataUploadStatus.
      rewrite foldl_tallyDataUpload.
      pose proof (dataUploads_partition dataUploads) as Hsum.
      assert (0 ≤ dataUploadsUnrecognized dataUploads)
        by (unfold dataUploadsUnrecognized; lia).
      cbn [numberOfNew numberOfAccepted numberOfPrepared numberOfInProgress
           numberOfCanceling numberOfCanceled numberOfFailed numberOfCompleted].
      repeat match goal with
        | |- context [setCounter ?f ?v ?u] =>
            let H := fresh in
            pose proof (setCounter_value f v u) as H;
            destruct (setCounter f v u); cbn [fst] in H; subst
        end.
      cbn. eexists. split; [done|]. cbn. repeat split; lia.
Qed.

  (** ** Path selection (C3) *)

  (** C3. Every reconciliation of an existing NonAdminBackup runs the step
      sequence of exactly one of the four paths, chosen from the object
      fetched in this pass by the precedence: deleteBackup, then a non-zero
      deletion timestamp, then a valid sync label, else create/update. *)
Theorem reconcile_selects_one_path_by_precedence n req c :
    reconcileSteps n = pathSteps (selectPath n)
    ∧ (selectPath n = GracefulDelete
       ↔ NonAdminBackupSpec.DeleteBackup (NonAdminBackup.Spec n) = true)
    ∧ (selectPath n = DirectDelete
       ↔ NonAdminBackupSpec.DeleteBackup (NonAdminBackup.Spec n) = false
         ∧ Time_IsZero (NonAdminBackup.DeletionTimestamp n) = false)
    ∧ (selectPath n = SyncImport
       ↔ NonAdminBackupSpec.DeleteBackup (NonAdminBackup.Spec n) = false
         ∧ Time_IsZero (NonAdminBackup.DeletionTimestamp n) = true
         ∧ function.(CheckLabelAnnotationValueIsValid) (NonAdminBackup.Labels n)
             constant.(NabSyncLabel) = true)
    ∧ (selectPath n = CreateUpdate
       ↔ NonAdminBackupSpec.DeleteBackup (NonAdminBackup.Spec n) = false
         ∧ Time_IsZero (NonAdminBackup.DeletionTimestamp n) = true
         ∧ function.(CheckLabelAnnotationValueIsValid) (NonAdminBackup.Labels n)
             constant.(NabSyncLabel) = false)
    ∧ (∀ status, selectPath (NonAdminBackup.with_Status status n) = selectPath n)
    ∧ Reconcile req c
      = (let '(got, c') := Get req c in
         match got with
         | inl fetched =>
             let '(outcome, s) :=
               runSteps (pathSteps (selectPath fetched))
                 {| cluster := c'; nab := fetched |} in
             (outcome, cluster s)
         | inr err =>
             (Result false (if IsNotFound err then None else Some err), c')
         end).
Proof.
    assert (Hsteps : ∀ m, reconcileSteps m = pathSteps (selectPath m)).
    { intros m. unfold reconcileSteps, selectPath. by repeat case_match. }
    split; [apply Hsteps|].
    assert (Hsel : ∀ p, selectPath n = p ↔
      match p with
      | GracefulDelete => NonAdminBackupSpec.DeleteBackup (NonAdminBackup.Spec n) = true
      | DirectDelete =>
          NonAdminBackupSpec.DeleteBackup (NonAdminBackup.Spec n) = false
          ∧ Time_IsZero (NonAdminBackup.DeletionTimestamp n) = false
      | SyncImport =>
          NonAdminBackupSpec.DeleteBackup (NonAdminBackup.Spec n) = false
          ∧ Time_IsZero (NonAdminBackup.DeletionTimestamp n) = true
          ∧ function.(CheckLabelAnnotationValueIsValid) (NonAdminBackup.Labels n)
              constant.(NabSyncLabel) = true
      | CreateUpdate =>
          NonAdminBackupSpec.DeleteBackup (NonAdminBackup.Spec n) = false
          ∧ Time_IsZero (NonAdminBackup.DeletionTimestamp n) = true
          ∧ function.(CheckLabelAnnotationValueIsValid) (NonAdminBackup.Labels n)
              constant.(NabSyncLabel) = false
      end).
    { intros p. unfold selectPath.
      destruct (NonAdminBackupSpec.DeleteBackup (NonAdminBackup.Spec n)),
        (Time_IsZero (NonAdminBackup.DeletionTimestamp n)),
        (CheckLabelAnnotationValueIsValid function (NonAdminBackup.Labels n)
           (NabSyncLabel constant)), p; cbn; split; try done;
        try (by intros (? & ?)); try (by intros (? & ? & ?)). }
    split; [apply (Hsel GracefulDelete)|].
    split; [apply (Hsel DirectDelete)|].
    split; [apply (Hsel SyncImport)|].
    split; [apply (Hsel CreateUpdate)|].
    split; [done|].
    unfold Reconcile. destruct (Get req c) as [[fetched|e] c'].
    - by rewrite Hsteps.
    - by case_match.
Qed.

  (** ** Refusals of the engine-object step and of the validation (C6, C8, X28) *)


Ltac solve_refused :=
    unfold hasCondition, coherent;
    cbn [cluster nab Cluster.calls Cluster.backups Cluster.nonAdminBackup
         NonAdminBackup.Status NonAdminBackupStatus.Phase NonAdminBackupStatus.Conditions];
    repeat match goal with
      | H : _ || _ = false |- _ => apply orb_false_elim in H as [? ?]; subst
      end;
    repeat match goal with
      | H : updateNonAdminPhase _ _ = (?n, false) |- _ =>
          pose proof (updateNonAdminPhase_result _ _ _ _ H);
          apply updateNonAdminPhase_unchanged in H; subst
      | H : SetStatusCondition _ ?cs _ = (?l, false) |- _ =>
          pose proof (SetStatusCondition_unchanged _ _ _ _ H); subst l;
          apply FindStatusCondition_SetStatusCondition in H; cbn in H
      | H : updateNonAdminPhase _ _ = (?n, _) |- _ =>
          is_var n; pose proof (updateNonAdminPhase_result _ _ _ _ H); subst n; clear H
      | H : SetStatusCondition _ _ _ = (_, _) |- _ =>
          apply FindStatusCondition_SetStatusCondition in H; cbn in H
      | H : hasKey _ _ = true |- _ => apply hasKey_true in H
      end;
    repeat split; eauto 10;
    try (left; split; [done|]; intros; simplify_eq; done);
    try (right; do 2 eexists; repeat split; done).

  (** The validation failed: the step refuses. *)
Lemma validateSpec_refuses s err :
    function.(ValidateBackupSpec) (cluster s) r.(OADPNamespace) (nab s)
      r.(EnforcedBackupSpec) = Some err →
    refusedWith "InvalidBackupSpec" err s (validateSpec s).
Proof.
    destruct_state s. cbn [cluster nab]. intros Hv.
    unfold refusedWith, validateSpec. unfold_prims. reduce_state. rewrite Hv.
    exec. all: solve_refused.
Qed.

  (** The lookup found no engine Backup for an object that is being synced,
      or that is in phase Created with the Queued condition true: the step
      refuses. *)
Lemma createVeleroBackupAndSyncWithNonAdminBackup_refuses s uuid :
    statusNACUUID (nab s) = Some uuid →
    hd false (Cluster.faults (cluster s)) = false →
    backupsByUUID uuid (cluster s) = [] →
    function.(CheckLabelAnnotationValueIsValid) (NonAdminBackup.Labels (nab s))
      constant.(NabSyncLabel) = true
    ∨ (NonAdminBackupStatus.Phase (NonAdminBackup.Status (nab s)) = NonAdminPhaseCreated
       ∧ IsStatusConditionTrue
           (NonAdminBackupStatus.Conditions (NonAdminBackup.Status (nab s)))
           NonAdminConditionQueued = true) →
    refusedWith "VeleroBackupNotFound" (errors_New (notFoundMessage (nab s))) s
      (createVeleroBackupAndSyncWithNonAdminBackup s).
Proof.
    destruct_state s. unfold backupsByUUID, notFoundMessage.
    cbn [cluster nab Cluster.faults Cluster.backups NonAdminBackup.Labels
         NonAdminBackup.Status NonAdminBackup.ObjectMeta ObjectMeta.Labels
         NonAdminBackupStatus.Phase NonAdminBackupStatus.Conditions].
    intros Huuid Hfault Hnone Hguard.
    unfold refusedWith, createVeleroBackupAndSyncWithNonAdminBackup, createMissingVeleroBackup,
      GetVeleroBackupByLabel.
    unfold_prims. reduce_state. rewrite Huuid.
    unfold_prims. reduce_state. rewrite Hfault.
    unfold_prims. reduce_state. rewrite Hnone.
    unfold_prims. reduce_state.
    destruct Hguard as [Hsync|[-> Hqueued]].
    - rewrite Hsync. cbn [orb].
      destruct (IsStatusConditionTrue conditions NonAdminConditionQueued);
        exec; solve_refused.
    - rewrite bool_decide_refl, orb_true_r, Hqueued.
      destruct (CheckLabelAnnotationValueIsValid function labels (NabSyncLabel constant));
        exec; solve_refused.
Qed.

  (** C6 (amended). The sync-import path runs the last three steps of the
      create/update path: it neither initialises the phase nor validates the
      spec.  Its engine-object step refuses to create: for an object with a
      valid sync label whose lookup by UUID finds no engine Backup, the step
      issues no creation, leaves the phase BackingOff and the condition
      Accepted False, and returns the terminal error, or the error of the
      status update when that update fails. *)
Theorem sync_import_skips_validation_and_refuses_to_create n s uuid :
    selectPath n = SyncImport →
    function.(CheckLabelAnnotationValueIsValid) (NonAdminBackup.Labels (nab s))
      constant.(NabSyncLabel) = true →
    statusNACUUID (nab s) = Some uuid →
    hd false (Cluster.faults (cluster s)) = false →
    backupsByUUID uuid (cluster s) = [] →
    reconcileSteps n = drop 2 (pathSteps CreateUpdate)
    ∧ last (reconcileSteps n) = Some createVeleroBackupAndSyncWithNonAdminBackup
    ∧ refusedWith "VeleroBackupNotFound" (errors_New (notFoundMessage (nab s))) s
        (createVeleroBackupAndSyncWithNonAdminBackup s).
Proof.
    intros Hpath Hsync Huuid Hfault Hnone.
    assert (reconcileSteps n = pathSteps SyncImport) as ->.
    { rewrite <- Hpath. unfold reconcileSteps, selectPath. by repeat case_match. }
    split; [done|]. split; [done|].
    apply (createVeleroBackupAndSyncWithNonAdminBackup_refuses s uuid); auto.
Qed.

  (** X28. The guard of the refusal as the code has it: in the create/update
      path, when the lookup by UUID finds no engine Backup and the object is
      in phase Created with condition Queued true, the step creates no
      engine Backup, sets phase BackingOff and condition Accepted False with
      reason VeleroBackupNotFound and the message asking for a new
      NonAdminBackup, and returns that message as a terminal error, unless
      the status update fails, whose error it then returns. *)
Theorem lost_backup_of_created_object_is_refused s uuid :
    function.(CheckLabelAnnotationValueIsValid) (NonAdminBackup.Labels (nab s))
      constant.(NabSyncLabel) = false →
    NonAdminBackupStatus.Phase (NonAdminBackup.Status (nab s)) = NonAdminPhaseCreated →
    IsStatusConditionTrue (NonAdminBackupStatus.Conditions (NonAdminBackup.Status (nab s)))
      NonAdminConditionQueued = true →
    statusNACUUID (nab s) = Some uuid →
    hd false (Cluster.faults (cluster s)) = false →
    backupsByUUID uuid (cluster s) = [] →
    refusedWith "VeleroBackupNotFound"
      (errors_New "NonAdminBackup is finalized and its associated Velero Backup has been removed. Please create a new NonAdminBackup to initiate a new backup")
      s (createVeleroBackupAndSyncWithNonAdminBackup s).
Proof.
    intros _ Hphase Hqueued Huuid Hfault Hnone.
    pose proof (createVeleroBackupAndSyncWithNonAdminBackup_refuses s uuid
                  Huuid Hfault Hnone (or_intror (conj Hphase Hqueued))) as H.
    unfold notFoundMessage in H. by rewrite Hqueued in H.
Qed.

  (** C8 (amended). When the validation of the spec fails, [validateSpec]
      sets phase BackingOff and condition Accepted False with reason
      InvalidBackupSpec and the message of the validation error, writes
      nothing but the status, and ends the pass: with the validation error
      as a terminal error, or, when the status update fails, with the error
      of that update, which is not terminal. *)
Theorem validation_failure_backs_off_and_ends_the_pass s err rest :
    function.(ValidateBackupSpec) (cluster s) r.(OADPNamespace) (nab s)
      r.(EnforcedBackupSpec) = Some err →
    refusedWith "InvalidBackupSpec" err s (validateSpec s)
    ∧ ∃ e, (validateSpec s).1 = Return false (Some e)
           ∧ (e = TerminalError err ∨ ∃ failure, e = StatusError failure)
           ∧ runSteps (validateSpec :: rest) s = (Result false (Some e), (validateSpec s).2).
Proof.
    intros Hv. pose proof (validateSpec_refuses s err Hv) as H.
    split; [done|]. unfold refusedWith in H. cbn [runSteps].
    destruct (validateSpec s) as [flow s'].
    destruct H as (_ & _ & _ & _ & [[-> _]|(failure & n & -> & _)]); eexists; eauto 6.
Qed.

  (** ** Finalizer discipline (C4) *)

Lemma runSteps_triple_cons pre post final step rest :
    triple pre step post final →
    (∀ s, post s → final (runSteps rest s).2) →
    ∀ s, pre s → final (runSteps (step :: rest) s).2.
Proof.
    intros Hstep Hrest s Hs. specialize (Hstep s Hs). cbn [runSteps].
    destruct (step s) as [flow s'].
    destruct flow as [[]|[] []|]; cbn [snd]; auto.
Qed.

Lemma triple_keeps (I final : State → Prop) step :
    (∀ s, I s → final s) →
    (∀ s, I s → match step s with (_, s') => I s' end) →
    triple I step I final.
Proof.
    intros Hweak Hstep s Hs. specialize (Hstep s Hs).
    destruct (step s) as [flow s']. destruct flow as [[]|[] []|]; auto.
Qed.

Lemma heldAfter_app holds l l' :
    heldAfter holds (l ++ l') = heldAfter (heldAfter holds l) l'.
Proof. revert holds. induction l as [|[] l IH]; intros holds; cbn; auto. Qed.

Lemma createsGuarded_app holds l l' :
    createsGuarded holds (l ++ l')
    = createsGuarded holds l && createsGuarded (heldAfter holds l) l'.
Proof.
    revert holds. induction l as [|[] l IH]; intros holds; cbn; auto.
    by rewrite IH, andb_assoc.
Qed.

Lemma heldAfter_quiet holds l : forallb quiet l = true → heldAfter holds l = holds.
Proof. induction l as [|[] l IH]; cbn; auto; done. Qed.

Lemma createsGuarded_no_create holds l :
    forallb (λ call, negb (isCreateBackup call)) l = true → createsGuarded holds l = true.
Proof. revert holds. induction l as [|[] l IH]; intros holds; cbn; auto; done. Qed.

Lemma quiet_no_create l :
    forallb quiet l = true → forallb (λ call, negb (isCreateBackup call)) l = true.
Proof. induction l as [|[] l IH]; cbn; auto; done. Qed.

Lemma quiet_updatesHold l :
    forallb quiet l = true →
    forallb (λ call, match call with Update m => held m | _ => true end) l = true.
Proof. induction l as [|[] l IH]; cbn; auto; done. Qed.

Lemma match_snoc {A B} (l : list A) (a : A) (x y : B) :
    match l ++ [a] with [] => x | _ :: _ => y end = y.
Proof. by destruct l. Qed.

Lemma no_create_existsb l :
    forallb (λ call, negb (isCreateBackup call)) l = true → existsb isCreateBackup l = false.
Proof. induction l as [|[] l IH]; cbn; auto; done. Qed.

Lemma quiet_restores l :
    Forall (λ c, ∃ nar, c = DeleteNonAdminRestore nar) l → forallb quiet l = true.
Proof. induction 1 as [|? ? [? ->]]; cbn; auto. Qed.

Lemma held_AddFinalizer (finalizers : list string) (finalizer : string) :
    bool_decide (finalizer ∈ finalizers ++ [finalizer]) = true.
Proof. apply bool_decide_eq_true_2. set_solver. Qed.

Section Finalizer.
Context (n0 : NonAdminBackup.t) (calls0 : list Call).

Lemma finalizersKept_final s :
      finalizersKept n0 calls0 s → createdUnderFinalizer n0 calls0 s.
Proof.
      intros ((n & Hst & Hfin) & _ & new & Hcalls & Hquiet). exists new. split; [done|].
      split; [by apply createsGuarded_no_create, quiet_no_create|].
      split; [|by apply quiet_updatesHold].
      rewrite (no_create_existsb _ (quiet_no_create _ Hquiet)).
      intros [Hheld|?]; [|done]. exists n. split; [done|].
      unfold held, ContainsFinalizer in *. by rewrite Hfin.
Qed.

Lemma finalizerUntouched_final s :
      finalizerUntouched n0 calls0 s → removedWhenAbsent n0 calls0 s.
Proof. by left. Qed.

Ltac start_inv I :=
      intros s; destruct_state s; unfold_head I; unfold storedHolds, held, ContainsFinalizer,
        NonAdminBackup.Finalizers;
      cbn [cluster nab Cluster.nonAdminBackup Cluster.calls NonAdminBackup.ObjectMeta
           ObjectMeta.Finalizers].

Ltac log_split :=
      rewrite <- ?app_assoc; eexists; split; [reflexivity|];
      rewrite ?forallb_app;
      cbn [forallb quiet isCreateBackup negb andb app].

Ltac finish_inv :=
      unfold finalizersKept, finalizerHeld, createdUnderFinalizer, finalizerUntouched,
        removedWhenAbsent, storedHolds, held, ContainsFinalizer, NonAdminBackup.Finalizers;
      cbn [snd cluster nab Cluster.nonAdminBackup Cluster.calls Cluster.backups
           NonAdminBackup.ObjectMeta ObjectMeta.Finalizers];
      tidy;
      repeat match goal with
        | H : _ ++ [_] = [] |- _ => by apply app_eq_nil in H as [_ ?]
        | H : bool_decide (_ ∈ []) = true |- _ => by apply bool_decide_eq_true in H; set_solver
        end.

Ltac log_facts :=
      unfold updatesHold;
      rewrite ?createsGuarded_app, ?heldAfter_app, ?forallb_app, ?existsb_app;
      rewrite ?heldAfter_quiet by assumption;
      rewrite ?createsGuarded_no_create by (assumption || by apply quiet_no_create);
      rewrite ?no_create_existsb by (assumption || by apply quiet_no_create);
      rewrite ?quiet_updatesHold by assumption;
      rewrite ?quiet_no_create by assumption;
      cbn [forallb existsb quiet isCreateBackup createsGuarded heldAfter negb andb orb];
      unfold held, ContainsFinalizer, NonAdminBackup.Finalizers;
      cbn [NonAdminBackup.ObjectMeta ObjectMeta.Finalizers];
      rewrite ?held_AddFinalizer, ?andb_true_r, ?orb_false_r.

Ltac solve_inv :=
      subst;
      repeat match goal with
        | |- _ ∧ _ => split
        | |- ∃ n, Some _ = Some n ∧ _ => eexists; split; [reflexivity|]
        | |- ∃ new, _ = calls0 ++ new ∧ _ => log_split
        | |- _ → _ => intros
        end;
      try match goal with
        | H : _ ∨ existsb isCreateBackup _ = true |- _ => destruct H as [H|H]
        end;
      try match goal with
        | H : existsb isCreateBackup _ = true |- _ =>
            exfalso; rewrite ?existsb_app in H;
            rewrite ?no_create_existsb in H by (assumption || by apply quiet_no_create);
            cbn [existsb isCreateBackup orb] in H; discriminate H
        end;
      log_facts;
      repeat match goal with
        | H : ObjectMeta.Finalizers (NonAdminBackup.ObjectMeta _) = _ |- _ => rewrite H
        | H : _ = true |- _ => rewrite H
        end;
      try done.

Ltac intro_kept :=
      intros ((n1 & -> & Hfin1) & Hfin & new & -> & Hquiet).

Ltac intro_untouched :=
      intros (Hheld & new & -> & Hquiet).

Ltac kept_by def :=
      start_inv finalizersKept; intro_kept; unfold_head def; exec; finish_inv; solve_inv.


Lemma initNabCreate_finalizersKept :
      ∀ s, finalizersKept n0 calls0 s →
           match initNabCreate s with (_, s') => finalizersKept n0 calls0 s' end.
Proof. kept_by initNabCreate. Qed.

Lemma validateSpec_finalizersKept :
      ∀ s, finalizersKept n0 calls0 s →
           match validateSpec s with (_, s') => finalizersKept n0 calls0 s' end.
Proof. kept_by validateSpec. Qed.

Lemma setBackupUUIDInStatus_finalizersKept :
      ∀ s, finalizersKept n0 calls0 s →
           match setBackupUUIDInStatus s with (_, s') => finalizersKept n0 calls0 s' end.
Proof. kept_by setBackupUUIDInStatus. Qed.

Lemma setFinalizerOnNonAdminBackup_holds :
      triple (finalizersKept n0 calls0) setFinalizerOnNonAdminBackup
        (finalizerHeld n0 calls0) (createdUnderFinalizer n0 calls0).
Proof.
      start_inv finalizersKept. unfold triple. intro_kept.
      unfold setFinalizerOnNonAdminBackup. exec; finish_inv;
        rewrite ?match_snoc; repeat case_match; simplify_eq; solve_inv.
Qed.

Lemma createVeleroBackupAndSyncWithNonAdminBackup_guarded :
      triple (finalizerHeld n0 calls0) createVeleroBackupAndSyncWithNonAdminBackup
        (createdUnderFinalizer n0 calls0) (createdUnderFinalizer n0 calls0).
Proof.
      start_inv finalizerHeld. unfold triple.
      intros ((n1 & -> & Hheld1) & Hheld & new & -> & Hnone & Hafter & Hupdates).
      unfold createVeleroBackupAndSyncWithNonAdminBackup, createMissingVeleroBackup.
      exec; finish_inv; solve_inv.
Qed.

Ltac use_held :=
      repeat match goal with
        | |- _ = true → _ => intros ?
        | Hheld : ?p = true → _, H : ?p = true |- _ =>
            destruct (Hheld H) as (? & ? & ?); clear Hheld; simplify_eq
        end.

Ltac solve_untouched :=
      try (left; unfold finalizerUntouched, storedHolds, held, ContainsFinalizer,
             NonAdminBackup.Finalizers;
           cbn [cluster nab Cluster.nonAdminBackup Cluster.calls]);
      subst;
      repeat match goal with
        | |- _ ∧ _ => split
        | |- ∃ new, _ = calls0 ++ new ∧ _ => log_split
        end;
      use_held;
      repeat (case_match; simplify_eq);
      repeat match goal with
        | H : ObjectMeta.Finalizers _ = [], H' : bool_decide (_ ∈ ObjectMeta.Finalizers _) = true
          |- _ => rewrite H in H'; by apply bool_decide_eq_true in H'; set_solver
        | |- ∃ n, Some _ = Some n ∧ _ => eexists; split; [reflexivity|]
        end;
      cbn [NonAdminBackup.ObjectMeta ObjectMeta.Finalizers
           ObjectMeta.with_DeletionTimestamp forallb quiet andb];
      rewrite ?forallb_app; cbn [forallb quiet andb];
      repeat match goal with
        | H : ObjectMeta.Finalizers _ = _ |- _ => rewrite H
        | H : _ = true |- _ => rewrite H
        end;
      try done.

Ltac untouched_by def :=
      start_inv finalizerUntouched; intro_untouched; unfold_head def; exec; finish_inv;
      solve_untouched.

Lemma setStatusAndConditionForDeletionAndCallDelete_untouched :
      ∀ s, finalizerUntouched n0 calls0 s →
           match setStatusAndConditionForDeletionAndCallDelete s with
           | (_, s') => finalizerUntouched n0 calls0 s'
           end.
Proof.
      start_inv finalizerUntouched; intro_untouched.
      unfold setStatusAndConditionForDeletionAndCallDelete; exec; finish_inv.
      all: solve_untouched.
Qed.

Lemma setStatusForDirectKubernetesAPIDeletion_untouched :
      ∀ s, finalizerUntouched n0 calls0 s →
           match setStatusForDirectKubernetesAPIDeletion s with
           | (_, s') => finalizerUntouched n0 calls0 s'
           end.
Proof. untouched_by setStatusForDirectKubernetesAPIDeletion. Qed.

Lemma deleteDeleteBackupRequestObjects_untouched :
      ∀ s, finalizerUntouched n0 calls0 s →
           match deleteDeleteBackupRequestObjects s with
           | (_, s') => finalizerUntouched n0 calls0 s'
           end.
Proof. untouched_by deleteDeleteBackupRequestObjects. Qed.

Lemma deleteNonAdminRestores_untouched :
      ∀ s, finalizerUntouched n0 calls0 s →
           match deleteNonAdminRestores s with
           | (_, s') => finalizerUntouched n0 calls0 s'
           end.
Proof.
      start_inv finalizerUntouched; intro_untouched.
      unfold deleteNonAdminRestores. exec.
      all: try (by finish_inv; solve_untouched).
      all: lazymatch goal with
           | H : deleteMatchingRestores ?a ?b ?s1 = _ |- _ =>
               pose proof (deleteMatchingRestores_frame a b s1) as Hf;
               rewrite H in Hf; cbn in Hf;
               destruct Hf as (Hn & Hst & _ & (l & Hc & Hl) & Hp)
           end.
      all: unfold finalizerUntouched, storedHolds; rewrite Hst, Hc; cbn; split; [done|].
      all: exists (new ++ l); rewrite app_assoc; split; [done|].
      all: rewrite forallb_app, Hquiet; by apply quiet_restores.
Qed.

Ltac solve_removed :=
      lazymatch goal with
      | |- _ ∨ ∃ q m u, _ ++ [Update _] = _ ∧ _ =>
          right; rewrite <- ?app_assoc; do 3 eexists; split; [reflexivity|];
          split; [assumption|];
          unfold statusNACUUID, backupsByUUID in *;
          cbn [cluster nab Cluster.backups NonAdminBackup.Status
               NonAdminBackupStatus.VeleroBackup] in *;
          split; [eassumption|];
          match goal with H : filter _ _ = [] |- _ => exact H end
      | |- _ => solve_untouched
      end.

Lemma deleteVeleroBackupObjects_removes :
      triple (finalizerUntouched n0 calls0) deleteVeleroBackupObjects
        (removedWhenAbsent n0 calls0) (removedWhenAbsent n0 calls0).
Proof.
      start_inv finalizerUntouched. unfold triple. intro_untouched.
      unfold deleteVeleroBackupObjects, removeNabFinalizerUponVeleroBackupDeletion.
      exec; finish_inv; solve_removed.
Qed.

Lemma createVeleroDeleteBackupRequest_removes :
      triple (finalizerUntouched n0 calls0) createVeleroDeleteBackupRequest
        (removedWhenAbsent n0 calls0) (removedWhenAbsent n0 calls0).
Proof.
      start_inv finalizerUntouched. unfold triple. intro_untouched.
      unfold createVeleroDeleteBackupRequest, removeNabFinalizerUponVeleroBackupDeletion.
      exec; finish_inv; solve_removed.
Qed.

    (** The sync-import and the create/update path. *)
Lemma create_paths_hold_the_finalizer p s :
      p = SyncImport ∨ p = CreateUpdate →
      finalizersKept n0 calls0 s →
      createdUnderFinalizer n0 calls0 (runSteps (pathSteps p) s).2.
Proof.
      pose proof (triple_keeps _ _ _ finalizersKept_final initNabCreate_finalizersKept).
      pose proof (triple_keeps _ _ _ finalizersKept_final validateSpec_finalizersKept).
      pose proof (triple_keeps _ _ _ finalizersKept_final
                    setBackupUUIDInStatus_finalizersKept).
      pose proof setFinalizerOnNonAdminBackup_holds.
      pose proof createVeleroBackupAndSyncWithNonAdminBackup_guarded.
      intros [-> | ->]; revert s; unfold pathSteps;
        repeat (eapply runSteps_triple_cons; [eassumption|]); by intros s.
Qed.

    (** The two delete paths. *)
Lemma delete_paths_remove_when_absent p s :
      p = GracefulDelete ∨ p = DirectDelete →
      finalizerUntouched n0 calls0 s →
      removedWhenAbsent n0 calls0 (runSteps (pathSteps p) s).2.
Proof.
      pose proof (triple_keeps _ _ _ finalizerUntouched_final
                    setStatusAndConditionForDeletionAndCallDelete_untouched).
      pose proof (triple_keeps _ _ _ finalizerUntouched_final
                    deleteNonAdminRestores_untouched).
      pose proof (triple_keeps _ _ _ finalizerUntouched_final
                    setStatusForDirectKubernetesAPIDeletion_untouched).
      pose proof (triple_keeps _ _ _ finalizerUntouched_final
                    deleteDeleteBackupRequestObjects_untouched).
      pose proof createVeleroDeleteBackupRequest_removes.
      pose proof deleteVeleroBackupObjects_removes.
      intros [-> | ->]; revert s; unfold pathSteps;
        repeat (eapply runSteps_triple_cons; [eassumption|]); by intros s.
Qed.
End Finalizer.

Lemma reconcileSteps_pathSteps n : reconcileSteps n = pathSteps (selectPath n).
Proof. unfold reconcileSteps, selectPath. by repeat case_match. Qed.

Lemma quiet_not_update l m : forallb quiet l = true → Update m ∉ l.
Proof.
    intros Hq Hin. rewrite forallb_forall in Hq.
    apply list_elem_of_In in Hin. by specialize (Hq _ Hin).
Qed.

Lemma updatesHold_elem l m : updatesHold l = true → Update m ∈ l → held m = true.
Proof.
    unfold updatesHold. intros Hu Hin. rewrite forallb_forall in Hu.
    apply list_elem_of_In in Hin. by specialize (Hu _ Hin).
Qed.

Lemma create_pass_end n0 c s (creating : Prop) :
    creating →
    createdUnderFinalizer n0 (Cluster.calls c) s → disciplined n0 creating c s.
Proof.
    intros Hcreating (new & Hcalls & Hguarded & Hstored & Hupdates).
    unfold disciplined, newCalls. rewrite Hcalls, drop_app_length.
    split; [done|]. split; [|split].
    - intros Hc. split; [done|]. apply Hstored. by right.
    - intros m Hin Hm. rewrite (updatesHold_elem _ _ Hupdates Hin) in Hm. done.
    - intros Hheld Hgone. destruct (Hstored (or_introl Hheld)) as (n & Hn & Hh).
      rewrite (Hgone _ Hn) in Hh. done.
Qed.

Lemma delete_pass_end n0 c s (creating : Prop) :
    removedWhenAbsent n0 (Cluster.calls c) s → disciplined n0 creating c s.
Proof.
    unfold disciplined, newCalls.
    intros [(Hstored & new & Hcalls & Hquiet)|(quietCalls & m & uuid & Hcalls & Hquiet & Hu & Hb)];
      rewrite Hcalls, drop_app_length.
    - split; [by apply createsGuarded_no_create, quiet_no_create|].
      rewrite (no_create_existsb _ (quiet_no_create _ Hquiet)).
      split; [done|]. split.
      + intros m Hin. by apply quiet_not_update in Hin.
      + intros Hheld Hgone. destruct (Hstored Hheld) as (n & Hn & Hh).
        rewrite (Hgone _ Hn) in Hh. done.
    - rewrite createsGuarded_app, existsb_app.
      rewrite (createsGuarded_no_create _ _ (quiet_no_create _ Hquiet)).
      rewrite (no_create_existsb _ (quiet_no_create _ Hquiet)). cbn.
      split; [done|]. split; [done|]. split.
      + intros m' [Hin|Hin]%elem_of_app _; [by apply quiet_not_update in Hin|].
        apply list_elem_of_singleton in Hin. simplify_eq. by exists uuid.
      + intros _ _. exists m, uuid. split; [|done]. apply elem_of_app. right.
        by apply list_elem_of_singleton.
Qed.

  (** *** The finalizer is removed only when the lookup has found none *)

Ltac start_removal :=
    intros s; destruct_state s; unfold removalOf, backupsByUUID, held.

Ltac log_of_step :=
    cbn [cluster nab Cluster.calls Cluster.backups];
    rewrite <- ?app_assoc;
    first [ exists []; split; [by rewrite app_nil_r|]
          | eexists; split; [reflexivity|] ];
    intros m Hin Hheld;
    repeat (apply elem_of_cons in Hin as [Hin|Hin]; [try discriminate|]);
    try (by apply elem_of_nil in Hin).

  (** The writes of a step that never writes metadata without the
      finalizer. *)
Ltac no_removal_by def :=
    start_removal; unfold_head def; exec; log_of_step.

Lemma initNabCreate_removal s :
    match initNabCreate s with
    | (_, s') => ∃ new, Cluster.calls (cluster s') = Cluster.calls (cluster s) ++ new
                        ∧ removalOf s new s'
    end.
Proof. revert s. no_removal_by initNabCreate. Qed.

Lemma validateSpec_removal s :
    match validateSpec s with
    | (_, s') => ∃ new, Cluster.calls (cluster s') = Cluster.calls (cluster s) ++ new
                        ∧ removalOf s new s'
    end.
Proof. revert s. no_removal_by validateSpec. Qed.

Lemma setBackupUUIDInStatus_removal s :
    match setBackupUUIDInStatus s with
    | (_, s') => ∃ new, Cluster.calls (cluster s') = Cluster.calls (cluster s) ++ new
                        ∧ removalOf s new s'
    end.
Proof. revert s. no_removal_by setBackupUUIDInStatus. Qed.

Lemma setFinalizerOnNonAdminBackup_removal s :
    match setFinalizerOnNonAdminBackup s with
    | (_, s') => ∃ new, Cluster.calls (cluster s') = Cluster.calls (cluster s) ++ new
                        ∧ removalOf s new s'
    end.
Proof.
    revert s. no_removal_by setFinalizerOnNonAdminBackup.
    all: injection Hin as ->.
    all: unfold ContainsFinalizer, NonAdminBackup.Finalizers in Hheld;
      cbn [NonAdminBackup.ObjectMeta ObjectMeta.Finalizers] in Hheld.
    all: by rewrite held_AddFinalizer in Hheld.
Qed.

  (** The first two steps of the delete paths leave the metadata of the
      object and the engine Backups alone. *)
Ltac still_by def :=
    intros s; destruct_state s; unfold_head def; exec;
    cbn [cluster nab Cluster.calls Cluster.backups];
    (split; [reflexivity|]); rewrite <- ?app_assoc;
    first [ exists []; split; [by rewrite app_nil_r|reflexivity]
          | eexists; split; reflexivity ].

Lemma setStatusAndConditionForDeletionAndCallDelete_still s :
    match setStatusAndConditionForDeletionAndCallDelete s with
    | (_, s') =>
        Cluster.backups (cluster s') = Cluster.backups (cluster s)
        ∧ ∃ new, Cluster.calls (cluster s') = Cluster.calls (cluster s) ++ new
                 ∧ forallb still new = true
    end.
Proof. revert s. still_by setStatusAndConditionForDeletionAndCallDelete. Qed.

Lemma setStatusForDirectKubernetesAPIDeletion_still s :
    match setStatusForDirectKubernetesAPIDeletion s with
    | (_, s') =>
        Cluster.backups (cluster s') = Cluster.backups (cluster s)
        ∧ ∃ new, Cluster.calls (cluster s') = Cluster.calls (cluster s) ++ new
                 ∧ forallb still new = true
    end.
Proof. revert s. still_by setStatusForDirectKubernetesAPIDeletion. Qed.

Lemma deleteDeleteBackupRequestObjects_still s :
    match deleteDeleteBackupRequestObjects s with
    | (_, s') =>
        Cluster.backups (cluster s') = Cluster.backups (cluster s)
        ∧ ∃ new, Cluster.calls (cluster s') = Cluster.calls (cluster s) ++ new
                 ∧ forallb still new = true
    end.
Proof. revert s. still_by deleteDeleteBackupRequestObjects. Qed.

Lemma deleteNonAdminRestores_still s :
    match deleteNonAdminRestores s with
    | (_, s') =>
        Cluster.backups (cluster s') = Cluster.backups (cluster s)
        ∧ ∃ new, Cluster.calls (cluster s') = Cluster.calls (cluster s) ++ new
                 ∧ forallb still new = true
    end.
Proof.
    destruct_state s. unfold deleteNonAdminRestores. exec.
    all: cbn [cluster nab Cluster.calls Cluster.backups].
    all: try (split; [reflexivity|]; exists []; split; [by rewrite app_nil_r|reflexivity]).
    all: lazymatch goal with
         | H : deleteMatchingRestores ?a ?b ?s1 = _ |- _ =>
             pose proof (deleteMatchingRestores_frame a b s1) as Hf;
             rewrite H in Hf; cbn in Hf;
             destruct Hf as (_ & _ & Hbackups & (l & Hcalls & Hl) & _)
         end.
    all: split; [done|]; exists l; split; [done|].
    all: apply forallb_forall; intros call Hcall%list_elem_of_In.
    all: rewrite Forall_forall in Hl; by destruct (Hl _ Hcall) as [? ->].
Qed.

Lemma still_removal s new s' : forallb still new = true → removalOf s new s'.
Proof.
    intros Hstill m Hin. rewrite forallb_forall in Hstill.
    apply list_elem_of_In in Hin. by specialize (Hstill _ Hin).
Qed.

Lemma createVeleroBackupAndSyncWithNonAdminBackup_removal s :
    match createVeleroBackupAndSyncWithNonAdminBackup s with
    | (_, s') => ∃ new, Cluster.calls (cluster s') = Cluster.calls (cluster s) ++ new
                        ∧ removalOf s new s'
    end.
Proof.
    revert s. start_removal.
    unfold createVeleroBackupAndSyncWithNonAdminBackup, createMissingVeleroBackup.
    exec; log_of_step.
Qed.

Lemma deleteVeleroBackupObjects_removal s :
    match deleteVeleroBackupObjects s with
    | (_, s') => ∃ new, Cluster.calls (cluster s') = Cluster.calls (cluster s) ++ new
                        ∧ removalOf s new s'
    end.
Proof.
    revert s. start_removal.
    unfold deleteVeleroBackupObjects, removeNabFinalizerUponVeleroBackupDeletion.
    exec; log_of_step.
    all: injection Hin as ->.
    all: eexists; split; [reflexivity|]; split; [eassumption|]; by repeat split.
Qed.

Lemma createVeleroDeleteBackupRequest_removal s :
    match createVeleroDeleteBackupRequest s with
    | (_, s') => ∃ new, Cluster.calls (cluster s') = Cluster.calls (cluster s) ++ new
                        ∧ removalOf s new s'
    end.
Proof.
    revert s. start_removal.
    unfold createVeleroDeleteBackupRequest, removeNabFinalizerUponVeleroBackupDeletion.
    exec; log_of_step.
    all: injection Hin as ->.
    all: eexists; split; [reflexivity|]; split; [eassumption|]; by repeat split.
Qed.

Lemma removal_of_step (step : Step) :
    (∀ s, match step s with
          | (_, s') => ∃ new, Cluster.calls (cluster s') = Cluster.calls (cluster s) ++ new
                              ∧ removalOf s new s'
          end) →
    removesOnlyWhenAbsent step.
Proof.
    intros Hstep s. specialize (Hstep s). destruct (step s) as [flow s'].
    destruct Hstep as (new & Hcalls & Hnew). unfold newCalls. cbn [snd].
    by rewrite Hcalls, drop_app_length.
Qed.

Lemma removal_of_still_step (step : Step) :
    (∀ s, match step s with
          | (_, s') =>
              Cluster.backups (cluster s') = Cluster.backups (cluster s)
              ∧ ∃ new, Cluster.calls (cluster s') = Cluster.calls (cluster s) ++ new
                       ∧ forallb still new = true
          end) →
    removesOnlyWhenAbsent step.
Proof.
    intros Hstep. apply removal_of_step. intros s. specialize (Hstep s).
    destruct (step s) as [flow s']. destruct Hstep as (_ & new & Hcalls & Hstill).
    exists new. split; [done|]. by apply still_removal.
Qed.

  (** Every step of every path removes the finalizer only when it has just
      observed that the lookup by UUID finds no engine Backup. *)
Lemma steps_remove_only_when_absent p step :
    step ∈ pathSteps p → removesOnlyWhenAbsent step.
Proof.
    destruct p; cbn [pathSteps]; intros Hin;
      repeat (apply elem_of_cons in Hin as [->|Hin]);
      try (by apply elem_of_nil in Hin).
    - apply removal_of_still_step, setStatusAndConditionForDeletionAndCallDelete_still.
    - apply removal_of_still_step, deleteNonAdminRestores_still.
    - apply removal_of_step, createVeleroDeleteBackupRequest_removal.
    - apply removal_of_still_step, setStatusForDirectKubernetesAPIDeletion_still.
    - apply removal_of_still_step, deleteDeleteBackupRequestObjects_still.
    - apply removal_of_step, deleteVeleroBackupObjects_removal.
    - apply removal_of_step, setBackupUUIDInStatus_removal.
    - apply removal_of_step, setFinalizerOnNonAdminBackup_removal.
    - apply removal_of_step, createVeleroBackupAndSyncWithNonAdminBackup_removal.
    - apply removal_of_step, initNabCreate_removal.
    - apply removal_of_step, validateSpec_removal.
    - apply removal_of_step, setBackupUUIDInStatus_removal.
    - apply removal_of_step, setFinalizerOnNonAdminBackup_removal.
    - apply removal_of_step, createVeleroBackupAndSyncWithNonAdminBackup_removal.
Qed.

Lemma backupsUntouched_end c s :
    backupsUntouched c s → removedOnlyWhenAbsent c (cluster s).
Proof.
    intros (_ & new & Hcalls & Hstill) m Hin. unfold newCalls in Hin.
    rewrite Hcalls, drop_app_length in Hin. rewrite forallb_forall in Hstill.
    apply list_elem_of_In in Hin. by specialize (Hstill _ Hin).
Qed.

Lemma backupsUntouched_step c (step : Step) :
    (∀ s, match step s with
          | (_, s') =>
              Cluster.backups (cluster s') = Cluster.backups (cluster s)
              ∧ ∃ new, Cluster.calls (cluster s') = Cluster.calls (cluster s) ++ new
                       ∧ forallb still new = true
          end) →
    ∀ s, backupsUntouched c s → match step s with (_, s') => backupsUntouched c s' end.
Proof.
    intros Hstep s (Hbackups & new & Hcalls & Hstill). specialize (Hstep s).
    destruct (step s) as [flow s']. destruct Hstep as (Hb & new' & Hc & Hs).
    split; [congruence|]. exists (new ++ new'). rewrite Hc, Hcalls, app_assoc.
    split; [done|]. by rewrite forallb_app, Hstill, Hs.
Qed.

Lemma removal_step_end c (step : Step) s :
    (∀ s, match step s with
          | (_, s') => ∃ new, Cluster.calls (cluster s') = Cluster.calls (cluster s) ++ new
                              ∧ removalOf s new s'
          end) →
    backupsUntouched c s → removedOnlyWhenAbsent c (cluster (step s).2).
Proof.
    intros Hstep (Hbackups & new & Hcalls & Hstill). specialize (Hstep s).
    destruct (step s) as [flow s']. destruct Hstep as (new' & Hc & Hremoval).
    cbn [snd]. intros m Hin Hheld. unfold newCalls in *.
    rewrite Hc, Hcalls, <- app_assoc, drop_app_length in *.
    rewrite forallb_forall in Hstill.
    apply elem_of_app in Hin as [Hin|Hin].
    { apply list_elem_of_In in Hin. by specialize (Hstill _ Hin). }
    destruct (Hremoval m Hin Hheld) as (uuid & Hu & Hnone & -> & -> & Hb).
    exists uuid. split; [done|]. unfold backupsByUUID in *. rewrite <- Hbackups.
    split; [done|]. split; [congruence|].
    intros b [Hb'|Hb']%elem_of_app.
    - apply list_elem_of_In in Hb'. by specialize (Hstill _ Hb').
    - by apply list_elem_of_singleton in Hb'.
Qed.

  (** The delete paths: two steps that leave the engine Backups alone, then
      the step that may remove the finalizer. *)
Lemma delete_pass_removal c (first second last : Step) s :
    (∀ s, match first s with
          | (_, s') =>
              Cluster.backups (cluster s') = Cluster.backups (cluster s)
              ∧ ∃ new, Cluster.calls (cluster s') = Cluster.calls (cluster s) ++ new
                       ∧ forallb still new = true
          end) →
    (∀ s, match second s with
          | (_, s') =>
              Cluster.backups (cluster s') = Cluster.backups (cluster s)
              ∧ ∃ new, Cluster.calls (cluster s') = Cluster.calls (cluster s) ++ new
                       ∧ forallb still new = true
          end) →
    (∀ s, match last s with
          | (_, s') => ∃ new, Cluster.calls (cluster s') = Cluster.calls (cluster s) ++ new
                              ∧ removalOf s new s'
          end) →
    backupsUntouched c s →
    removedOnlyWhenAbsent c (cluster (runSteps [first; second; last] s).2).
Proof.
    intros Hfirst Hsecond Hlast Hs. cbn [runSteps].
    pose proof (backupsUntouched_step c first Hfirst s Hs) as H1.
    destruct (first s) as [flow1 s1].
    destruct flow1 as [[]|[] [e|]|]; cbn [snd]; try (by apply backupsUntouched_end).
    pose proof (backupsUntouched_step c second Hsecond s1 H1) as H2.
    destruct (second s1) as [flow2 s2].
    destruct flow2 as [[]|[] [e|]|]; cbn [snd]; try (by apply backupsUntouched_end).
    pose proof (removal_step_end c last s2 Hlast H2) as H3.
    destruct (last s2) as [flow3 s3].
    by destruct flow3 as [[]|[] [e|]|].
Qed.

Lemma create_pass_removal n0 c s :
    createdUnderFinalizer n0 (Cluster.calls c) s → removedOnlyWhenAbsent c (cluster s).
Proof.
    intros (new & Hcalls & _ & _ & Hupdates) m Hin Hm. unfold newCalls in Hin.
    rewrite Hcalls, drop_app_length in Hin.
    by rewrite (updatesHold_elem _ _ Hupdates Hin) in Hm.
Qed.

  (** C4. In the two paths that can create an engine Backup the finalizer
      step comes right before the engine-object step; every creation of a
      pass is issued while the metadata last written holds the finalizer,
      and the stored object holds it at the end of such a pass.  A pass
      writes metadata without the finalizer only as its last call, for an
      object whose lookup by UUID finds no engine Backup in the cluster the
      pass leaves; so an object that held the finalizer loses it only when
      no engine Backup carries its UUID.  Every step of every path removes
      the finalizer only when it has just observed the lookup by UUID find
      no engine Backup: the removal is then the only write of the step, and
      no engine Backup carries the UUID in the cluster the step started in.
      A pass that removes the finalizer has found no engine Backup of the
      UUID in the cluster it started in either, has not changed the engine
      Backups and has called delete on none. *)
Theorem finalizer_precedes_creation_and_outlives_the_engine_backup req c n0 :
    stored req c = Some n0 →
    (∀ p, p = SyncImport ∨ p = CreateUpdate →
          ∃ before, pathSteps p
                    = before ++ [ setFinalizerOnNonAdminBackup;
                                  createVeleroBackupAndSyncWithNonAdminBackup ])
    ∧ createsGuarded (held n0) (newCalls c (Reconcile req c).2) = true
    ∧ (existsb isCreateBackup (newCalls c (Reconcile req c).2) = true →
       (selectPath n0 = SyncImport ∨ selectPath n0 = CreateUpdate)
       ∧ ∃ n, Cluster.nonAdminBackup (Reconcile req c).2 = Some n ∧ held n = true)
    ∧ (∀ m, Update m ∈ newCalls c (Reconcile req c).2 → held m = false →
            ∃ uuid, statusNACUUID m = Some uuid
                    ∧ backupsByUUID uuid (Reconcile req c).2 = [])
    ∧ (held n0 = true →
       (∀ n, Cluster.nonAdminBackup (Reconcile req c).2 = Some n → held n = false) →
       ∃ m uuid, Update m ∈ newCalls c (Reconcile req c).2
                 ∧ statusNACUUID m = Some uuid
                 ∧ backupsByUUID uuid (Reconcile req c).2 = [])
    ∧ (∀ p step, step ∈ pathSteps p → removesOnlyWhenAbsent step)
    ∧ removedOnlyWhenAbsent c (Reconcile req c).2.
Proof.
    intros Hst. split.
    { intros p [-> | ->]; [by exists [setBackupUUIDInStatus]|].
      by exists [initNabCreate; validateSpec; setBackupUUIDInStatus]. }
    assert (Hn0 : Cluster.nonAdminBackup c = Some n0).
    { unfold stored in Hst. destruct (Cluster.nonAdminBackup c); [|done].
      by destruct (hasKey _ _); simplify_eq. }
    assert (Hsteps : ∀ p step, step ∈ pathSteps p → removesOnlyWhenAbsent step)
      by exact steps_remove_only_when_absent.
    cut (createsGuarded (held n0) (newCalls c (Reconcile req c).2) = true
         ∧ (existsb isCreateBackup (newCalls c (Reconcile req c).2) = true →
            (selectPath n0 = SyncImport ∨ selectPath n0 = CreateUpdate)
            ∧ ∃ n, Cluster.nonAdminBackup (Reconcile req c).2 = Some n ∧ held n = true)
         ∧ (∀ m, Update m ∈ newCalls c (Reconcile req c).2 → held m = false →
                 ∃ uuid, statusNACUUID m = Some uuid
                         ∧ backupsByUUID uuid (Reconcile req c).2 = [])
         ∧ (held n0 = true →
            (∀ n, Cluster.nonAdminBackup (Reconcile req c).2 = Some n → held n = false) →
            ∃ m uuid, Update m ∈ newCalls c (Reconcile req c).2
                      ∧ statusNACUUID m = Some uuid
                      ∧ backupsByUUID uuid (Reconcile req c).2 = [])
         ∧ removedOnlyWhenAbsent c (Reconcile req c).2).
    { intros (H1 & H2 & H3 & H4 & H5).
      exact (conj H1 (conj H2 (conj H3 (conj H4 (conj Hsteps H5))))). }
    clear Hsteps. unfold Reconcile, Get, drawFault.
    destruct (hd false (Cluster.faults c)) eqn:Hf.
    { unfold removedOnlyWhenAbsent, newCalls. cbn. rewrite drop_all. cbn.
      repeat split; try done.
      - intros ? Hin. by apply elem_of_nil in Hin.
      - intros Hheld Hgone. specialize (Hgone _ Hn0). congruence.
      - intros ? Hin. by apply elem_of_nil in Hin. }
    unfold stored in *. cbn [Cluster.nonAdminBackup Cluster.with_faults] in *.
    rewrite Hst, reconcileSteps_pathSteps.
    set (s0 := {| cluster := _; nab := n0 |}).
    assert (Hkept : finalizersKept n0 (Cluster.calls c) s0).
    { split; [by exists n0|]. split; [done|]. exists []. by rewrite app_nil_r. }
    assert (Huntouched : finalizerUntouched n0 (Cluster.calls c) s0).
    { split; [by exists n0|]. exists []. by rewrite app_nil_r. }
    assert (Hbackups : backupsUntouched c s0).
    { split; [done|]. exists []. by rewrite app_nil_r. }
    destruct (selectPath n0) eqn:Hpath.
    - pose proof (delete_paths_remove_when_absent n0 (Cluster.calls c) GracefulDelete s0
                    (or_introl eq_refl) Huntouched) as Hend.
      pose proof (delete_pass_removal c _ _ _ s0
                    setStatusAndConditionForDeletionAndCallDelete_still
                    deleteNonAdminRestores_still
                    createVeleroDeleteBackupRequest_removal Hbackups) as Hremoval.
      change (runSteps [_; _; _] s0) with (runSteps (pathSteps GracefulDelete) s0)
        in Hremoval.
      destruct (runSteps _ s0) as [outcome s'].
      pose proof (delete_pass_end n0 c s' (GracefulDelete = SyncImport ∨ GracefulDelete = CreateUpdate)
                    Hend) as (H1 & H2 & H3 & H4).
      exact (conj H1 (conj H2 (conj H3 (conj H4 Hremoval)))).
    - pose proof (delete_paths_remove_when_absent n0 (Cluster.calls c) DirectDelete s0
                    (or_intror eq_refl) Huntouched) as Hend.
      pose proof (delete_pass_removal c _ _ _ s0
                    setStatusForDirectKubernetesAPIDeletion_still
                    deleteDeleteBackupRequestObjects_still
                    deleteVeleroBackupObjects_removal Hbackups) as Hremoval.
      change (runSteps [_; _; _] s0) with (runSteps (pathSteps DirectDelete) s0)
        in Hremoval.
      destruct (runSteps _ s0) as [outcome s'].
      pose proof (delete_pass_end n0 c s' (DirectDelete = SyncImport ∨ DirectDelete = CreateUpdate)
                    Hend) as (H1 & H2 & H3 & H4).
      exact (conj H1 (conj H2 (conj H3 (conj H4 Hremoval)))).
    - pose proof (create_paths_hold_the_finalizer n0 (Cluster.calls c) SyncImport s0
                    (or_introl eq_refl) Hkept) as Hend.
      destruct (runSteps _ s0) as [outcome s'].
      pose proof (create_pass_removal _ _ _ Hend) as Hremoval.
      pose proof (create_pass_end n0 c s' (SyncImport = SyncImport ∨ SyncImport = CreateUpdate)
                    (or_introl eq_refl) Hend) as (H1 & H2 & H3 & H4).
      exact (conj H1 (conj H2 (conj H3 (conj H4 Hremoval)))).
    - pose proof (create_paths_hold_the_finalizer n0 (Cluster.calls c) CreateUpdate s0
                    (or_intror eq_refl) Hkept) as Hend.
      destruct (runSteps _ s0) as [outcome s'].
      pose proof (create_pass_removal _ _ _ Hend) as Hremoval.
      pose proof (create_pass_end n0 c s'
                    (CreateUpdate = SyncImport ∨ CreateUpdate = CreateUpdate)
                    (or_intror eq_refl) Hend) as (H1 & H2 & H3 & H4).
      exact (conj H1 (conj H2 (conj H3 (conj H4 Hremoval)))).
Qed.

  (** ** Phases (C5) *)

Lemma updateNonAdminBackupVeleroBackupSpecStatus_Phase status veleroBackup status' updated :
    updateNonAdminBackupVeleroBackupSpecStatus status veleroBackup = (status', updated) →
    NonAdminBackupStatus.Phase status' = NonAdminBackupStatus.Phase status.
Proof.
    unfold updateNonAdminBackupVeleroBackupSpecStatus.
    repeat case_match; intros; by simplify_eq.
Qed.

Lemma updateNonAdminBackupDeleteBackupRequestStatus_Phase status request status' updated :
    updateNonAdminBackupDeleteBackupRequestStatus status request = (status', updated) →
    NonAdminBackupStatus.Phase status' = NonAdminBackupStatus.Phase status.
Proof.
    unfold updateNonAdminBackupDeleteBackupRequestStatus.
    repeat case_match; intros; by simplify_eq.
Qed.

Lemma updateNonAdminBackupPodVolumeBackupStatus_Phase status items status' updated :
    updateNonAdminBackupPodVolumeBackupStatus status items = (status', updated) →
    NonAdminBackupStatus.Phase status' = NonAdminBackupStatus.Phase status.
Proof.
    unfold updateNonAdminBackupPodVolumeBackupStatus.
    repeat case_match; intros; by simplify_eq.
Qed.

Lemma updateNonAdminBackupDataUploadStatus_Phase status items status' updated :
    updateNonAdminBackupDataUploadStatus status items = (status', updated) →
    NonAdminBackupStatus.Phase status' = NonAdminBackupStatus.Phase status.
Proof.
    unfold updateNonAdminBackupDataUploadStatus.
    repeat case_match; intros; by simplify_eq.
Qed.

Section Phases.
Context (allowed : NonAdminPhase → Prop) (calls0 : list Call).

Ltac start_phases :=
      intros s; destruct_state s; unfold phasesWithin, phaseOf;
      cbn [cluster nab Cluster.nonAdminBackup Cluster.calls NonAdminBackup.Status
           NonAdminBackupStatus.Phase];
      intros (Hlocal & Hstored & new & -> & Hnew).

Ltac phase_facts :=
      repeat match goal with
        | H : updateNonAdminPhase _ _ = (?n, _) |- _ =>
            apply updateNonAdminPhase_result in H; subst n
        | H : updateNonAdminBackupVeleroBackupSpecStatus _ _ = _ |- _ =>
            apply updateNonAdminBackupVeleroBackupSpecStatus_Phase in H
        | H : updateNonAdminBackupDeleteBackupRequestStatus _ _ = _ |- _ =>
            apply updateNonAdminBackupDeleteBackupRequestStatus_Phase in H
        | H : updateNonAdminBackupPodVolumeBackupStatus _ _ = _ |- _ =>
            apply updateNonAdminBackupPodVolumeBackupStatus_Phase in H
        | H : updateNonAdminBackupDataUploadStatus _ _ = _ |- _ =>
            apply updateNonAdminBackupDataUploadStatus_Phase in H
        end;
      cbn [NonAdminBackupStatus.Phase] in *.

Ltac solve_phases :=
      unfold phasesWithin, phaseOf;
      cbn [snd cluster nab Cluster.nonAdminBackup Cluster.calls NonAdminBackup.Status
           NonAdminBackupStatus.Phase];
      phase_facts;
      repeat match goal with
        | |- _ ∧ _ => split
        | |- ∃ new, _ = calls0 ++ new ∧ _ =>
            rewrite <- ?app_assoc; eexists; split; [reflexivity|];
            repeat (apply Forall_app; split); [assumption|..];
            repeat constructor
        | |- ∀ n, _ = Some n → _ => intros ? ?; repeat case_match; simplify_eq
        end;
      cbn [NonAdminBackup.Status NonAdminBackupStatus.Phase];
      repeat match goal with
        | H : NonAdminBackupStatus.Phase _ = _ |- _ => rewrite H
        end;
      try done; try (by eauto).

Ltac phases_by def := start_phases; unfold_head def; exec; solve_phases.

Lemma setBackupUUIDInStatus_phases : keepsPhases allowed calls0 setBackupUUIDInStatus.
Proof. unfold keepsPhases. phases_by setBackupUUIDInStatus. Qed.

Lemma setFinalizerOnNonAdminBackup_phases :
      keepsPhases allowed calls0 setFinalizerOnNonAdminBackup.
Proof. unfold keepsPhases. phases_by setFinalizerOnNonAdminBackup. Qed.

Lemma deleteDeleteBackupRequestObjects_phases :
      keepsPhases allowed calls0 deleteDeleteBackupRequestObjects.
Proof. unfold keepsPhases. phases_by deleteDeleteBackupRequestObjects. Qed.

Lemma deleteVeleroBackupObjects_phases :
      keepsPhases allowed calls0 deleteVeleroBackupObjects.
Proof.
      unfold keepsPhases. start_phases.
      unfold deleteVeleroBackupObjects, removeNabFinalizerUponVeleroBackupDeletion.
      exec; solve_phases.
Qed.

Lemma createVeleroDeleteBackupRequest_phases :
      keepsPhases allowed calls0 createVeleroDeleteBackupRequest.
Proof.
      unfold keepsPhases. start_phases.
      unfold createVeleroDeleteBackupRequest, removeNabFinalizerUponVeleroBackupDeletion.
      exec; solve_phases.
Qed.

Lemma deleteNonAdminRestores_phases : keepsPhases allowed calls0 deleteNonAdminRestores.
Proof.
      unfold keepsPhases. start_phases. unfold deleteNonAdminRestores. exec.
      all: try (by solve_phases).
      all: lazymatch goal with
           | H : deleteMatchingRestores ?a ?b ?s1 = _ |- _ =>
               pose proof (deleteMatchingRestores_frame a b s1) as Hf;
               rewrite H in Hf; cbn in Hf;
               destruct Hf as (Hn & Hst & _ & (l & Hc & Hl) & Hp)
           end.
      all: unfold phasesWithin, phaseOf; rewrite Hn, Hst, Hc; cbn; split; [done|].
      all: split; [done|]; exists (new ++ l); rewrite app_assoc; split; [done|].
      all: apply Forall_app; split; [done|].
      all: eapply Forall_impl; [exact Hl|]; by intros ? [? ->].
Qed.

Lemma setStatusAndConditionForDeletionAndCallDelete_phases :
      allowed NonAdminPhaseDeleting →
      keepsPhases allowed calls0 setStatusAndConditionForDeletionAndCallDelete.
Proof.
      intros Hdeleting. unfold keepsPhases.
      phases_by setStatusAndConditionForDeletionAndCallDelete.
Qed.

Lemma setStatusForDirectKubernetesAPIDeletion_phases :
      allowed NonAdminPhaseDeleting →
      keepsPhases allowed calls0 setStatusForDirectKubernetesAPIDeletion.
Proof.
      intros Hdeleting. unfold keepsPhases.
      phases_by setStatusForDirectKubernetesAPIDeletion.
Qed.

Lemma initNabCreate_phases :
      (allowed constant_EmptyString → allowed NonAdminPhaseNew) →
      keepsPhases allowed calls0 initNabCreate.
Proof.
      intros Hnew'. unfold keepsPhases. start_phases. unfold initNabCreate. exec.
      all: repeat match goal with
             | H : bool_decide (_ = _) = true |- _ => apply bool_decide_eq_true in H; subst
             end.
      all: try specialize (Hnew' Hlocal); solve_phases.
Qed.

Lemma validateSpec_phases :
      allowed NonAdminPhaseBackingOff → keepsPhases allowed calls0 validateSpec.
Proof. intros Hbackoff. unfold keepsPhases. phases_by validateSpec. Qed.

Lemma createVeleroBackupAndSyncWithNonAdminBackup_phases :
      allowed NonAdminPhaseBackingOff → allowed NonAdminPhaseCreated →
      keepsPhases allowed calls0 createVeleroBackupAndSyncWithNonAdminBackup.
Proof.
      intros Hbackoff Hcreated. unfold keepsPhases. start_phases.
      unfold createVeleroBackupAndSyncWithNonAdminBackup, createMissingVeleroBackup.
      exec; solve_phases.
Qed.
End Phases.

Lemma pathSteps_phases path before calls0 :
    Forall (keepsPhases (writablePhase path before) calls0) (pathSteps path).
Proof.
    assert (Hnew : writablePhase CreateUpdate before constant_EmptyString →
                   writablePhase CreateUpdate before NonAdminPhaseNew).
    { intros [<-|[?|[?|[_ ?]]]]; try done. right. by right; right. }
    destruct path; cbn [pathSteps]; repeat constructor;
      first
        [ apply setStatusAndConditionForDeletionAndCallDelete_phases; by right
        | apply setStatusForDirectKubernetesAPIDeletion_phases; by right
        | apply deleteNonAdminRestores_phases
        | apply createVeleroDeleteBackupRequest_phases
        | apply deleteDeleteBackupRequestObjects_phases
        | apply deleteVeleroBackupObjects_phases
        | apply setBackupUUIDInStatus_phases
        | apply setFinalizerOnNonAdminBackup_phases
        | apply initNabCreate_phases; exact Hnew
        | apply validateSpec_phases; right; by left
        | apply createVeleroBackupAndSyncWithNonAdminBackup_phases;
          right; [by left | right; by left]
        | apply createVeleroBackupAndSyncWithNonAdminBackup_phases;
          right; [by left | by right] ].
Qed.

  (** C5 (amended). A pass that finds the object in phase [p] writes, and
      leaves stored, only [p] itself or: Deleting, on the two delete paths;
      BackingOff or Created, on the sync-import and the create/update path,
      from any phase; New, on the create/update path and only when [p] is
      unset. *)
Theorem phases_written_by_a_pass req c n0 :
    stored req c = Some n0 →
    (∀ n, StatusUpdate n ∈ newCalls c (Reconcile req c).2 →
          writablePhase (selectPath n0) (phaseOf n0) (phaseOf n))
    ∧ (∀ n, Cluster.nonAdminBackup (Reconcile req c).2 = Some n →
            writablePhase (selectPath n0) (phaseOf n0) (phaseOf n)).
Proof.
    intros Hst.
    assert (Hn0 : Cluster.nonAdminBackup c = Some n0).
    { unfold stored in Hst. destruct (Cluster.nonAdminBackup c); [|done].
      by destruct (hasKey _ _); simplify_eq. }
    unfold Reconcile, Get, drawFault, newCalls.
    destruct (hd false (Cluster.faults c)) eqn:Hf.
    { split.
      - cbn. rewrite drop_all. intros ? Hin. by apply elem_of_nil in Hin.
      - intros n Hn. left. change (Cluster.nonAdminBackup c = Some n) in Hn. congruence. }
    unfold stored in *. cbn [Cluster.nonAdminBackup Cluster.with_faults] in *.
    rewrite Hst, reconcileSteps_pathSteps.
    pose proof (runSteps_preserves
                  (phasesWithin (writablePhase (selectPath n0) (phaseOf n0)) (Cluster.calls c))
                  _ (pathSteps_phases (selectPath n0) (phaseOf n0) (Cluster.calls c))) as Hrun.
    match goal with
    | |- context [runSteps _ ?s0] => specialize (Hrun s0)
    end.
    destruct (runSteps _ _) as [outcome s']. cbn [snd] in *.
    destruct Hrun as (_ & Hstored & new & -> & Hnew).
    { split; [by left|]. split.
      - intros n Hn. left. change (Cluster.nonAdminBackup c = Some n) in Hn. congruence.
      - exists []. by rewrite app_nil_r. }
    rewrite drop_app_length. split; [|done].
    intros n Hin. rewrite Forall_forall in Hnew. exact (Hnew _ Hin).
Qed.

  (** ** The write footprint of the paths *)

Lemma runSteps_app steps steps' s :
    runSteps (steps ++ steps') s
    = match runSteps steps s with
      | (Result false None, s') => runSteps steps' s'
      | ended => ended
      end.
Proof.
    revert s. induction steps as [|step steps IH]; intros s.
    - done.
    - change ((step :: steps) ++ steps') with (step :: (steps ++ steps')).
      cbn [runSteps]. destruct (step s) as [flow s'].
      destruct flow as [[]|[] []|]; done.
Qed.

Section Footprint.
Context (allowed : Call → Prop) (n0 : NonAdminBackup.t) (calls0 : list Call).

Ltac start_footprint :=
      unfold keepsFootprint; intros s; destruct_state s;
      unfold footprintInv, NonAdminBackup.Labels;
      cbn [cluster nab Cluster.nonAdminBackup Cluster.calls NonAdminBackup.ObjectMeta
           ObjectMeta.Labels];
      intros (Hlabels & Hstored & new & -> & Hnew).

Ltac solve_footprint :=
      unfold footprintInv, NonAdminBackup.Labels;
      cbn [snd cluster nab Cluster.nonAdminBackup Cluster.calls NonAdminBackup.ObjectMeta
           ObjectMeta.Labels];
      repeat match goal with
        | |- _ ∧ _ => split
        | |- ∃ new, _ = calls0 ++ new ∧ _ =>
            rewrite <- ?app_assoc; eexists; split; [reflexivity|];
            repeat (apply Forall_app; split); [assumption|..];
            repeat constructor
        | |- ∀ n, _ = Some n → _ => intros ? ?; repeat case_match; simplify_eq
        end;
      cbn [NonAdminBackup.ObjectMeta ObjectMeta.Labels ObjectMeta.with_DeletionTimestamp
           ObjectMeta.with_Finalizers];
      try done;
      try match goal with
        | H : ∀ n, allowed (?call n) |- allowed (?call _) => apply H
        | H : ∀ n, _ = Some n → _ |- _ => apply H; first [assumption | reflexivity]
        end.

Ltac footprint_by def := start_footprint; unfold_head def; exec; solve_footprint.

Lemma initNabCreate_footprint :
      (∀ n, allowed (StatusUpdate n)) → keepsFootprint allowed n0 calls0 initNabCreate.
Proof. intros ?. footprint_by initNabCreate. Qed.

Lemma validateSpec_footprint :
      (∀ n, allowed (StatusUpdate n)) → keepsFootprint allowed n0 calls0 validateSpec.
Proof. intros ?. footprint_by validateSpec. Qed.

Lemma setBackupUUIDInStatus_footprint :
      (∀ n, allowed (StatusUpdate n)) →
      keepsFootprint allowed n0 calls0 setBackupUUIDInStatus.
Proof. intros ?. footprint_by setBackupUUIDInStatus. Qed.

Lemma setStatusForDirectKubernetesAPIDeletion_footprint :
      (∀ n, allowed (StatusUpdate n)) →
      keepsFootprint allowed n0 calls0 setStatusForDirectKubernetesAPIDeletion.
Proof. intros ?. footprint_by setStatusForDirectKubernetesAPIDeletion. Qed.

Lemma setFinalizerOnNonAdminBackup_footprint :
      (∀ n, allowed (Update n)) →
      keepsFootprint allowed n0 calls0 setFinalizerOnNonAdminBackup.
Proof. intros ?. footprint_by setFinalizerOnNonAdminBackup. Qed.

Lemma setStatusAndConditionForDeletionAndCallDelete_footprint :
      (∀ n, allowed (StatusUpdate n)) → (∀ n, allowed (DeleteNonAdminBackup n)) →
      keepsFootprint allowed n0 calls0 setStatusAndConditionForDeletionAndCallDelete.
Proof. intros ? ?. footprint_by setStatusAndConditionForDeletionAndCallDelete. Qed.

Lemma deleteDeleteBackupRequestObjects_footprint :
      (∀ d, allowed (DeleteDeleteBackupRequest d)) →
      keepsFootprint allowed n0 calls0 deleteDeleteBackupRequestObjects.
Proof. intros ?. footprint_by deleteDeleteBackupRequestObjects. Qed.

Lemma deleteVeleroBackupObjects_footprint :
      (∀ b, allowed (DeleteBackup b)) → (∀ n, allowed (Update n)) →
      keepsFootprint allowed n0 calls0 deleteVeleroBackupObjects.
Proof.
      intros ? ?. start_footprint.
      unfold deleteVeleroBackupObjects, removeNabFinalizerUponVeleroBackupDeletion.
      exec; solve_footprint.
Qed.

Lemma createVeleroDeleteBackupRequest_footprint :
      (∀ n, allowed (StatusUpdate n)) → (∀ n, allowed (Update n)) →
      (∀ d, allowed (CreateDeleteBackupRequest d)) →
      keepsFootprint allowed n0 calls0 createVeleroDeleteBackupRequest.
Proof.
      intros ? ? ?. start_footprint.
      unfold createVeleroDeleteBackupRequest, removeNabFinalizerUponVeleroBackupDeletion.
      exec; solve_footprint.
Qed.

Lemma deleteNonAdminRestores_footprint :
      (∀ nar, allowed (DeleteNonAdminRestore nar)) →
      keepsFootprint allowed n0 calls0 deleteNonAdminRestores.
Proof.
      intros ?. start_footprint. unfold deleteNonAdminRestores. exec.
      all: try (by solve_footprint).
      all: lazymatch goal with
           | H : deleteMatchingRestores ?a ?b ?s1 = _ |- _ =>
               pose proof (deleteMatchingRestores_frame a b s1) as Hf;
               rewrite H in Hf; cbn in Hf;
               destruct Hf as (Hn & Hst & _ & (l & Hc & Hl) & Hp)
           end.
      all: unfold footprintInv; rewrite Hn, Hst, Hc; cbn; split; [done|].
      all: split; [done|]; exists (new ++ l); rewrite app_assoc; split; [done|].
      all: apply Forall_app; split; [done|].
      all: eapply Forall_impl; [exact Hl|]; by intros ? [? ->].
Qed.

Lemma createVeleroBackupAndSyncWithNonAdminBackup_footprint :
      (∀ n, allowed (StatusUpdate n)) →
      (function.(CheckLabelAnnotationValueIsValid) (NonAdminBackup.Labels n0)
         constant.(NabSyncLabel) = false → ∀ b, allowed (CreateBackup b)) →
      keepsFootprint allowed n0 calls0 createVeleroBackupAndSyncWithNonAdminBackup.
Proof.
      intros ? Hcreate. start_footprint. subst labels.
      unfold createVeleroBackupAndSyncWithNonAdminBackup, createMissingVeleroBackup.
      exec; solve_footprint.
      all: match goal with
           | H : CheckLabelAnnotationValueIsValid _ _ _ || _ = false |- _ =>
               apply orb_false_elim in H as [Hsync _]
           end.
      all: by apply Hcreate.
Qed.
End Footprint.

Lemma pathSteps_footprint n0 calls0 :
    Forall (keepsFootprint (λ call, permitted (selectPath n0) call = true) n0 calls0)
      (pathSteps (selectPath n0)).
Proof.
    destruct (selectPath n0) eqn:Hpath; cbn [pathSteps]; repeat constructor;
      first
        [ by apply setStatusAndConditionForDeletionAndCallDelete_footprint
        | by apply setStatusForDirectKubernetesAPIDeletion_footprint
        | by apply deleteNonAdminRestores_footprint
        | by apply createVeleroDeleteBackupRequest_footprint
        | by apply deleteDeleteBackupRequestObjects_footprint
        | by apply deleteVeleroBackupObjects_footprint
        | by apply initNabCreate_footprint
        | by apply validateSpec_footprint
        | by apply setBackupUUIDInStatus_footprint
        | by apply setFinalizerOnNonAdminBackup_footprint
        | idtac ].
    - apply createVeleroBackupAndSyncWithNonAdminBackup_footprint; [done|].
      intros Hsync. unfold selectPath in Hpath. rewrite Hsync in Hpath.
      by repeat case_match.
    - by apply createVeleroBackupAndSyncWithNonAdminBackup_footprint.
Qed.

Lemma stored_nonAdminBackup req c n0 :
    stored req c = Some n0 → Cluster.nonAdminBackup c = Some n0.
Proof.
    unfold stored. destruct (Cluster.nonAdminBackup c); [|done].
    by destruct (hasKey _ _); intros; simplify_eq.
Qed.

  (** The calls of a pass are within the footprint of its path. *)
Lemma Reconcile_footprint req c n0 :
    stored req c = Some n0 →
    Forall (λ call, permitted (selectPath n0) call = true) (newCalls c (Reconcile req c).2).
Proof.
    intros Hst. pose proof (stored_nonAdminBackup _ _ _ Hst) as Hn0.
    unfold Reconcile, Get, drawFault, newCalls.
    destruct (hd false (Cluster.faults c)) eqn:Hf.
    { cbn. rewrite drop_all. constructor. }
    unfold stored in *. cbn [Cluster.nonAdminBackup Cluster.with_faults] in *.
    rewrite Hst, reconcileSteps_pathSteps.
    pose proof (runSteps_preserves _ _ (pathSteps_footprint n0 (Cluster.calls c))) as Hrun.
    match goal with
    | |- context [runSteps _ ?s0] => specialize (Hrun s0)
    end.
    destruct (runSteps _ _) as [outcome s']. cbn [snd] in *.
    destruct Hrun as (_ & _ & new & -> & Hnew).
    { split; [done|]. split.
      - intros n Hn. change (Cluster.nonAdminBackup c = Some n) in Hn. congruence.
      - exists []. by rewrite app_nil_r. }
    by rewrite drop_app_length.
Qed.

  (** X1. The write calls of a pass are those of its path: a graceful delete
      updates status and metadata, deletes the object and its restores and
      creates a delete request, but neither creates nor deletes an engine
      Backup; a direct delete updates status and metadata and deletes the
      engine Backup and its delete request, but creates nothing; a
      sync-import pass only updates status and metadata, so it never creates
      an engine Backup; a create/update pass in addition creates engine
      Backups, and deletes nothing. *)
Theorem pass_writes_within_the_footprint_of_its_path req c n0 :
    stored req c = Some n0 →
    forallb (permitted (selectPath n0)) (newCalls c (Reconcile req c).2) = true.
Proof.
    intros Hst. apply forallb_forall. intros call Hin.
    pose proof (Reconcile_footprint req c n0 Hst) as Hall.
    rewrite Forall_forall in Hall. apply Hall. by apply list_elem_of_In.
Qed.

  (** ** The engine Backup created by the engine-object step *)

Lemma StorageLocation_confineNamespaces namespace spec :
    BackupSpec.StorageLocation (confineNamespaces namespace spec)
    = BackupSpec.StorageLocation spec.
Proof. by destruct spec. Qed.

Lemma StorageLocation_excludeNonAdminResources spec :
    BackupSpec.StorageLocation (excludeNonAdminResources spec)
    = BackupSpec.StorageLocation spec.
Proof.
    exact (FieldByName_excludeNonAdminResources FStorageLocation spec
             ltac:(done) ltac:(done) ltac:(done)).
Qed.

Lemma StorageLocation_SetField name spec :
    BackupSpec.StorageLocation (SetField FStorageLocation name spec) = name.
Proof. exact (FieldByName_SetField_eq FStorageLocation name spec). Qed.

Lemma find_hasKey namespace name (l : list NonAdminBackupStorageLocation.t) nabsl :
    List.find (λ x, hasKey {| Namespace := namespace; Name := name |}
                      (NonAdminBackupStorageLocation.ObjectMeta x)) l = Some nabsl →
    nabsl ∈ l
    ∧ NonAdminBackupStorageLocation.Namespace nabsl = namespace
    ∧ NonAdminBackupStorageLocation.Name nabsl = name.
Proof.
    intros [Hin Hkey]%find_some. apply hasKey_true in Hkey.
    split; [by apply list_elem_of_In|].
    unfold keyOf in Hkey. by injection Hkey.
Qed.

  (** What the engine-object step creates. *)
Lemma createVeleroBackupAndSyncWithNonAdminBackup_creates s :
    match createVeleroBackupAndSyncWithNonAdminBackup s with
    | (_, s') =>
        ∃ new, Cluster.calls (cluster s') = Cluster.calls (cluster s) ++ new
               ∧ createsOf s new
    end.
Proof.
    destruct_state s.
    unfold createVeleroBackupAndSyncWithNonAdminBackup, createMissingVeleroBackup.
    exec.
    all: cbn [cluster Cluster.calls].
    all: rewrite <- ?app_assoc.
    all: first [ exists []; split; [by rewrite app_nil_r|]; by left
               | eexists; split; [reflexivity|] ].
    all: unfold createsOf, createdBackups; cbn [app omap list_omap].
    all: try (left; reflexivity).
    all: right; do 2 eexists; split; [reflexivity|].
    all: unfold backupsByUUID, backupOf, locatedFor, wantedLocation, buildVeleroBackup,
           Backup.Namespace, Backup.Name, Backup.Labels, NonAdminBackup.Labels,
           NonAdminBackup.Namespace;
         cbn [cluster nab Cluster.backups Cluster.nonAdminBackupStorageLocations
              Backup.ObjectMeta Backup.Spec ObjectMeta.Namespace ObjectMeta.Name
              ObjectMeta.Labels NonAdminBackup.ObjectMeta NonAdminBackup.Spec
              NonAdminBackup.Status NonAdminBackupStatus.Phase].
    all: match goal with
         | H : CheckLabelAnnotationValueIsValid _ _ _ || _ = false |- _ =>
             apply orb_false_elim in H as [Hsync Hphase];
             apply bool_decide_eq_false in Hphase
         end.
    all: rewrite ?StorageLocation_excludeNonAdminResources, ?StorageLocation_SetField,
           ?StorageLocation_confineNamespaces in *.
    all: try (set (merged := enforceFields _ _) in *; clearbody merged).
    all: split; [eassumption|]; split; [eassumption|].
    all: split; [split; [reflexivity|split; [reflexivity|apply lookup_insert_eq]]|].
    all: split; [|done].
    all: repeat match goal with
           | H : bool_decide _ = true |- _ => apply bool_decide_eq_true in H
           | H : bool_decide _ = false |- _ => apply bool_decide_eq_false in H
           | H : List.find _ _ = Some _ |- _ => apply find_hasKey in H as (? & ? & ?)
           end.
    all: first [ left; split; assumption | right; split; [assumption|] ].
    all: match goal with H : ?x ∈ _ |- _ => exists x end; repeat split; assumption.
Qed.

  (** X2. The engine-object step creates at most one engine Backup, and only
      for an object that is neither synced nor in phase Created and whose
      lookup by UUID found none: the Backup is in the operator namespace,
      named and labelled by the UUID of the status; its storage location is
      empty when the merged spec names none, and otherwise the engine
      location recorded on the tenant-side location of that name in the
      tenant's own namespace. *)
Theorem engine_object_step_creates_only_the_backup_of_the_uuid s :
    createsOf s
      (newCalls (cluster s) (cluster (createVeleroBackupAndSyncWithNonAdminBackup s).2)).
Proof.
    pose proof (createVeleroBackupAndSyncWithNonAdminBackup_creates s) as H.
    destruct (createVeleroBackupAndSyncWithNonAdminBackup s) as [flow s'].
    destruct H as (new & Hcalls & Hcreates). unfold newCalls. cbn [snd].
    by rewrite Hcalls, drop_app_length.
Qed.

Lemma createdBackups_app l l' :
    createdBackups (l ++ l') = createdBackups l ++ createdBackups l'.
Proof. unfold createdBackups. apply omap_app. Qed.

Lemma createdBackups_none l :
    Forall (λ call, isCreateBackup call = false) l → createdBackups l = [].
Proof.
    unfold createdBackups. induction 1 as [|[] l Hcall _ IH]; cbn; try done.
Qed.

  (** X3. A pass creates at most one engine Backup, and only on the
      create/update path. *)
Theorem pass_creates_at_most_one_engine_backup req c n0 :
    stored req c = Some n0 →
    (length (createdBackups (newCalls c (Reconcile req c).2)) ≤ 1)%nat
    ∧ (createdBackups (newCalls c (Reconcile req c).2) ≠ [] →
       selectPath n0 = CreateUpdate).
Proof.
    intros Hst.
    assert (Hother : selectPath n0 ≠ CreateUpdate →
                     createdBackups (newCalls c (Reconcile req c).2) = []).
    { intros Hpath. apply createdBackups_none.
      eapply Forall_impl; [exact (Reconcile_footprint req c n0 Hst)|].
      intros call. cbn beta. destruct (selectPath n0), call; done. }
    split; [|intros Hsome; destruct (selectPath n0) eqn:Hpath; try done;
             by destruct Hsome; apply Hother].
    destruct (selectPath n0) eqn:Hpath; try (rewrite Hother by done; cbn; lia).
    clear Hother.
    pose proof (stored_nonAdminBackup _ _ _ Hst) as Hn0.
    unfold Reconcile, Get, drawFault, newCalls.
    destruct (hd false (Cluster.faults c)) eqn:Hf.
    { cbn. rewrite drop_all. cbn. lia. }
    unfold stored in *. cbn [Cluster.nonAdminBackup Cluster.with_faults] in *.
    rewrite Hst, reconcileSteps_pathSteps, Hpath.
    assert (pathSteps CreateUpdate
            = [initNabCreate; validateSpec; setBackupUUIDInStatus;
               setFinalizerOnNonAdminBackup]
              ++ [createVeleroBackupAndSyncWithNonAdminBackup]) as -> by done.
    rewrite runSteps_app.
    pose proof (runSteps_preserves
                  (footprintInv (λ call, isCreateBackup call = false) n0 (Cluster.calls c))
                  [initNabCreate; validateSpec; setBackupUUIDInStatus;
                   setFinalizerOnNonAdminBackup]) as Hrun.
    assert (Hsteps : Forall (keepsFootprint (λ call, isCreateBackup call = false) n0
                               (Cluster.calls c))
                       [initNabCreate; validateSpec; setBackupUUIDInStatus;
                        setFinalizerOnNonAdminBackup]).
    { repeat constructor;
        first [ by apply initNabCreate_footprint
              | by apply validateSpec_footprint
              | by apply setBackupUUIDInStatus_footprint
              | by apply setFinalizerOnNonAdminBackup_footprint ]. }
    specialize (Hrun Hsteps). clear Hsteps.
    match goal with
    | |- context [runSteps _ ?s0] => specialize (Hrun s0)
    end.
    destruct (runSteps _ _) as [outcome s1]. cbn [snd] in Hrun.
    destruct Hrun as (_ & _ & new & Hcalls & Hnew).
    { split; [done|]. split.
      - intros n Hn. change (Cluster.nonAdminBackup c = Some n) in Hn. congruence.
      - exists []. by rewrite app_nil_r. }
    assert (Hquiet : length (createdBackups (drop (length (Cluster.calls c))
                                               (Cluster.calls (cluster s1)))) = 0%nat).
    { by rewrite Hcalls, drop_app_length, createdBackups_none. }
    destruct outcome as [[] []|]; cbn [snd]; try (rewrite Hquiet; lia).
    cbn [runSteps].
    pose proof (createVeleroBackupAndSyncWithNonAdminBackup_creates s1) as Hlast.
    destruct (createVeleroBackupAndSyncWithNonAdminBackup s1) as [flow s2].
    destruct Hlast as (new2 & Hcalls2 & Hcreates).
    assert (Hend : (length (createdBackups (drop (length (Cluster.calls c))
                                              (Cluster.calls (cluster s2)))) ≤ 1)%nat).
    { rewrite Hcalls2, Hcalls, <- app_assoc, drop_app_length, createdBackups_app.
      rewrite (createdBackups_none new) by done.
      destruct Hcreates as [->|(b & uuid & -> & _)]; cbn; lia. }
    by destruct flow as [[]|[] []|].
Qed.

  (** ** The exclusion lists of a created Backup *)

  (** The creations of a pass are built for the object it fetched. *)
Lemma Reconcile_creates_new req c n0 :
    stored req c = Some n0 → Forall (okCreate n0) (newCalls c (Reconcile req c).2).
Proof.
    intros Hst. unfold Reconcile, Get, drawFault, newCalls.
    destruct (hd false (Cluster.faults c)) eqn:Hf.
    { cbn. rewrite drop_all. constructor. }
    unfold stored in *. cbn [Cluster.nonAdminBackup Cluster.with_faults] in *.
    rewrite Hst.
    pose proof (runSteps_preserves (confinedInv n0 (Cluster.calls c)) _
                  (reconcileSteps_confined n0 (Cluster.calls c) n0)) as Hrun.
    match goal with
    | |- context [runSteps _ ?s0] => specialize (Hrun s0)
    end.
    destruct (runSteps _ _) as [outcome s']. cbn [snd] in *.
    destruct Hrun as (_ & _ & _ & new & -> & Hnew).
    { repeat split; try done.
      - cbn. intros n Hn. destruct (Cluster.nonAdminBackup c) as [n1|]; [|done].
        destruct (hasKey _ _); congruence.
      - exists []. by rewrite app_nil_r. }
    by rewrite drop_app_length.
Qed.

Lemma excludeNonAdminResources_lists base :
    if haveNewResourceFilterParameters base
    then BackupSpec.ExcludedNamespaceScopedResources (excludeNonAdminResources base)
         = append (BackupSpec.ExcludedNamespaceScopedResources base)
             alwaysExcludedNamespacedResources
         ∧ BackupSpec.ExcludedClusterScopedResources (excludeNonAdminResources base)
           = append (BackupSpec.ExcludedClusterScopedResources base)
               alwaysExcludedClusterResources
         ∧ BackupSpec.ExcludedResources (excludeNonAdminResources base)
           = BackupSpec.ExcludedResources base
    else BackupSpec.ExcludedResources (excludeNonAdminResources base)
         = append (append (BackupSpec.ExcludedResources base)
                     alwaysExcludedNamespacedResources)
             alwaysExcludedClusterResources
         ∧ BackupSpec.ExcludedNamespaceScopedResources (excludeNonAdminResources base)
           = BackupSpec.ExcludedNamespaceScopedResources base
         ∧ BackupSpec.ExcludedClusterScopedResources (excludeNonAdminResources base)
           = BackupSpec.ExcludedClusterScopedResources base.
Proof.
    unfold excludeNonAdminResources, haveNewResourceFilterParameters.
    destruct (_ || _); destruct base; done.
Qed.

Lemma append_superset {A} (s : slice A) (xs : list A) :
    default [] s ⊆ default [] (append s xs) ∧ xs ⊆ default [] (append s xs).
Proof.
    assert (H : default [] (append s xs) = default [] s ++ xs).
    { destruct s as [l|], xs; cbn; by rewrite ?app_nil_r. }
    rewrite H. split; intros x Hx; apply elem_of_app; auto.
Qed.

Lemma engineSpecFor_filters n spec :
    engineSpecFor n spec →
    let merged := enforceFields r.(EnforcedBackupSpec)
                    (NonAdminBackupSpec.BackupSpec (NonAdminBackup.Spec n)) in
    ∃ base, spec = excludeNonAdminResources base
            ∧ haveNewResourceFilterParameters base = haveNewResourceFilterParameters merged
            ∧ BackupSpec.ExcludedResources base = BackupSpec.ExcludedResources merged
            ∧ BackupSpec.ExcludedNamespaceScopedResources base
              = BackupSpec.ExcludedNamespaceScopedResources merged
            ∧ BackupSpec.ExcludedClusterScopedResources base
              = BackupSpec.ExcludedClusterScopedResources merged.
Proof.
    intros (base & Hbase & ->) merged. exists base. split; [done|].
    fold merged in Hbase. clearbody merged. unfold confineNamespaces in Hbase.
    destruct Hbase as [->|[name ->]]; by destruct merged.
Qed.

  (** X4. Every engine Backup a pass creates excludes the resources of the
      controller itself and the listed cluster resources: in the two scoped
      exclusion lists when the merged spec uses a scoped resource filter (the
      legacy list is then left as merged), in the legacy list otherwise (the
      scoped lists are then left as merged); no exclusion of the merged spec
      is dropped. *)
Theorem created_backup_excludes_the_internal_resources req c n0 b :
    stored req c = Some n0 →
    CreateBackup b ∈ newCalls c (Reconcile req c).2 →
    let merged := enforceFields r.(EnforcedBackupSpec)
                    (NonAdminBackupSpec.BackupSpec (NonAdminBackup.Spec n0)) in
    excludesInternalResources (Backup.Spec b)
    ∧ keepsExclusions merged (Backup.Spec b)
    ∧ (if haveNewResourceFilterParameters merged
       then BackupSpec.ExcludedResources (Backup.Spec b)
            = BackupSpec.ExcludedResources merged
       else BackupSpec.ExcludedNamespaceScopedResources (Backup.Spec b)
            = BackupSpec.ExcludedNamespaceScopedResources merged
            ∧ BackupSpec.ExcludedClusterScopedResources (Backup.Spec b)
              = BackupSpec.ExcludedClusterScopedResources merged).
Proof.
    intros Hst Hin merged.
    pose proof (Reconcile_creates_new req c n0 Hst) as Hall.
    rewrite Forall_forall in Hall. specialize (Hall _ Hin). cbn in Hall.
    destruct (engineSpecFor_filters _ _ Hall) as (base & -> & Hnew & Hlegacy & Hns & Hcl).
    fold merged in Hnew, Hlegacy, Hns, Hcl. clearbody merged.
    pose proof (excludeNonAdminResources_lists base) as Hlists.
    unfold excludesInternalResources, keepsExclusions.
    rewrite Hnew in Hlists. rewrite <- Hlegacy, <- Hns, <- Hcl.
    destruct (haveNewResourceFilterParameters merged);
      destruct Hlists as (-> & -> & ->).
    - split; [right; split; apply append_superset|].
      split; [|done]. split; [done|]. split; apply append_superset.
    - split; [|split; [|done]].
      + left. split; [|apply append_superset].
        etrans; [apply (append_superset (BackupSpec.ExcludedResources base))|].
        apply append_superset.
      + split; [|done].
        etrans; [apply (append_superset _ alwaysExcludedNamespacedResources)|].
        apply append_superset.
Qed.

  (** ** Adoption of an existing engine Backup *)

  (** X5. An engine Backup found by UUID whose annotations are missing, or
      name another origin namespace than the object's, is not adopted: the
      engine-object step returns a terminal error and writes nothing, and
      the object in hand is left as it was. *)
Theorem foreign_engine_backup_is_not_adopted s uuid found :
    statusNACUUID (nab s) = Some uuid →
    hd false (Cluster.faults (cluster s)) = false →
    backupsByUUID uuid (cluster s) = [found] →
    match Backup.Annotations found with
    | None => True
    | Some annotations =>
        index annotations constant.(NabOriginNamespaceAnnotation)
        ≠ NonAdminBackup.Namespace (nab s)
    end →
    createVeleroBackupAndSyncWithNonAdminBackup s
    = (Return false
         (Some (TerminalError
                  (errors_New "related Velero Backup does not point to NonAdminBackup namespace"))),
       {| cluster := Cluster.with_faults (tl (Cluster.faults (cluster s))) (cluster s);
          nab := nab s |}).
Proof.
    destruct_state s. unfold backupsByUUID.
    cbn [cluster nab Cluster.faults Cluster.backups].
    intros Huuid Hfault Hfound Hforeign.
    unfold createVeleroBackupAndSyncWithNonAdminBackup, GetVeleroBackupByLabel.
    unfold_prims. reduce_state. rewrite Huuid.
    unfold_prims. reduce_state. rewrite Hfault.
    unfold_prims. reduce_state. rewrite Hfound.
    unfold_prims. reduce_state.
    destruct (Backup.Annotations found) as [origin|]; [|done].
    by rewrite bool_decide_eq_false_2.
Qed.

  (** ** Steps that leave everything as it is *)

  (** X6. A pass over an object that does not exist, or whose fetch fails,
      writes nothing and changes nothing in the cluster: a missing object
      ends the pass without error and without requeue, any other failure
      of the fetch is returned. *)
Theorem reconcile_of_a_missing_object_does_nothing req c :
    stored req c = None ∨ hd false (Cluster.faults c) = true →
    Reconcile req c
    = (Result false (if hd false (Cluster.faults c)
                     then Some (StatusError StatusReasonInternalError) else None),
       Cluster.with_faults (tl (Cluster.faults c)) c).
Proof.
    intros Hmissing. unfold Reconcile, Get, drawFault.
    destruct (hd false (Cluster.faults c)); [done|].
    destruct Hmissing as [Hst|?]; [|done].
    unfold stored in *. cbn [Cluster.nonAdminBackup Cluster.with_faults] in *.
    by rewrite Hst.
Qed.

  (** X7. The phase is initialised once: [initNabCreate] leaves an object
      whose phase is set as it is and writes nothing. *)
Theorem initNabCreate_leaves_a_set_phase s :
    phaseOf (nab s) ≠ constant_EmptyString →
    initNabCreate s = (Return false None, s).
Proof.
    destruct_state s. unfold phaseOf. cbn [nab NonAdminBackup.Status
      NonAdminBackupStatus.Phase]. intros Hphase.
    unfold initNabCreate. unfold_prims. reduce_state.
    by rewrite bool_decide_eq_false_2.
Qed.

  (** X8. The UUID is assigned once: when the stored object carries a UUID,
      [setBackupUUIDInStatus] only fetches the object again and writes
      nothing. *)
Theorem assigned_uuid_is_kept s n uuid :
    hd false (Cluster.faults (cluster s)) = false →
    stored (keyOf (NonAdminBackup.ObjectMeta (nab s))) (cluster s) = Some n →
    statusNACUUID n = Some uuid →
    setBackupUUIDInStatus s
    = (Return false None,
       {| cluster := Cluster.with_faults (tl (Cluster.faults (cluster s))) (cluster s);
          nab := n |}).
Proof.
    destruct s as [c local]. cbn [cluster nab]. intros Hfault Hst Huuid.
    unfold setBackupUUIDInStatus, Get, drawFault.
    cbv beta iota zeta delta [mbind mret M_bind M_ret call callInto getNab setNab
      getCluster return_ check]. cbn [cluster nab].
    rewrite Hfault.
    change (stored (keyOf (NonAdminBackup.ObjectMeta local))
              (Cluster.with_faults (tl (Cluster.faults c)) c))
      with (stored (keyOf (NonAdminBackup.ObjectMeta local)) c).
    rewrite Hst. cbn [nab]. by rewrite Huuid.
Qed.

  (** X9. The finalizer is added once: [setFinalizerOnNonAdminBackup] leaves
      an object that holds the finalizer as it is and writes nothing. *)
Theorem held_finalizer_is_not_written_again s :
    held (nab s) = true → setFinalizerOnNonAdminBackup s = (Return false None, s).
Proof.
    destruct s as [c local]. unfold held. cbn [nab]. intros Hheld.
    unfold setFinalizerOnNonAdminBackup.
    cbv beta iota zeta delta [mbind mret M_bind M_ret getNab return_]. cbn [nab].
    by rewrite Hheld.
Qed.

  (** X10. Without a UUID in the status nothing is cleaned up and nothing is
      created: the three delete steps that look the engine objects up leave
      the object as it is, finalizer included, and write nothing; the
      engine-object step returns an error that is not terminal. *)
Theorem steps_without_uuid_do_nothing s :
    statusNACUUID (nab s) = None →
    createVeleroDeleteBackupRequest s = (Return false None, s)
    ∧ deleteVeleroBackupObjects s = (Return false None, s)
    ∧ deleteDeleteBackupRequestObjects s = (Return false None, s)
    ∧ createVeleroBackupAndSyncWithNonAdminBackup s
      = (Return false
           (Some (errors_New "unable to get Velero Backup UUID from NonAdminBackup Status")),
         s).
Proof.
    destruct s as [c local]. cbn [nab]. intros Huuid.
    unfold createVeleroDeleteBackupRequest, deleteVeleroBackupObjects,
      deleteDeleteBackupRequestObjects, createVeleroBackupAndSyncWithNonAdminBackup.
    cbv beta iota zeta delta [mbind mret M_bind M_ret getNab return_]. cbn [nab].
    rewrite Huuid. by destruct (ContainsFinalizer _ _).
Qed.

  (** X11. An object in phase Created without the Queued condition, without
      sync label, whose engine Backup is not found: the engine-object step
      calls [Error] on the nil error and panics; the phase was set to
      BackingOff in hand only, nothing is written. *)
Theorem missing_backup_of_unqueued_created_object_panics s uuid :
    function.(CheckLabelAnnotationValueIsValid) (NonAdminBackup.Labels (nab s))
      constant.(NabSyncLabel) = false →
    phaseOf (nab s) = NonAdminPhaseCreated →
    IsStatusConditionTrue (NonAdminBackupStatus.Conditions (NonAdminBackup.Status (nab s)))
      NonAdminConditionQueued = false →
    statusNACUUID (nab s) = Some uuid →
    hd false (Cluster.faults (cluster s)) = false →
    backupsByUUID uuid (cluster s) = [] →
    createVeleroBackupAndSyncWithNonAdminBackup s
    = (Panic,
       {| cluster := Cluster.with_faults (tl (Cluster.faults (cluster s))) (cluster s);
          nab := NonAdminBackup.with_Status
                   (NonAdminBackupStatus.with_Phase NonAdminPhaseBackingOff
                      (NonAdminBackup.Status (nab s))) (nab s) |}).
Proof.
    destruct_state s. unfold backupsByUUID, phaseOf.
    cbn [cluster nab Cluster.faults Cluster.backups NonAdminBackup.Labels
         NonAdminBackup.Status NonAdminBackup.ObjectMeta ObjectMeta.Labels
         NonAdminBackupStatus.Phase NonAdminBackupStatus.Conditions].
    intros Hsync -> Hqueued Huuid Hfault Hnone.
    unfold createVeleroBackupAndSyncWithNonAdminBackup, createMissingVeleroBackup,
      GetVeleroBackupByLabel.
    unfold_prims. reduce_state. rewrite Huuid.
    unfold_prims. reduce_state. rewrite Hfault.
    unfold_prims. reduce_state. rewrite Hnone.
    unfold_prims. reduce_state.
    rewrite Hsync, Hqueued, bool_decide_refl. cbn [orb].
    unfold updateNonAdminPhase. by rewrite bool_decide_eq_false_2.
Qed.

  (** ** Steps that write *)

Lemma stored_self key c n :
    stored key c = Some n → stored (keyOf (NonAdminBackup.ObjectMeta n)) c = Some n.
Proof.
    unfold stored. destruct (Cluster.nonAdminBackup c) as [n1|]; [|done].
    destruct (hasKey key _); [|done]. intros [= ->]. by rewrite hasKey_keyOf.
Qed.

  (** X12. An object without UUID gets one: the value of the sync label when
      the object carries that label (whatever the value), a generated UUID
      otherwise; the reference names the engine Backup after the UUID, in
      the operator namespace, and is written with one status update. *)
Theorem uuid_is_the_sync_label_or_generated s n :
    hd false (Cluster.faults (cluster s)) = false →
    hd false (tl (Cluster.faults (cluster s))) = false →
    stored (keyOf (NonAdminBackup.ObjectMeta (nab s))) (cluster s) = Some n →
    statusNACUUID n = None →
    match setBackupUUIDInStatus s with
    | (flow, s') =>
        flow = Return false None
        ∧ nab s' = withUUID (assignedUUID n) n
        ∧ Cluster.nonAdminBackup (cluster s') = Some (withUUID (assignedUUID n) n)
        ∧ Cluster.calls (cluster s')
          = Cluster.calls (cluster s) ++ [StatusUpdate (withUUID (assignedUUID n) n)]
        ∧ Cluster.backups (cluster s') = Cluster.backups (cluster s)
    end.
Proof.
    destruct s as [c local]. cbn [cluster nab]. intros Hfault Hfault2 Hst Huuid.
    pose proof (stored_self _ _ _ Hst) as Hself.
    unfold setBackupUUIDInStatus, Get, Status_Update, drawFault, logCall.
    cbv beta iota zeta delta [mbind mret M_bind M_ret call callInto getNab setNab
      getCluster return_ check]. cbn [cluster nab].
    rewrite Hfault.
    change (stored (keyOf (NonAdminBackup.ObjectMeta local))
              (Cluster.with_faults (tl (Cluster.faults c)) c))
      with (stored (keyOf (NonAdminBackup.ObjectMeta local)) c).
    rewrite Hst. cbn [cluster nab]. rewrite Huuid. cbn [cluster nab].
    change (Cluster.faults (Cluster.with_calls _ (Cluster.with_faults ?f _))) with f.
    rewrite Hfault2.
    match goal with
    | |- context [stored ?k ?c'] =>
        change (stored k c') with (stored (keyOf (NonAdminBackup.ObjectMeta n)) c)
    end.
    rewrite Hself. cbn [cluster nab]. unfold withUUID, assignedUUID.
    by destruct n as [meta spec status].
Qed.

  (** X13. An object without the finalizer gets it with one metadata update:
      the finalizer is appended to the finalizers in hand, spec and the other
      metadata are those in hand, the status is the stored one. *)
Theorem missing_finalizer_is_appended s n :
    held (nab s) = false →
    hd false (Cluster.faults (cluster s)) = false →
    stored (keyOf (NonAdminBackup.ObjectMeta (nab s))) (cluster s) = Some n →
    match setFinalizerOnNonAdminBackup s with
    | (flow, s') =>
        flow = Return false None
        ∧ Cluster.nonAdminBackup (cluster s') = Some (nab s')
        ∧ NonAdminBackup.Finalizers (nab s')
          = NonAdminBackup.Finalizers (nab s) ++ [constant.(NabFinalizerName)]
        ∧ held (nab s') = true
        ∧ NonAdminBackup.Spec (nab s') = NonAdminBackup.Spec (nab s)
        ∧ NonAdminBackup.Labels (nab s') = NonAdminBackup.Labels (nab s)
        ∧ NonAdminBackup.Status (nab s') = NonAdminBackup.Status n
        ∧ Cluster.calls (cluster s')
          = Cluster.calls (cluster s)
            ++ [Update (AddFinalizer (nab s) constant.(NabFinalizerName))]
    end.
Proof.
    destruct s as [c local]. unfold held. cbn [cluster nab]. intros Hheld Hfault Hst.
    unfold setFinalizerOnNonAdminBackup, Client_Update, drawFault, logCall.
    cbv beta iota zeta delta [mbind mret M_bind M_ret call callInto getNab setNab
      getCluster return_ check]. cbn [cluster nab].
    rewrite Hheld. cbn [negb cluster nab].
    change (Cluster.faults (Cluster.with_calls _ ?c')) with (Cluster.faults c').
    rewrite Hfault.
    assert (Hkey : keyOf (NonAdminBackup.ObjectMeta
                            (AddFinalizer local constant.(NabFinalizerName)))
                   = keyOf (NonAdminBackup.ObjectMeta local)).
    { unfold AddFinalizer. by rewrite Hheld. }
    rewrite Hkey.
    match goal with
    | |- context [stored ?k ?c'] =>
        change (stored k c') with (stored (keyOf (NonAdminBackup.ObjectMeta local)) c)
    end.
    rewrite Hst. cbn [cluster nab].
    unfold AddFinalizer, ContainsFinalizer, NonAdminBackup.Finalizers,
      NonAdminBackup.DeletionTimestamp, NonAdminBackup.Labels in *.
    rewrite Hheld.
    cbn [NonAdminBackup.ObjectMeta NonAdminBackup.with_ObjectMeta ObjectMeta.Finalizers
         ObjectMeta.with_Finalizers ObjectMeta.with_DeletionTimestamp
         ObjectMeta.DeletionTimestamp ObjectMeta.Labels NonAdminBackup.Spec
         NonAdminBackup.Status].
    rewrite match_snoc.
    split; [done|]. split; [by destruct (ObjectMeta.DeletionTimestamp _)|].
    split; [done|]. split; [apply held_AddFinalizer|]. done.
Qed.

  (** X14. A spec the validation accepts: [validateSpec] sets the condition
      Accepted to true, leaves the phase as it is, writes at most the status,
      and lets the pass go on unless the status update fails. *)
Theorem accepted_spec_is_marked_accepted s :
    function.(ValidateBackupSpec) (cluster s) r.(OADPNamespace) (nab s)
      r.(EnforcedBackupSpec) = None →
    match validateSpec s with
    | (flow, s') =>
        hasCondition (nab s') NonAdminConditionAccepted ConditionTrue "BackupAccepted"
          "backup accepted"
        ∧ phaseOf (nab s') = phaseOf (nab s)
        ∧ ((flow = Return false None
            ∧ (Cluster.calls (cluster s') = Cluster.calls (cluster s)
               ∨ ∃ n, Cluster.calls (cluster s') = Cluster.calls (cluster s) ++ [StatusUpdate n]))
           ∨ ∃ failure n,
               flow = Return false (Some (StatusError failure))
               ∧ Cluster.calls (cluster s') = Cluster.calls (cluster s) ++ [StatusUpdate n]
               ∧ Cluster.nonAdminBackup (cluster s') = Cluster.nonAdminBackup (cluster s))
    end.
Proof.
    destruct_state s. cbn [cluster nab]. intros Hv.
    unfold validateSpec. unfold_prims. reduce_state. rewrite Hv.
    exec.
    all: unfold hasCondition, phaseOf;
      cbn [cluster nab Cluster.calls Cluster.nonAdminBackup NonAdminBackup.Status
           NonAdminBackupStatus.Phase NonAdminBackupStatus.Conditions].
    all: repeat match goal with
           | H : SetStatusCondition _ ?cs _ = (?l, false) |- _ =>
               pose proof (SetStatusCondition_unchanged _ _ _ _ H); subst l;
               apply FindStatusCondition_SetStatusCondition in H; cbn in H
           | H : SetStatusCondition _ _ _ = (_, _) |- _ =>
               apply FindStatusCondition_SetStatusCondition in H; cbn in H
           end.
    all: split; [assumption|]; split; [reflexivity|].
    all: first [ left; split; [reflexivity|]; first [ by left | right; by eexists ]
               | right; do 2 eexists; repeat split; reflexivity ].
Qed.

Lemma steps_never_requeue :
    Forall neverRequeues
      [ initNabCreate; validateSpec; setBackupUUIDInStatus; setFinalizerOnNonAdminBackup;
        createVeleroBackupAndSyncWithNonAdminBackup;
        setStatusForDirectKubernetesAPIDeletion; deleteDeleteBackupRequestObjects;
        deleteVeleroBackupObjects; createVeleroDeleteBackupRequest ].
Proof.
    repeat constructor; intros s; destruct_state s;
      unfold initNabCreate, validateSpec, setBackupUUIDInStatus,
        setFinalizerOnNonAdminBackup, createVeleroBackupAndSyncWithNonAdminBackup,
        createMissingVeleroBackup, setStatusForDirectKubernetesAPIDeletion,
        deleteDeleteBackupRequestObjects, deleteVeleroBackupObjects,
        createVeleroDeleteBackupRequest, removeNabFinalizerUponVeleroBackupDeletion;
      exec; done.
Qed.

  (** An object left by a delete call: one the call was not about, or one
      that holds a finalizer and is now marked for deletion. *)
Lemma elem_of_releaseNamed {A} (meta : A → ObjectMeta.t)
      (with_meta : ObjectMeta.t → A → A) key now (l : list A) (x' : A) :
    x' ∈ releaseNamed meta with_meta key now l →
    ∃ x, x ∈ l
         ∧ ((hasKey key (meta x) = false ∧ x' = x)
            ∨ (hasKey key (meta x) = true
               ∧ ∃ m, x' = with_meta m x
                      ∧ keyOf m = keyOf (meta x)
                      ∧ markedForDeletion m
                      ∧ (markedForDeletion (meta x) → m = meta x))).
Proof.
    unfold releaseNamed. intros (x & Hx & Hrelease)%list_elem_of_omap.
    exists x. split; [done|]. destruct (hasKey key (meta x)); [right|left].
    - split; [done|]. unfold releaseObject in Hrelease.
      destruct (meta x) as [nm gen ns uid created deleted labels annotations finalizers]
        eqn:Hmeta.
      cbn in Hrelease. destruct finalizers as [|f finalizers]; [done|].
      destruct deleted as [t|]; cbn in Hrelease; simplify_eq; eexists;
        (split; [reflexivity|]); (split; [reflexivity|]); split; try done.
      by intros [_ ?].
    - split; [done|]. by simplify_eq.
Qed.

Lemma sameRestore_refl x : sameRestore x x.
Proof. done. Qed.

Lemma sameRestore_trans x y z : sameRestore x y → sameRestore y z → sameRestore x z.
Proof.
    intros (Hk & Hb & Hm) (Hk' & Hb' & Hm'). split; [by rewrite Hk'|].
    split; [by rewrite Hb'|auto].
Qed.

  (** The restores a delete call on the restore named [key] leaves. *)
Lemma elem_of_released_restores key now l x' :
    x' ∈ releaseNamed NonAdminRestore.ObjectMeta
           (λ m r, NonAdminRestore.mk m (NonAdminRestore.BackupName r)) key now l →
    (∃ x, x ∈ l ∧ sameRestore x x')
    ∧ (hasKey key (NonAdminRestore.ObjectMeta x') = true →
       markedForDeletion (NonAdminRestore.ObjectMeta x')).
Proof.
    intros (x & Hx & [[Hkey ->]|(Hkey & m & -> & Hm & Hmarked & Hsame)])%elem_of_releaseNamed.
    - split; [exists x; split; [done|apply sameRestore_refl]|]. by rewrite Hkey.
    - split; [|done]. exists x. by split.
Qed.

Lemma hasKey_keyOf_eq key m m' : keyOf m = keyOf m' → hasKey key m = hasKey key m'.
Proof. unfold hasKey, keyOf. by intros [= -> ->]. Qed.

  (** The loop over the listed restores. *)
Lemma deleteMatchingRestores_deleted name items s :
    match deleteMatchingRestores name items s with
    | (flow, s') => restoresDeleted name items s flow s'
    end.
Proof.
    revert s. induction items as [|nar items IH]; intros s; cbn [deleteMatchingRestores].
    - unfold_prims. unfold restoresDeleted. split; [done|].
      split; [intros x ?; exists x; split; [done|apply sameRestore_refl]|].
      split; [exists []; by rewrite app_nil_r|]. left. split; [done|].
      intros ? Hin. by apply elem_of_nil in Hin.
    - destruct s as [c n].
      destruct c as [stored0 backups dbrs nars nabsls pvbs dus clock uid nm faults calls].
      unfold mbind at 1, M_bind. unfold when.
      destruct (bool_decide _) eqn:Hmatch.
      + apply bool_decide_eq_true in Hmatch.
        unfold_prims. reduce_state.
        destruct (hd false faults) eqn:Hfault.
        { unfold restoresDeleted.
          cbn [cluster nab Cluster.nonAdminRestores Cluster.calls].
          split; [done|].
          split; [intros x ?; exists x; split; [done|apply sameRestore_refl]|].
          split; [|right; by eexists].
          exists [nar]. split; [done|]. rewrite filter_cons_True by done.
          intros y Hy. apply list_elem_of_singleton in Hy as ->. left. }
        destruct (existsb _ nars) eqn:Hexists.
        2:{ unfold restoresDeleted.
            cbn [cluster nab Cluster.nonAdminRestores Cluster.calls].
            split; [done|].
            split; [intros x ?; exists x; split; [done|apply sameRestore_refl]|].
            split; [|right; by eexists].
            exists [nar]. split; [done|]. rewrite filter_cons_True by done.
            intros y Hy. apply list_elem_of_singleton in Hy as ->. left. }
        unfold_prims. reduce_state.
        match goal with
        | |- context [deleteMatchingRestores name items ?s1] => specialize (IH s1)
        end.
        destruct (deleteMatchingRestores name items _) as [flow s'].
        destruct IH as (Hnab & Hsame & (deleted & Hcalls & Hdeleted) & Hflow).
        cbn [cluster nab Cluster.nonAdminRestores Cluster.calls] in *.
        assert (Hfrom : ∀ x', x' ∈ Cluster.nonAdminRestores (cluster s') →
                  ∃ x, x ∈ nars ∧ sameRestore x x').
        { intros x' (x1 & Hx1 & Hx1')%Hsame.
          apply elem_of_released_restores in Hx1 as [(x & Hx & Hxx1) _].
          exists x. split; [done|]. by eapply sameRestore_trans. }
        assert (Hmarked : ∀ x', x' ∈ Cluster.nonAdminRestores (cluster s') →
                  hasKey (keyOf (NonAdminRestore.ObjectMeta nar))
                    (NonAdminRestore.ObjectMeta x') = true →
                  markedForDeletion (NonAdminRestore.ObjectMeta x')).
        { intros x' (x1 & Hx1 & Hkey & _ & Hkeep)%Hsame Hx'.
          apply elem_of_released_restores in Hx1 as [_ Hx1].
          apply Hkeep, Hx1. by rewrite <- (hasKey_keyOf_eq _ _ _ Hkey). }
        assert (Hlog : ∃ deleted0,
                  Cluster.calls (cluster s')
                  = calls ++ map DeleteNonAdminRestore deleted0
                  ∧ deleted0 ⊆ filter (λ nar0, NonAdminRestore.BackupName nar0 = name)
                                 (nar :: items)).
        { exists (nar :: deleted). split; [by rewrite Hcalls, <- app_assoc|].
          rewrite filter_cons_True by done.
          intros y [->|Hy]%elem_of_cons; [left|right; by apply Hdeleted]. }
        destruct flow as [[]|requeue err|].
        * split; [done|]. split; [done|]. split; [done|].
          left. split; [done|]. destruct Hflow as [[_ Hgone]|[? ?]]; [|done].
          intros nar' [->|Hin]%elem_of_cons Hname; [apply Hmarked|by apply Hgone].
        * split; [done|]. split; [done|]. split; [done|].
          right. destruct Hflow as [[? _]|[e ?]]; [done|]. by exists e.
        * destruct Hflow as [[? _]|[e ?]]; done.
      + apply bool_decide_eq_false in Hmatch. unfold_prims.
        specialize (IH {| cluster := Cluster.mk stored0 backups dbrs nars nabsls pvbs
                                       dus clock uid nm faults calls; nab := n |}).
        destruct (deleteMatchingRestores _ _ _) as [flow s'].
        destruct IH as (Hnab & Hsame & (deleted & Hcalls & Hdeleted) & Hflow).
        split; [done|]. split; [done|]. split.
        { exists deleted. split; [done|]. by rewrite filter_cons_False. }
        destruct Hflow as [[-> Hgone]|[e ->]]; [left|right; by exists e].
        split; [done|]. intros nar' [->|Hin]%elem_of_cons Hname; [done|by apply Hgone].
Qed.

Lemma deleteNonAdminRestores_never_requeues : neverRequeues deleteNonAdminRestores.
Proof.
    intros s. destruct_state s. unfold deleteNonAdminRestores. exec; try done.
    all: lazymatch goal with
         | H : deleteMatchingRestores ?a ?b ?s1 = _ |- _ =>
             pose proof (deleteMatchingRestores_deleted a b s1) as Hloop;
             rewrite H in Hloop; destruct Hloop as (_ & _ & _ & [[? _]|[? ?]])
         end; by simplify_eq.
Qed.

Lemma runSteps_never_requeues steps s e :
    Forall neverRequeues steps → (runSteps steps s).1 ≠ Result true e.
Proof.
    intros Hsteps. revert s. induction Hsteps as [|step steps Hstep _ IH]; intros s; [done|].
    cbn [runSteps]. specialize (Hstep s). destruct (step s) as [flow s1].
    destruct flow as [[]|[] []|]; cbn [fst] in *; done.
Qed.

  (** The first step of the graceful-delete path asks for a requeue only
      after the delete call. *)
Lemma setStatusAndConditionForDeletionAndCallDelete_requeue s :
    match setStatusAndConditionForDeletionAndCallDelete s with
    | (flow, s') =>
        asksRequeue flow = true →
        flow = Return true None
        ∧ ∃ before n, Cluster.calls (cluster s')
                      = Cluster.calls (cluster s) ++ before ++ [DeleteNonAdminBackup n]
    end.
Proof.
    destruct_state s. unfold setStatusAndConditionForDeletionAndCallDelete.
    exec; cbn [asksRequeue cluster Cluster.calls]; try done.
    all: intros _; split; [done|]; rewrite <- ?app_assoc.
    all: first [ eexists [], _; reflexivity | eexists [_], _; reflexivity ].
Qed.

  (** X15. Only the first step of the graceful-delete path asks for a
      requeue, and only right after it has issued the delete call on the
      object: a pass that ends with [Requeue] is on that path, carries no
      error, and its last write is that delete call. *)
Theorem requeue_follows_the_delete_call req c n0 err :
    stored req c = Some n0 →
    (Reconcile req c).1 = Result true err →
    err = None
    ∧ selectPath n0 = GracefulDelete
    ∧ ∃ before n, newCalls c (Reconcile req c).2 = before ++ [DeleteNonAdminBackup n].
Proof.
    intros Hst. unfold Reconcile, Get, drawFault, newCalls.
    destruct (hd false (Cluster.faults c)) eqn:Hf; [done|].
    unfold stored in *. cbn [Cluster.nonAdminBackup Cluster.with_faults] in *.
    rewrite Hst, reconcileSteps_pathSteps.
    set (s0 := {| cluster := _; nab := n0 |}).
    assert (Hs0 : Cluster.calls (cluster s0) = Cluster.calls c) by done.
    clearbody s0.
    pose proof steps_never_requeue as Hsteps.
    repeat match type of Hsteps with
           | Forall _ (_ :: _) =>
               let H := fresh "Hstep" in
               apply Forall_cons in Hsteps as [H Hsteps]
           end.
    clear Hsteps.
    destruct (selectPath n0); cbn [pathSteps].
    2-4: (match goal with
          | |- context [runSteps ?steps ?s] =>
              pose proof (runSteps_never_requeues steps s err) as Hno
          end;
          destruct (runSteps _ _) as [outcome s']; cbn [fst] in *;
          intros Hrequeue; exfalso; apply Hno; [repeat constructor; assumption|done]).
    pose proof (runSteps_never_requeues
                  [deleteNonAdminRestores; createVeleroDeleteBackupRequest]) as Hno.
    change (runSteps [setStatusAndConditionForDeletionAndCallDelete; deleteNonAdminRestores;
                      createVeleroDeleteBackupRequest] s0)
      with (match setStatusAndConditionForDeletionAndCallDelete s0 with
            | (Return _ (Some err), s') => (Result false (Some err), s')
            | (Return true None, s') => (Result true None, s')
            | (Return false None, s') =>
                runSteps [deleteNonAdminRestores; createVeleroDeleteBackupRequest] s'
            | (Panic, s') => (Panicked, s')
            | (Next impossible, _) => match impossible with end
            end).
    pose proof (setStatusAndConditionForDeletionAndCallDelete_requeue s0) as Hfirst.
    destruct (setStatusAndConditionForDeletionAndCallDelete s0) as [flow s1].
    destruct flow as [[]|[] [e|]|]; cbn [fst snd asksRequeue] in *; try done.
    - intros [= <-]. split; [done|]. split; [done|].
      destruct (Hfirst eq_refl) as (_ & before & n & ->).
      exists before, n. by rewrite Hs0, drop_app_length.
    - specialize (Hno s1 err).
      destruct (runSteps _ s1) as [outcome s']; cbn [fst] in *.
      intros Hrequeue. exfalso. apply Hno; [|done].
      repeat constructor;
        first [assumption | apply deleteNonAdminRestores_never_requeues].
Qed.

  (** ** The restores of a backup under deletion *)

  (** X16. [deleteNonAdminRestores] issues nothing but delete calls, each
      for a stored restore of the object's namespace that names the object
      as its backup; it adds no restore, and when it lets the pass go on,
      every restore of the namespace that names the backup and is still in
      the cluster holds a finalizer and is marked for deletion.  The object
      in hand is not touched. *)
Theorem restores_of_the_backup_are_deleted s :
    match deleteNonAdminRestores s with
    | (flow, s') =>
        nab s' = nab s
        ∧ (∀ nar', nar' ∈ Cluster.nonAdminRestores (cluster s') →
                   ∃ nar, nar ∈ Cluster.nonAdminRestores (cluster s) ∧ sameRestore nar nar')
        ∧ (∃ deleted,
             newCalls (cluster s) (cluster s') = map DeleteNonAdminRestore deleted
             ∧ ∀ nar, nar ∈ deleted →
                      nar ∈ Cluster.nonAdminRestores (cluster s) ∧ restoreOf (nab s) nar)
        ∧ (flow = Return false None →
           ∀ nar, nar ∈ Cluster.nonAdminRestores (cluster s') → restoreOf (nab s) nar →
                  markedForDeletion (NonAdminRestore.ObjectMeta nar))
    end.
Proof.
    destruct s as [c n]. unfold deleteNonAdminRestores, List_NonAdminRestores, drawFault.
    cbv beta iota zeta delta [mbind mret M_bind M_ret call getNab return_].
    cbn [cluster nab]. unfold newCalls.
    destruct (hd false (Cluster.faults c)).
    { cbn [cluster nab]. split; [done|].
      split; [intros x ?; exists x; split; [done|apply sameRestore_refl]|].
      split; [|done].
      exists []. split; [|intros ? Hin; by apply elem_of_nil in Hin].
      cbn. by rewrite drop_all. }
    cbn [cluster nab].
    set (items := filter _ (Cluster.nonAdminRestores _)).
    set (s1 := {| cluster := Cluster.with_faults _ c; nab := n |}).
    pose proof (deleteMatchingRestores_deleted (NonAdminBackup.Name n) items s1) as Hloop.
    destruct (deleteMatchingRestores _ items s1) as [flow s'].
    destruct Hloop as (Hnab & Hsame & (deleted & Hcalls & Hdeleted) & Hflow).
    assert (Hitems : ∀ nar, nar ∈ items ↔
              nar ∈ Cluster.nonAdminRestores c
              ∧ NonAdminRestore.Namespace nar = NonAdminBackup.Namespace n).
    { intros nar. unfold items. rewrite list_elem_of_filter. cbn. tauto. }
    assert (Hresult : nab s' = n
              ∧ (∀ nar', nar' ∈ Cluster.nonAdminRestores (cluster s') →
                         ∃ nar, nar ∈ Cluster.nonAdminRestores c ∧ sameRestore nar nar')
              ∧ ∃ deleted,
                  drop (length (Cluster.calls c)) (Cluster.calls (cluster s'))
                  = map DeleteNonAdminRestore deleted
                  ∧ ∀ nar, nar ∈ deleted →
                           nar ∈ Cluster.nonAdminRestores c ∧ restoreOf n nar).
    { split; [done|]. split; [done|]. exists deleted.
      split; [by rewrite Hcalls; cbn; rewrite drop_app_length|].
      intros nar Hin. apply Hdeleted, list_elem_of_filter in Hin as [Hname Hin].
      apply Hitems in Hin as [? ?]. by repeat split. }
    destruct Hresult as (? & ? & ?).
    destruct flow as [[]|requeue err|]; cbn [cluster nab];
      (split; [done|]; split; [done|]; split; [done|]).
    - intros _ nar' Hin [Hns Hname].
      destruct Hflow as [[_ Hgone]|[? ?]]; [|done].
      destruct (Hsame nar' Hin) as (nar & Hnar & Hkey & Hbackup & _).
      assert (Hlisted : nar ∈ items).
      { apply Hitems. split; [done|]. unfold NonAdminRestore.Namespace in *.
        injection Hkey as Hkns _. congruence. }
      apply (Hgone nar Hlisted); [congruence|done|].
      rewrite (hasKey_keyOf_eq _ _ _ Hkey). apply hasKey_keyOf.
    - destruct Hflow as [[? _]|[? ?]]; [done|]. by simplify_eq.
    - done.
Qed.

  (** ** The status helpers *)

Lemma updateNonAdminBackupVeleroBackupSpecStatus_result status b :
    updateNonAdminBackupVeleroBackupSpecStatus status (Some b)
    = (mirrorBackup status b,
       negb (bool_decide (recordedBackup status = (Backup.Spec b, Backup.Status b)))).
Proof.
    unfold updateNonAdminBackupVeleroBackupSpecStatus, mirrorBackup, recordedBackup.
    cbn zeta.
    set (spec := default BackupSpec.zero _). set (st := default BackupStatus.zero _).
    destruct (decide (spec = Backup.Spec b)) as [Hspec|Hspec];
      destruct (decide (st = Backup.Status b)) as [Hstatus|Hstatus].
    - rewrite !bool_decide_eq_true_2 by congruence. cbn. by rewrite Hspec, Hstatus.
    - rewrite (bool_decide_eq_false_2 (st = _)), (bool_decide_eq_false_2 (_ = (_, _)))
        by congruence.
      by rewrite andb_false_r.
    - by rewrite (bool_decide_eq_false_2 (spec = _)), (bool_decide_eq_false_2 (_ = (_, _)))
        by congruence.
    - by rewrite (bool_decide_eq_false_2 (spec = _)), (bool_decide_eq_false_2 (_ = (_, _)))
        by congruence.
Qed.

  (** X17. [updateNonAdminBackupVeleroBackupSpecStatus] leaves the spec and
      the status of the engine Backup recorded in the status, whatever it
      reports; it reports a change exactly when what was recorded, a nil
      pointer read as the empty struct, differs from the Backup; a second
      call with the same Backup changes nothing and reports no change; a nil
      Backup leaves the status as it is. *)
Theorem status_mirrors_the_engine_backup status b :
    updateNonAdminBackupVeleroBackupSpecStatus status (Some b)
    = (mirrorBackup status b,
       negb (bool_decide (recordedBackup status = (Backup.Spec b, Backup.Status b))))
    ∧ updateNonAdminBackupVeleroBackupSpecStatus (mirrorBackup status b) (Some b)
      = (mirrorBackup status b, false)
    ∧ updateNonAdminBackupVeleroBackupSpecStatus status None = (status, false).
Proof.
    split; [apply updateNonAdminBackupVeleroBackupSpecStatus_result|].
    split; [|done].
    rewrite updateNonAdminBackupVeleroBackupSpecStatus_result. f_equal.
    unfold mirrorBackup, recordedBackup. cbn. by rewrite bool_decide_eq_true_2.
Qed.

Lemma updateNonAdminBackupDeleteBackupRequestStatus_result status d :
    updateNonAdminBackupDeleteBackupRequestStatus status (Some d)
    = (mirrorRequest status d,
       negb (bool_decide (recordedRequest status = DeleteBackupRequest.Status d))).
Proof.
    unfold updateNonAdminBackupDeleteBackupRequestStatus, mirrorRequest, recordedRequest.
    cbn zeta. set (st := default DeleteBackupRequestStatus.zero _).
    destruct (decide (st = DeleteBackupRequest.Status d)) as [Hstatus|Hstatus].
    - rewrite !bool_decide_eq_true_2 by done. cbn. by rewrite Hstatus.
    - by rewrite !bool_decide_eq_false_2 by done.
Qed.

  (** X18. [updateNonAdminBackupDeleteBackupRequestStatus] leaves the status
      of the delete request recorded in the status, whatever it reports; it
      reports a change exactly when what was recorded, a nil pointer read as
      the empty struct, differs from the request; a second call with the same
      request changes nothing and reports no change; a nil request leaves the
      status as it is. *)
Theorem status_mirrors_the_delete_request status d :
    updateNonAdminBackupDeleteBackupRequestStatus status (Some d)
    = (mirrorRequest status d,
       negb (bool_decide (recordedRequest status = DeleteBackupRequest.Status d)))
    ∧ updateNonAdminBackupDeleteBackupRequestStatus (mirrorRequest status d) (Some d)
      = (mirrorRequest status d, false)
    ∧ updateNonAdminBackupDeleteBackupRequestStatus status None = (status, false).
Proof.
    split; [apply updateNonAdminBackupDeleteBackupRequestStatus_result|].
    split; [|done].
    rewrite updateNonAdminBackupDeleteBackupRequestStatus_result. f_equal.
    unfold mirrorRequest, recordedRequest. cbn. by rewrite bool_decide_eq_true_2.
Qed.

Ltac first_counters :=
    repeat match goal with
           | |- context [setCounter ?x ?y ?u] =>
               let H := fresh in
               pose proof (setCounter_value x y u) as H;
               destruct (setCounter x y u); cbn in H; subst
           end.

Ltac settled_counters :=
    cbn; unfold setCounter;
    rewrite !bool_decide_eq_false_2 by (let H := fresh in intros H; by apply H); done.

  (** X19. The counters settle: a second call of
      [updateNonAdminBackupPodVolumeBackupStatus] or of
      [updateNonAdminBackupDataUploadStatus] on the same list changes
      nothing and reports no change. *)
Theorem child_counters_settle status podVolumeBackups dataUploads :
    updateNonAdminBackupPodVolumeBackupStatus
      (updateNonAdminBackupPodVolumeBackupStatus status podVolumeBackups).1 podVolumeBackups
    = ((updateNonAdminBackupPodVolumeBackupStatus status podVolumeBackups).1, false)
    ∧ updateNonAdminBackupDataUploadStatus
        (updateNonAdminBackupDataUploadStatus status dataUploads).1 dataUploads
      = ((updateNonAdminBackupDataUploadStatus status dataUploads).1, false).
Proof.
    split.
    - assert (∃ n,
                foldl tallyPodVolumeBackup (0, 0, 0, 0) podVolumeBackups = n
                ∧ (updateNonAdminBackupPodVolumeBackupStatus status podVolumeBackups).1
                  = NonAdminBackupStatus.with_FileSystemPodVolumeBackups
                      (Some (FileSystemPodVolumeBackups.mk
                               (Z.of_nat (length podVolumeBackups))
                               n.1.1.1 n.1.1.2 n.1.2 n.2)) status)
        as (n & Hfold & ->).
      { eexists. split; [done|]. unfold updateNonAdminBackupPodVolumeBackupStatus.
        destruct (foldl tallyPodVolumeBackup _ _) as [[[? ?] ?] ?]. by first_counters. }
      unfold updateNonAdminBackupPodVolumeBackupStatus. rewrite Hfold.
      destruct n as [[[? ?] ?] ?]. settled_counters.
    - assert (∃ n,
                foldl tallyDataUpload (mkTally 0 0 0 0 0 0 0 0) dataUploads = n
                ∧ (updateNonAdminBackupDataUploadStatus status dataUploads).1
                  = NonAdminBackupStatus.with_DataMoverDataUploads
                      (Some (DataMoverDataUploads.mk (Z.of_nat (length dataUploads))
                               (numberOfNew n) (numberOfAccepted n) (numberOfPrepared n)
                               (numberOfInProgress n) (numberOfCanceling n)
                               (numberOfCanceled n) (numberOfFailed n)
                               (numberOfCompleted n))) status)
        as (n & Hfold & ->).
      { eexists. split; [done|]. unfold updateNonAdminBackupDataUploadStatus.
        by first_counters. }
      unfold updateNonAdminBackupDataUploadStatus. rewrite Hfold. settled_counters.
Qed.

  (** ** The engine objects the delete paths touch *)




  (** X22. [createVeleroDeleteBackupRequest] creates at most one delete
      request, and only for an object that holds the finalizer and whose UUID
      names exactly one engine Backup and no delete request yet.  The request
      names that Backup and lives in the operator namespace.  The creation is
      then the only write of the step: the reference to the request is set on
      the object in hand, the stored object is not updated. *)
Theorem delete_request_is_created_for_the_backup_of_the_uuid s :
    match createVeleroDeleteBackupRequest s with
    | (flow, s') => requestOf s flow s'
    end.
Proof.
    destruct_state s.
    unfold createVeleroDeleteBackupRequest, removeNabFinalizerUponVeleroBackupDeletion.
    exec.
    all: unfold requestOf, newCalls; cbn [cluster nab Cluster.calls].
    all: rewrite <- ?app_assoc, ?drop_app_length, ?drop_all.
    all: try (left; reflexivity).
    all: try match goal with
             | H : updateNonAdminBackupDeleteBackupRequestStatus _ (Some _) = _ |- _ =>
                 rewrite updateNonAdminBackupDeleteBackupRequestStatus_result in H;
                 unfold mirrorRequest, recordedRequest, buildDeleteBackupRequest in H;
                 cbn [default NonAdminBackupStatus.VeleroDeleteBackupRequest
                      NonAdminBackupStatus.with_VeleroDeleteBackupRequest
                      VeleroDeleteBackupRequest.Status VeleroDeleteBackupRequest.NACUUID
                      VeleroDeleteBackupRequest.Namespace VeleroDeleteBackupRequest.Name
                      DeleteBackupRequest.Status DeleteBackupRequest.Name
                      DeleteBackupRequest.ObjectMeta ObjectMeta.Name] in H;
                 apply pair_equal_spec in H as [? ?]; subst
             end.
    all: try discriminate.
    all: right; do 3 eexists.
    all: unfold held, ContainsFinalizer, backupsByUUID, requestsByUUID;
         cbn [cluster nab Cluster.backups Cluster.deleteBackupRequests
              Cluster.nonAdminBackup NonAdminBackup.Finalizers NonAdminBackup.ObjectMeta
              ObjectMeta.Finalizers].
    all: split; [eassumption|]; split; [eassumption|]; split; [eassumption|].
    all: split; [eassumption|]; split; [reflexivity|].
    all: split; [reflexivity|]; split; [reflexivity|]; split; [reflexivity|].
    all: intros [=].
    all: eexists; split; [reflexivity|]; split; [reflexivity|]; split; [reflexivity|].
    all: reflexivity.
Qed.

  (** ** The first step of the create/update path *)

  (** X25. [initNabCreate] takes an object without phase to phase New with
      one status update: when the update succeeds, the stored object is the
      object in hand, in phase New, with the rest of the status in hand and
      the stored metadata and spec. *)
Theorem initNabCreate_makes_an_object_without_phase_New s n :
    phaseOf (nab s) = constant_EmptyString →
    hd false (Cluster.faults (cluster s)) = false →
    stored (keyOf (NonAdminBackup.ObjectMeta (nab s))) (cluster s) = Some n →
    match initNabCreate s with
    | (flow, s') =>
        flow = Return false None
        ∧ phaseOf (nab s') = NonAdminPhaseNew
        ∧ Cluster.nonAdminBackup (cluster s') = Some (nab s')
        ∧ nab s'
          = NonAdminBackup.with_Status
              (NonAdminBackupStatus.with_Phase NonAdminPhaseNew (NonAdminBackup.Status (nab s)))
              n
        ∧ Cluster.calls (cluster s')
          = Cluster.calls (cluster s)
            ++ [StatusUpdate
                  (NonAdminBackup.with_Status
                     (NonAdminBackupStatus.with_Phase NonAdminPhaseNew
                        (NonAdminBackup.Status (nab s))) (nab s))]
    end.
Proof.
    destruct s as [c local]. unfold phaseOf. cbn [cluster nab]. intros Hphase Hfault Hst.
    unfold initNabCreate.
    cbv beta iota zeta delta [mbind mret M_bind M_ret getNab]. cbn [nab].
    rewrite Hphase, bool_decide_refl.
    unfold setPhase, updateNonAdminPhase, Status_Update, drawFault, logCall.
    cbv beta iota zeta delta [mbind mret M_bind M_ret call callInto getNab setNab
      getCluster return_ check when negb]. cbn [cluster nab].
    rewrite Hphase, (bool_decide_eq_false_2 (constant_EmptyString = NonAdminPhaseNew)) by done.
    cbn [cluster nab].
    change (Cluster.faults (Cluster.with_calls _ ?c')) with (Cluster.faults c').
    rewrite Hfault.
    match goal with
    | |- context [stored ?k ?c'] =>
        change (stored k c') with (stored (keyOf (NonAdminBackup.ObjectMeta local)) c)
    end.
    rewrite Hst. cbn [cluster nab]. done.
Qed.

  (** ** The algebra of the enforcement loop *)

  (** A zero field holds the zero value of its type. *)
Lemma IsZero_zero f x : IsZero f x = true → x = FieldByName f BackupSpec.zero.
Proof.
    destruct f; cbn in *; unfold is_zero;
      first [ by destruct x as [[]]
            | by destruct x
            | by intros ?%bool_decide_eq_true
            | by intros ?%Z.eqb_eq ].
Qed.

Lemma IsZero_FieldByName_zero f : IsZero f (FieldByName f BackupSpec.zero) = true.
Proof. by destruct f. Qed.

  (** X23. The enforcement loop is a merge with a zero and a fixed point:
      without an enforced spec the tenant's spec is used as it is; a tenant
      spec that sets nothing becomes the enforced spec; enforcing the same
      spec again changes nothing. *)
Theorem enforcement_has_a_zero_and_is_idempotent enforced tenant :
    enforceFields BackupSpec.zero tenant = tenant
    ∧ enforceFields enforced BackupSpec.zero = enforced
    ∧ enforceFields enforced (enforceFields enforced tenant)
      = enforceFields enforced tenant.
Proof.
    split; [|split]; apply BackupSpec_ext; intros f;
      rewrite !FieldByName_enforceFields; unfold merged.
    - by rewrite IsZero_FieldByName_zero.
    - rewrite IsZero_FieldByName_zero, andb_true_r.
      destruct (IsZero f (FieldByName f enforced)) eqn:Hzero; [|done].
      cbn. symmetry. by apply IsZero_zero.
    - rewrite !FieldByName_enforceFields. unfold merged.
      destruct (IsZero f (FieldByName f enforced)) eqn:He; [done|].
      destruct (IsZero f (FieldByName f tenant)) eqn:Ht; cbn; [by rewrite He|by rewrite Ht].
Qed.

  (** ** The result of a pass without error *)

Lemma IsStatusConditionTrue_Find conditions type c :
    FindStatusCondition conditions type = Some c →
    IsStatusConditionTrue conditions type = bool_decide (Condition.Status c = ConditionTrue).
Proof.
    induction conditions as [|c' conditions IH]; cbn; [done|].
    destruct (bool_decide (Condition.Type_ c' = type)); [by intros [= ->]|done].
Qed.

Lemma IsStatusConditionTrue_SetStatusCondition now conditions type reason message l changed :
    SetStatusCondition now conditions (Condition.mk type ConditionTrue 0 0 reason message)
    = (l, changed) →
    IsStatusConditionTrue l type = true.
Proof.
    intros (c & Hfind & Hstatus & _)%FindStatusCondition_SetStatusCondition.
    cbn in Hfind, Hstatus.
    by rewrite (IsStatusConditionTrue_Find _ _ _ Hfind), Hstatus, bool_decide_eq_true_2.
Qed.

Lemma updateNonAdminBackupPodVolumeBackupStatus_frame status items :
    ∃ counters,
      (updateNonAdminBackupPodVolumeBackupStatus status items).1
      = NonAdminBackupStatus.with_FileSystemPodVolumeBackups (Some counters) status.
Proof.
    unfold updateNonAdminBackupPodVolumeBackupStatus.
    destruct (foldl tallyPodVolumeBackup _ _) as [[[? ?] ?] ?].
    repeat destruct (setCounter _ _ _). by eexists.
Qed.

Lemma updateNonAdminBackupDataUploadStatus_frame status items :
    ∃ counters,
      (updateNonAdminBackupDataUploadStatus status items).1
      = NonAdminBackupStatus.with_DataMoverDataUploads (Some counters) status.
Proof.
    unfold updateNonAdminBackupDataUploadStatus.
    repeat destruct (setCounter _ _ _). by eexists.
Qed.

  (** When [setBackupUUIDInStatus] lets the pass go on, the object in hand
      is the stored one. *)
Lemma setBackupUUIDInStatus_inHand :
    triple (λ _, True) setBackupUUIDInStatus inHand (λ _, True).
Proof.
    intros s _. destruct_state s. unfold setBackupUUIDInStatus, inHand. exec.
    all: first [exact I|reflexivity].
Qed.

  (** When [setFinalizerOnNonAdminBackup] lets the pass go on, the object in
      hand is still the stored one, and holds the finalizer. *)
Lemma setFinalizerOnNonAdminBackup_inHand :
    triple inHand setFinalizerOnNonAdminBackup
      (λ s, inHand s ∧ held (nab s) = true) (λ _, True).
Proof.
    intros s. destruct_state s. unfold setFinalizerOnNonAdminBackup, inHand, held.
    cbn [cluster nab Cluster.nonAdminBackup]. intros ->.
    exec.
    all: try exact I.
    - by split.
    - split.
      + by destruct deleted, finalizers.
      + apply bool_decide_eq_true_2, elem_of_app. right. by apply list_elem_of_singleton.
Qed.

  (** When the engine-object step lets the pass go on, the stored object is
      established. *)
Lemma createVeleroBackupAndSyncWithNonAdminBackup_established :
    triple (λ s, inHand s ∧ held (nab s) = true) createVeleroBackupAndSyncWithNonAdminBackup
      storedEstablished (λ _, True).
Proof.
    intros s. destruct_state s. unfold inHand, held.
    cbn [cluster nab Cluster.nonAdminBackup]. intros [-> Hheld].
    unfold ContainsFinalizer in Hheld.
    cbn [NonAdminBackup.Finalizers NonAdminBackup.ObjectMeta ObjectMeta.Finalizers] in Hheld.
    unfold createVeleroBackupAndSyncWithNonAdminBackup, createMissingVeleroBackup,
      statusNACUUID, buildVeleroBackup.
    cbv beta iota zeta delta [mbind mret M_bind M_ret getNab return_]. cbn [nab].
    cbn [NonAdminBackup.Status NonAdminBackupStatus.VeleroBackup].
    destruct vb as [[uuid vns vname vspec vstatus]|]; [|exact I].
    cbn [VeleroBackup.NACUUID].
    destruct (bool_decide (uuid = constant_EmptyString)) eqn:Huuid; [exact I|].
    repeat (unfold_prims; unfold Cluster.now; reduce_state;
            cbn [Backup.ObjectMeta Backup.Spec Backup.Status Backup.Name Backup.Namespace
                 Backup.Labels Backup.Annotations Backup.UID Backup.CreationTimestamp];
            rewrite ?hasKey_same by reflexivity; try step_head).
    all: try exact I.
    all: try (match goal with
              | H : _ || bool_decide (?x = ?x) = false |- _ =>
                  by rewrite bool_decide_refl, orb_true_r in H
              end).
    all: repeat match goal with
           | H : updateNonAdminBackupDataUploadStatus ?st ?items = (?t, _) |- _ =>
               let Hf := fresh in
               destruct (updateNonAdminBackupDataUploadStatus_frame st items) as [? Hf];
               rewrite H in Hf; cbn [fst] in Hf; clear H; subst t
           | H : updateNonAdminBackupPodVolumeBackupStatus ?st ?items = (?t, _) |- _ =>
               let Hf := fresh in
               destruct (updateNonAdminBackupPodVolumeBackupStatus_frame st items) as [? Hf];
               rewrite H in Hf; cbn [fst] in Hf; clear H; subst t
           | H : updateNonAdminBackupVeleroBackupSpecStatus _ (Some _) = (?t, _) |- _ =>
               rewrite updateNonAdminBackupVeleroBackupSpecStatus_result in H;
               apply pair_equal_spec in H as [? ?]; subst t
           | H : SetStatusCondition _ _ _ = (?l, _) |- _ =>
               lazymatch goal with
               | _ : IsStatusConditionTrue l _ = true |- _ => fail
               | _ => pose proof (IsStatusConditionTrue_SetStatusCondition _ _ _ _ _ _ _ H)
               end
           | H : updateNonAdminPhase _ _ = (?n, _) |- _ =>
               lazymatch goal with
               | _ : n = _ |- _ => fail
               | _ => pose proof (updateNonAdminPhase_result _ _ _ _ H)
               end
           end.
    all: tidy.
    all: unfold storedEstablished, established, phaseOf, held, backupsByUUID, statusNACUUID,
           ContainsFinalizer, mirrorBackup, NonAdminBackupStatus.with_DataMoverDataUploads,
           NonAdminBackupStatus.with_FileSystemPodVolumeBackups,
           NonAdminBackupStatus.with_VeleroBackup;
      cbn [cluster nab Cluster.nonAdminBackup Cluster.backups].
    all: eexists; split; [reflexivity|].
    all: cbn [NonAdminBackup.Status NonAdminBackupStatus.Phase NonAdminBackupStatus.Conditions
              NonAdminBackupStatus.VeleroBackup NonAdminBackup.Finalizers
              NonAdminBackup.ObjectMeta ObjectMeta.Finalizers
              default from_option id VeleroBackup.NACUUID VeleroBackup.Namespace
              VeleroBackup.Name VeleroBackup.Spec VeleroBackup.Status].
    all: rewrite ?Huuid.
    all: split; [first [reflexivity|assumption]|].
    all: split; [assumption|].
    all: split; [exact Hheld|].
    all: eexists _, _, _; split; [reflexivity|].
    all: repeat match goal with
           | H : negb _ = false |- _ => apply negb_false_iff in H
           | H : bool_decide _ = true |- _ => apply bool_decide_eq_true in H
           end.
    all: split;
      [ first [ eassumption
              | match goal with
                | H : filter _ ?l = [] |- _ => rewrite filter_app, H
                end;
                rewrite filter_cons_True;
                [ reflexivity
                | split; [reflexivity|];
                  unfold selects, Backup.Labels;
                  cbn [forallb fst snd Backup.ObjectMeta ObjectMeta.Labels];
                  by rewrite lookup_insert_eq, bool_decide_refl ] ]
      | ].
    all: split; [first [eassumption|reflexivity]|].
    all: split;
      [ first [ assumption
              | unfold index, GetNonAdminBackupAnnotations; by rewrite lookup_insert_eq ]
      | ].
    all: first [assumption|reflexivity].
Qed.

Lemma runSteps_established s :
    (runSteps [ setBackupUUIDInStatus; setFinalizerOnNonAdminBackup;
                createVeleroBackupAndSyncWithNonAdminBackup ] s).1 = Result false None →
    storedEstablished
      (runSteps [ setBackupUUIDInStatus; setFinalizerOnNonAdminBackup;
                  createVeleroBackupAndSyncWithNonAdminBackup ] s).2.
Proof.
    cbn [runSteps].
    pose proof (setBackupUUIDInStatus_inHand s I) as H1.
    destruct (setBackupUUIDInStatus s) as [[[]|[] [e|]|] s1]; try done.
    pose proof (setFinalizerOnNonAdminBackup_inHand s1 H1) as H2.
    destruct (setFinalizerOnNonAdminBackup s1) as [[[]|[] [e|]|] s2]; try done.
    pose proof (createVeleroBackupAndSyncWithNonAdminBackup_established s2 H2) as H3.
    by destruct (createVeleroBackupAndSyncWithNonAdminBackup s2) as [[[]|[] [e|]|] s3].
Qed.

  (** X24. A pass on the create/update or on the sync-import path that ends
      without error and without requeue leaves the stored object
      established: in phase Created with the condition Queued true, holding
      the finalizer, and with a UUID that names exactly one engine Backup of
      the operator namespace, whose annotations name the namespace of the
      object and whose spec and status the status of the object records. *)
Theorem pass_without_error_leaves_the_object_established req c n0 :
    stored req c = Some n0 →
    selectPath n0 = CreateUpdate ∨ selectPath n0 = SyncImport →
    (Reconcile req c).1 = Result false None →
    ∃ n, Cluster.nonAdminBackup (Reconcile req c).2 = Some n
         ∧ established (Reconcile req c).2 n.
Proof.
    intros Hst Hpath. unfold Reconcile, Get, drawFault.
    destruct (hd false (Cluster.faults c)) eqn:Hf; [done|].
    unfold stored in *. cbn [Cluster.nonAdminBackup Cluster.with_faults] in *.
    rewrite Hst, reconcileSteps_pathSteps.
    match goal with |- context [runSteps _ ?s] => set (s0 := s) end.
    destruct Hpath as [-> | ->].
    - assert (pathSteps CreateUpdate
              = [initNabCreate; validateSpec]
                ++ [ setBackupUUIDInStatus; setFinalizerOnNonAdminBackup;
                     createVeleroBackupAndSyncWithNonAdminBackup ]) as -> by done.
      rewrite runSteps_app.
      destruct (runSteps [initNabCreate; validateSpec] s0) as [[[] [e|]|] s1]; try done.
      pose proof (runSteps_established s1) as Hend.
      destruct (runSteps _ s1) as [outcome s2]. cbn [fst snd] in *.
      intros Hok. exact (Hend Hok).
    - cbn [pathSteps]. pose proof (runSteps_established s0) as Hend.
      destruct (runSteps _ s0) as [outcome s2]. cbn [fst snd] in *.
      intros Hok. exact (Hend Hok).
Qed.

  (** ** Objects marked for deletion *)

  (** The first step of the graceful-delete path on an object that is
      already marked for deletion: no delete call, no requeue. *)
Lemma setStatusAndConditionForDeletionAndCallDelete_marked n0 calls0 s :
    inHand s →
    Time_IsZero (NonAdminBackup.DeletionTimestamp (nab s)) = false →
    footprintInv keepsObject n0 calls0 s →
    match setStatusAndConditionForDeletionAndCallDelete s with
    | (flow, s') => asksRequeue flow = false ∧ footprintInv keepsObject n0 calls0 s'
    end.
Proof.
    destruct_state s. unfold inHand, footprintInv, NonAdminBackup.Labels.
    cbn [cluster nab Cluster.nonAdminBackup Cluster.calls NonAdminBackup.ObjectMeta
         NonAdminBackup.DeletionTimestamp ObjectMeta.DeletionTimestamp ObjectMeta.Labels].
    intros -> Hmarked (Hlabels & _ & new & -> & Hnew).
    unfold setStatusAndConditionForDeletionAndCallDelete.
    exec.
    all: cbn [asksRequeue cluster nab Cluster.nonAdminBackup Cluster.calls
              NonAdminBackup.ObjectMeta ObjectMeta.Labels].
    all: try congruence.
    all: split; [reflexivity|].
    all: split; [assumption|].
    all: split; [by intros ? [= <-]|].
    all: rewrite <- ?app_assoc; eexists; split; [reflexivity|].
    all: repeat (apply Forall_app; split); try assumption; by repeat constructor.
Qed.

  (** X26. Once the object is marked for deletion, a pass neither calls
      [Delete] on it again nor asks for a requeue: the requeue of the
      graceful-delete path happens only while the deletion timestamp is not
      set. *)
Theorem marked_object_is_neither_deleted_again_nor_requeued req c n0 :
    stored req c = Some n0 →
    Time_IsZero (NonAdminBackup.DeletionTimestamp n0) = false →
    (∀ err, (Reconcile req c).1 ≠ Result true err)
    ∧ Forall keepsObject (newCalls c (Reconcile req c).2).
Proof.
    intros Hst Hmarked. pose proof (stored_nonAdminBackup _ _ _ Hst) as Hn0.
    unfold Reconcile, Get, drawFault, newCalls.
    destruct (hd false (Cluster.faults c)) eqn:Hf.
    { cbn. rewrite drop_all. by split. }
    unfold stored in *. cbn [Cluster.nonAdminBackup Cluster.with_faults] in *.
    rewrite Hst, reconcileSteps_pathSteps.
    match goal with |- context [runSteps _ ?s] => set (s0 := s) end.
    assert (Hs0 : footprintInv keepsObject n0 (Cluster.calls c) s0).
    { split; [done|]. split.
      - intros n Hn. change (Cluster.nonAdminBackup c = Some n) in Hn. congruence.
      - exists []. by rewrite app_nil_r. }
    assert (Hhand : inHand s0) by exact Hn0.
    pose proof steps_never_requeue as Hsteps.
    repeat match type of Hsteps with
           | Forall _ (_ :: _) =>
               let H := fresh "Hstep" in
               apply Forall_cons in Hsteps as [H Hsteps]
           end.
    clear Hsteps.
    assert (Hpath : selectPath n0 = GracefulDelete ∨ selectPath n0 = DirectDelete).
    { unfold selectPath. rewrite Hmarked. destruct (NonAdminBackupSpec.DeleteBackup _); auto. }
    assert (Hend : ∀ steps s,
              Forall neverRequeues steps →
              Forall (keepsFootprint keepsObject n0 (Cluster.calls c)) steps →
              footprintInv keepsObject n0 (Cluster.calls c) s →
              (∀ err, (runSteps steps s).1 ≠ Result true err)
              ∧ Forall keepsObject
                  (drop (length (Cluster.calls c)) (Cluster.calls (cluster (runSteps steps s).2)))).
    { intros steps s Hnever Hkeeps Hs. split.
      - intros err. by apply runSteps_never_requeues.
      - pose proof (runSteps_preserves _ _ Hkeeps s Hs) as (_ & _ & new & -> & Hnew).
        by rewrite drop_app_length. }
    destruct Hpath as [-> | ->]; cbn [pathSteps].
    - pose proof (setStatusAndConditionForDeletionAndCallDelete_marked
                    n0 (Cluster.calls c) s0 Hhand Hmarked Hs0) as Hfirst.
      change (runSteps [setStatusAndConditionForDeletionAndCallDelete; deleteNonAdminRestores;
                        createVeleroDeleteBackupRequest] s0)
        with (match setStatusAndConditionForDeletionAndCallDelete s0 with
              | (Return _ (Some err), s') => (Result false (Some err), s')
              | (Return true None, s') => (Result true None, s')
              | (Return false None, s') =>
                  runSteps [deleteNonAdminRestores; createVeleroDeleteBackupRequest] s'
              | (Panic, s') => (Panicked, s')
              | (Next impossible, _) => match impossible with end
              end).
      destruct (setStatusAndConditionForDeletionAndCallDelete s0) as [flow s1].
      destruct Hfirst as [Hflow Hs1].
      destruct flow as [[]|[] [e|]|]; cbn [asksRequeue fst snd] in *; try done.
      + split; [by intros ?|]. destruct Hs1 as (_ & _ & new & -> & Hnew).
        by rewrite drop_app_length.
      + specialize (Hend [deleteNonAdminRestores; createVeleroDeleteBackupRequest] s1).
        destruct (runSteps _ s1) as [outcome s']. cbn [fst snd cluster] in *. apply Hend.
        * repeat constructor;
            first [assumption | apply deleteNonAdminRestores_never_requeues].
        * repeat constructor.
          -- by apply deleteNonAdminRestores_footprint.
          -- by apply createVeleroDeleteBackupRequest_footprint.
        * done.
      + split; [by intros ?|]. destruct Hs1 as (_ & _ & new & -> & Hnew).
        by rewrite drop_app_length.
    - specialize (Hend [ setStatusForDirectKubernetesAPIDeletion;
                         deleteDeleteBackupRequestObjects; deleteVeleroBackupObjects ] s0).
      destruct (runSteps _ s0) as [outcome s']. cbn [fst snd cluster] in *. apply Hend.
      + repeat constructor; assumption.
      + repeat constructor.
        * by apply setStatusForDirectKubernetesAPIDeletion_footprint.
        * by apply deleteDeleteBackupRequestObjects_footprint.
        * by apply deleteVeleroBackupObjects_footprint.
      + done.
Qed.

  (** X27. The deletion completes: for an object marked for deletion whose
      only finalizer is the controller's and whose engine Backup is gone,
      [deleteVeleroBackupObjects] and, when the finalizer is held,
      [createVeleroDeleteBackupRequest] remove the finalizer with one
      metadata update, after which the object is no longer in the cluster. *)
Theorem object_leaves_the_cluster_when_the_backup_is_gone s uuid t :
    inHand s →
    NonAdminBackup.DeletionTimestamp (nab s) = Some t →
    filter (λ f, f ≠ constant.(NabFinalizerName)) (NonAdminBackup.Finalizers (nab s)) = [] →
    statusNACUUID (nab s) = Some uuid →
    backupsByUUID uuid (cluster s) = [] →
    hd false (Cluster.faults (cluster s)) = false →
    hd false (tl (Cluster.faults (cluster s))) = false →
    match deleteVeleroBackupObjects s with
    | (flow, s') =>
        flow = Return false None
        ∧ Cluster.nonAdminBackup (cluster s') = None
        ∧ newCalls (cluster s) (cluster s')
          = [Update (RemoveFinalizer (nab s) constant.(NabFinalizerName))]
    end
    ∧ (held (nab s) = true →
       match createVeleroDeleteBackupRequest s with
       | (flow, s') =>
           flow = Return false None
           ∧ Cluster.nonAdminBackup (cluster s') = None
           ∧ newCalls (cluster s) (cluster s')
             = [Update (RemoveFinalizer (nab s) constant.(NabFinalizerName))]
       end).
Proof.
    destruct_state s. unfold inHand, held, backupsByUUID, newCalls, NonAdminBackup.Finalizers,
      NonAdminBackup.DeletionTimestamp.
    cbn [cluster nab Cluster.nonAdminBackup Cluster.backups Cluster.faults Cluster.calls
         NonAdminBackup.ObjectMeta ObjectMeta.Finalizers ObjectMeta.DeletionTimestamp].
    intros -> -> Hfinalizers Huuid Hnone Hfault Hfault2.
    unfold deleteVeleroBackupObjects, createVeleroDeleteBackupRequest,
      removeNabFinalizerUponVeleroBackupDeletion.
    cbv beta iota zeta delta [mbind mret M_bind M_ret getNab]. cbn [nab].
    rewrite Huuid. split; [|intros ->].
    all: unfold_prims; reduce_state.
    all: rewrite ?Hfault, ?Hnone; unfold_prims; reduce_state.
    all: rewrite ?hasKey_same by reflexivity; rewrite ?Hfault2, ?Hfinalizers;
         unfold_prims; reduce_state.
    all: by rewrite drop_app_length.
Qed.

End Proofs.

(** * The theorems on the example deployment *)

Section OnTheExample.
Local Existing Instances example_constants example_functions example_reconciler.

Ltac in_log i := apply (list_elem_of_lookup_2 _ i); vm_compute; reflexivity.

  (** The first pass over the fresh object creates [example_backup]. *)
Lemma example_backup_created :
    CreateBackup example_backup ∈ Cluster.calls (Reconcile example_request example_cluster).2.
Proof. in_log 4%nat. Qed.

Lemma example_nab_stored : stored example_request example_cluster = Some example_nab.
Proof. reflexivity. Qed.

  (** C1 on the example: the enforced spec names kube-system, the Backup
      created for the object of team-a includes team-a only. *)
Lemma created_backup_includes_only_tenant_namespace_witness :
    CreateBackup example_backup ∈ Cluster.calls (Reconcile example_request example_cluster).2
    ∧ (CreateBackup example_backup ∈ Cluster.calls example_cluster
       ∨ BackupSpec.IncludedNamespaces (Backup.Spec example_backup) = Some ["team-a"]).
Proof.
    split; [exact example_backup_created|].
    exact (created_backup_includes_only_tenant_namespace example_request example_cluster
             example_backup example_backup_created).
Defined.

  (** C2 (amended) on the example, at the field TTL: the tenant leaves it
      zero, the enforced 3600 is copied in. *)
Lemma created_backup_spec_is_merge_outside_rewritten_fields_witness :
    stored example_request example_cluster = Some example_nab
    ∧ CreateBackup example_backup ∈ Cluster.calls (Reconcile example_request example_cluster).2
    ∧ rewrittenField FTTL = false
    ∧ (CreateBackup example_backup ∈ Cluster.calls example_cluster
       ∨ (FieldByName FTTL (Backup.Spec example_backup)
          = (if negb (IsZero FTTL (FieldByName FTTL (EnforcedBackupSpec example_reconciler)))
                && IsZero FTTL (FieldByName FTTL example_spec)
             then FieldByName FTTL (EnforcedBackupSpec example_reconciler)
             else FieldByName FTTL example_spec))
         ∧ (IsZero FTTL (FieldByName FTTL example_spec) = false →
            FieldByName FTTL (Backup.Spec example_backup) = FieldByName FTTL example_spec)
         ∧ (∀ g, IsZero g (FieldByName g example_spec) = false →
                 FieldByName g (merge (EnforcedBackupSpec example_reconciler) example_spec)
                 = FieldByName g example_spec)).
Proof.
    split; [exact example_nab_stored|]. split; [exact example_backup_created|].
    split; [reflexivity|].
    exact (created_backup_spec_is_merge_outside_rewritten_fields example_request
             example_cluster example_nab example_backup FTTL
             example_nab_stored example_backup_created eq_refl).
Defined.

  (** C2 as stated fails on the example: the merge of the enforced and the
      tenant spec includes kube-system and excludes no resource, the spec of
      the Backup created includes team-a and excludes the internal
      resources. *)
Lemma created_backup_spec_differs_from_merge :
    CreateBackup example_backup ∈ Cluster.calls (Reconcile example_request example_cluster).2
    ∧ BackupSpec.IncludedNamespaces (merge (EnforcedBackupSpec example_reconciler) example_spec)
      = Some ["kube-system"]
    ∧ BackupSpec.IncludedNamespaces (Backup.Spec example_backup) = Some ["team-a"]
    ∧ BackupSpec.ExcludedResources (merge (EnforcedBackupSpec example_reconciler) example_spec)
      = None
    ∧ BackupSpec.ExcludedResources (Backup.Spec example_backup)
      = Some [ "nonadminbackups"; "nonadminrestores"; "nonadminbackupstoragelocations";
               "securitycontextconstraints"; "clusterroles"; "clusterrolebindings";
               "priorityclasses"; "customresourcedefinitions";
               "virtualmachineclusterinstancetypes"; "virtualmachineclusterpreferences" ]
    ∧ bool_decide (Backup.Spec example_backup
                   = merge (EnforcedBackupSpec example_reconciler) example_spec) = false.
Proof. split; [exact example_backup_created|]. by vm_compute. Qed.

  (** C5 as stated fails on the example: the engine Backup of a Created
      object is deleted; the next pass moves the stored phase from Created
      to BackingOff, and the pass after it from BackingOff to Created. *)
Lemma phase_moves_from_Created_to_BackingOff_and_back :
    bool_decide ((NonAdminPhaseCreated, NonAdminPhaseBackingOff) ∈ phaseGraph) = false
    ∧ bool_decide ((NonAdminPhaseBackingOff, NonAdminPhaseCreated) ∈ phaseGraph) = false
    ∧ option_map (λ n, NonAdminBackupStatus.Phase (NonAdminBackup.Status n))
      (Cluster.nonAdminBackup example_cluster_lost) = Some NonAdminPhaseCreated
    ∧ option_map (λ n, NonAdminBackupStatus.Phase (NonAdminBackup.Status n))
        (Cluster.nonAdminBackup example_pass_lost.2) = Some NonAdminPhaseBackingOff
    ∧ option_map (λ n, NonAdminBackupStatus.Phase (NonAdminBackup.Status n))
        (Cluster.nonAdminBackup example_pass_after_lost.2) = Some NonAdminPhaseCreated.
Proof. by vm_compute. Qed.

  (** C4 on the example: the fresh object holds no finalizer; the first pass
      adds it before it creates the engine Backup, and leaves it stored. *)
Lemma finalizer_precedes_creation_and_outlives_the_engine_backup_witness :
    stored example_request example_cluster = Some example_nab
    ∧ held example_nab = false
    ∧ existsb isCreateBackup
        (newCalls example_cluster (Reconcile example_request example_cluster).2) = true
    ∧ createsGuarded (held example_nab)
        (newCalls example_cluster (Reconcile example_request example_cluster).2) = true
    ∧ ∃ n, Cluster.nonAdminBackup (Reconcile example_request example_cluster).2 = Some n
           ∧ held n = true.
Proof.
    pose proof (finalizer_precedes_creation_and_outlives_the_engine_backup
                  example_request example_cluster example_nab example_nab_stored)
      as (_ & Hguarded & Hcreating & _).
    assert (Hcreated : existsb isCreateBackup
              (newCalls example_cluster (Reconcile example_request example_cluster).2)
            = true) by (vm_compute; reflexivity).
    split; [exact example_nab_stored|]. split; [vm_compute; reflexivity|].
    split; [exact Hcreated|]. split; [exact Hguarded|]. exact (proj2 (Hcreating Hcreated)).
Defined.

  (** C5 (amended) on the example: the pass after the loss of the engine
      Backup, which starts in phase Created on the create/update path. *)
Lemma phases_written_by_a_pass_witness :
    stored example_request example_cluster_lost = Some (nab example_state_lost)
    ∧ selectPath (nab example_state_lost) = CreateUpdate
    ∧ phaseOf (nab example_state_lost) = NonAdminPhaseCreated
    ∧ (∀ n, StatusUpdate n
            ∈ newCalls example_cluster_lost
                (Reconcile example_request example_cluster_lost).2 →
            writablePhase (selectPath (nab example_state_lost))
              (phaseOf (nab example_state_lost)) (phaseOf n))
    ∧ (∀ n, Cluster.nonAdminBackup (Reconcile example_request example_cluster_lost).2
            = Some n →
            writablePhase (selectPath (nab example_state_lost))
              (phaseOf (nab example_state_lost)) (phaseOf n)).
Proof.
    assert (Hstored : stored example_request example_cluster_lost
                      = Some (nab example_state_lost)) by (vm_compute; reflexivity).
    split; [exact Hstored|]. split; [vm_compute; reflexivity|].
    split; [vm_compute; reflexivity|].
    exact (phases_written_by_a_pass example_request example_cluster_lost
             (nab example_state_lost) Hstored).
Defined.

  (** C6 as stated fails on the example: the sync-import path has three
      steps, the create/update path five; a synced object whose spec the
      validation rejects is taken to phase Created, with no Accepted
      condition, where the create/update path ends in the validation
      error. *)
Lemma sync_import_path_does_not_validate :
    selectPath example_sync_nab = SyncImport
    ∧ length (reconcileSteps example_sync_nab) = 3%nat
    ∧ length (pathSteps CreateUpdate) = 5%nat
    ∧ (∃ err, ValidateBackupSpec example_functions example_sync_cluster "openshift-adp"
                example_sync_nab (EnforcedBackupSpec example_reconciler) = Some err
              ∧ (runSteps (pathSteps CreateUpdate)
                   {| cluster := example_sync_cluster; nab := example_sync_nab |}).1
                = Result false (Some (TerminalError err)))
    ∧ example_sync_pass.1 = Result false None
    ∧ option_map (λ n, (NonAdminBackupStatus.Phase (NonAdminBackup.Status n),
                        FindStatusCondition
                          (NonAdminBackupStatus.Conditions (NonAdminBackup.Status n))
                          NonAdminConditionAccepted))
        (Cluster.nonAdminBackup example_sync_pass.2) = Some (NonAdminPhaseCreated, None).
Proof.
    split; [by vm_compute|]. split; [reflexivity|]. split; [reflexivity|].
    split; [eexists; split; [vm_compute; reflexivity|by vm_compute]|]. by vm_compute.
Qed.

  (** C6 (amended) on the example. *)
Lemma sync_import_skips_validation_and_refuses_to_create_witness :
    reconcileSteps example_sync_nab = drop 2 (pathSteps CreateUpdate)
    ∧ last (reconcileSteps example_sync_nab)
      = Some createVeleroBackupAndSyncWithNonAdminBackup
    ∧ refusedWith "VeleroBackupNotFound"
        (errors_New (notFoundMessage (nab example_sync_state_missing)))
        example_sync_state_missing
        (createVeleroBackupAndSyncWithNonAdminBackup example_sync_state_missing).
Proof.
    apply (sync_import_skips_validation_and_refuses_to_create example_sync_nab
             example_sync_state_missing "team-a-nightly-6f1c2a");
      vm_compute; reflexivity.
Defined.

  (** C7. The code misses the claim on the example.  The engine Backup of
      an object in phase Created with condition Queued true is lost; the
      pass that follows refuses with the terminal error asking for a new
      NonAdminBackup, and leaves the object in phase BackingOff with
      condition Queued still true.  The guard of the refusal tests the phase
      Created, which the refusal itself has just overwritten: the next pass,
      with nothing changed in between, creates a new engine Backup. *)
Lemma lost_backup_is_recreated_after_the_refusal :
    (∃ n, Cluster.nonAdminBackup example_pass_lost.2 = Some n
          ∧ NonAdminBackupStatus.Phase (NonAdminBackup.Status n) = NonAdminPhaseBackingOff
          ∧ IsStatusConditionTrue (NonAdminBackupStatus.Conditions (NonAdminBackup.Status n))
              NonAdminConditionQueued = true
          ∧ selectPath n = CreateUpdate)
    ∧ Cluster.backups example_pass_lost.2 = []
    ∧ example_pass_after_lost.1 = Result false None
    ∧ length (createdBackups (newCalls example_pass_lost.2 example_pass_after_lost.2)) = 1%nat
    ∧ length (Cluster.backups example_pass_after_lost.2) = 1%nat
    ∧ (∃ n, Cluster.nonAdminBackup example_cluster_lost = Some n
            ∧ NonAdminBackupStatus.Phase (NonAdminBackup.Status n) = NonAdminPhaseCreated
            ∧ IsStatusConditionTrue
                (NonAdminBackupStatus.Conditions (NonAdminBackup.Status n))
                NonAdminConditionQueued = true)
    ∧ example_pass_lost.1
      = Result false
          (Some (TerminalError
                   (errors_New "NonAdminBackup is finalized and its associated Velero Backup has been removed. Please create a new NonAdminBackup to initiate a new backup")))
    ∧ createdBackups (newCalls example_cluster_lost example_pass_lost.2) = [].
Proof.
    split; [eexists; split; [vm_compute; reflexivity|by vm_compute]|].
    split; [by vm_compute|]. split; [by vm_compute|]. split; [by vm_compute|].
    split; [by vm_compute|].
    split; [eexists; split; [vm_compute; reflexivity|by vm_compute]|]. by vm_compute.
Qed.

  (** X28 on the example: the pass right after the loss of the Backup. *)
Lemma lost_backup_of_created_object_is_refused_witness :
    refusedWith "VeleroBackupNotFound"
      (errors_New "NonAdminBackup is finalized and its associated Velero Backup has been removed. Please create a new NonAdminBackup to initiate a new backup")
      example_state_lost (createVeleroBackupAndSyncWithNonAdminBackup example_state_lost).
Proof.
    apply (lost_backup_of_created_object_is_refused example_state_lost
             "team-a-nightly-6f1c2a"); vm_compute; reflexivity.
Defined.

  (** C8 as stated fails on the example: the status update of the rejection
      fails, the pass ends with the error of the update, which is not
      terminal, and the stored phase is still New. *)
Lemma validation_failure_with_failing_update_is_retried :
    (∃ err, ValidateBackupSpec example_functions
              (example_cluster_of example_invalid_nab []) "openshift-adp"
              example_invalid_nab (EnforcedBackupSpec example_reconciler) = Some err)
    ∧ example_invalid_pass_failing_update.1
      = Result false (Some (StatusError StatusReasonInternalError))
    ∧ option_map (λ n, NonAdminBackupStatus.Phase (NonAdminBackup.Status n))
        (Cluster.nonAdminBackup example_invalid_pass_failing_update.2)
      = Some NonAdminPhaseNew.
Proof. split; [eexists; vm_compute; reflexivity|]. by vm_compute. Qed.

  (** C8 (amended) on the example. *)
Lemma validation_failure_backs_off_and_ends_the_pass_witness :
    refusedWith "InvalidBackupSpec" example_validation_error example_invalid_state
      (validateSpec example_invalid_state)
    ∧ ∃ e, (validateSpec example_invalid_state).1 = Return false (Some e)
           ∧ (e = TerminalError example_validation_error
              ∨ ∃ failure, e = StatusError failure)
           ∧ runSteps [validateSpec; setBackupUUIDInStatus] example_invalid_state
             = (Result false (Some e), (validateSpec example_invalid_state).2).
Proof.
    exact (validation_failure_backs_off_and_ends_the_pass example_invalid_state
             example_validation_error [setBackupUUIDInStatus] eq_refl).
Defined.

  (** C9 fails on the example: the second pass over the unchanged object
      issues a status update, which leaves the stored object as it was. *)
Lemma unchanged_object_is_written_on_every_pass :
    example_pass1.1 = Result false None
    ∧ example_pass2.1 = Result false None
    ∧ (∃ n, newCalls example_cluster1 example_pass2.2 = [StatusUpdate n]
            ∧ Cluster.nonAdminBackup example_cluster1 = Some n)
    ∧ Cluster.nonAdminBackup example_pass2.2 = Cluster.nonAdminBackup example_cluster1
    ∧ Cluster.backups example_pass2.2 = Cluster.backups example_cluster1.
Proof.
    split; [by vm_compute|]. split; [by vm_compute|].
    split; [eexists; split; vm_compute; reflexivity|]. split; vm_compute; reflexivity.
Qed.
End OnTheExample.

(** * Further theorems on the example deployment *)

Section OnTheExampleLater.
Local Existing Instances example_constants example_functions example_reconciler.

Lemma example_deleted_nab_stored :
    stored example_request example_deleted_cluster = Some example_deleted_nab.
Proof. vm_compute; reflexivity. Qed.

Lemma example_delete_nab_stored :
    stored example_request example_delete_cluster = Some example_delete_nab.
Proof. vm_compute; reflexivity. Qed.

Lemma example_stored_nab_stored :
    stored (keyOf (NonAdminBackup.ObjectMeta (nab example_state1))) (cluster example_state1)
    = Some example_stored_nab.
Proof. vm_compute; reflexivity. Qed.

Lemma example_nab_stored_in_state :
    stored (keyOf (NonAdminBackup.ObjectMeta (nab example_state))) (cluster example_state)
    = Some example_nab.
Proof. vm_compute; reflexivity. Qed.

  (** X1 on the example: the pass over the object deleted through the API is
      on the direct-delete path. *)
Lemma pass_writes_within_the_footprint_of_its_path_witness :
    stored example_request example_deleted_cluster = Some example_deleted_nab
    ∧ selectPath example_deleted_nab = DirectDelete
    ∧ forallb (permitted (selectPath example_deleted_nab))
        (newCalls example_deleted_cluster
           (Reconcile example_request example_deleted_cluster).2) = true.
Proof.
    split; [exact example_deleted_nab_stored|]. split; [vm_compute; reflexivity|].
    exact (pass_writes_within_the_footprint_of_its_path example_request
             example_deleted_cluster example_deleted_nab example_deleted_nab_stored).
Defined.

  (** X3 on the example: the first pass over the fresh object. *)
Lemma pass_creates_at_most_one_engine_backup_witness :
    stored example_request example_cluster = Some example_nab
    ∧ (length (createdBackups
                 (newCalls example_cluster (Reconcile example_request example_cluster).2))
       ≤ 1)%nat
    ∧ (createdBackups
         (newCalls example_cluster (Reconcile example_request example_cluster).2) ≠ []
       → selectPath example_nab = CreateUpdate).
Proof.
    split; [vm_compute; reflexivity|].
    apply (pass_creates_at_most_one_engine_backup example_request example_cluster
             example_nab).
    vm_compute; reflexivity.
Defined.

  (** X4 on the example: the merged spec uses no scoped filter, the internal
      resources are in the legacy list. *)
Lemma created_backup_excludes_the_internal_resources_witness :
    stored example_request example_cluster = Some example_nab
    ∧ CreateBackup example_backup
      ∈ newCalls example_cluster (Reconcile example_request example_cluster).2
    ∧ haveNewResourceFilterParameters
        (enforceFields (EnforcedBackupSpec example_reconciler) example_spec) = false
    ∧ excludesInternalResources (Backup.Spec example_backup)
    ∧ keepsExclusions (enforceFields (EnforcedBackupSpec example_reconciler) example_spec)
        (Backup.Spec example_backup).
Proof.
    assert (Hstored : stored example_request example_cluster = Some example_nab)
      by (vm_compute; reflexivity).
    assert (Hcreated : CreateBackup example_backup
                       ∈ newCalls example_cluster
                           (Reconcile example_request example_cluster).2)
      by (apply (list_elem_of_lookup_2 _ 4%nat); vm_compute; reflexivity).
    pose proof (created_backup_excludes_the_internal_resources example_request
                  example_cluster example_nab example_backup Hstored Hcreated)
      as (Hexcluded & Hkept & _).
    split; [exact Hstored|]. split; [exact Hcreated|]. split; [vm_compute; reflexivity|].
    split; [exact Hexcluded|exact Hkept].
Defined.

  (** X5 on the example: the engine Backup found names team-b. *)
Lemma foreign_engine_backup_is_not_adopted_witness :
    createVeleroBackupAndSyncWithNonAdminBackup example_foreign_state
    = (Return false
         (Some (TerminalError
                  (errors_New "related Velero Backup does not point to NonAdminBackup namespace"))),
       {| cluster := Cluster.with_faults (tl (Cluster.faults (cluster example_foreign_state)))
                       (cluster example_foreign_state);
          nab := nab example_foreign_state |}).
Proof.
    apply (foreign_engine_backup_is_not_adopted example_foreign_state
             "team-a-nightly-6f1c2a" example_foreign_backup).
    - vm_compute; reflexivity.
    - vm_compute; reflexivity.
    - vm_compute; reflexivity.
    - by vm_compute.
Defined.

  (** X6 on the example: no object is named weekly. *)
Lemma reconcile_of_a_missing_object_does_nothing_witness :
    stored example_request_missing example_cluster = None
    ∧ Reconcile example_request_missing example_cluster = (Result false None, example_cluster).
Proof.
    split; [vm_compute; reflexivity|].
    apply (reconcile_of_a_missing_object_does_nothing example_request_missing
             example_cluster).
    left. vm_compute; reflexivity.
Defined.

  (** X7 on the example: the object of the second pass is in phase Created. *)
Lemma initNabCreate_leaves_a_set_phase_witness :
    phaseOf (nab example_state1) = NonAdminPhaseCreated
    ∧ initNabCreate example_state1 = (Return false None, example_state1).
Proof.
    split; [vm_compute; reflexivity|].
    apply (initNabCreate_leaves_a_set_phase example_state1). by vm_compute.
Defined.

  (** X8 on the example: the object of the second pass carries its UUID. *)
Lemma assigned_uuid_is_kept_witness :
    statusNACUUID example_stored_nab = Some "team-a-nightly-6f1c2a"
    ∧ setBackupUUIDInStatus example_state1
      = (Return false None,
         {| cluster := Cluster.with_faults (tl (Cluster.faults (cluster example_state1)))
                         (cluster example_state1);
            nab := example_stored_nab |}).
Proof.
    split; [vm_compute; reflexivity|].
    apply (assigned_uuid_is_kept example_state1 example_stored_nab "team-a-nightly-6f1c2a").
    - vm_compute; reflexivity.
    - exact example_stored_nab_stored.
    - vm_compute; reflexivity.
Defined.

  (** X9 on the example: the object of the second pass holds the finalizer. *)
Lemma held_finalizer_is_not_written_again_witness :
    held (nab example_state1) = true
    ∧ setFinalizerOnNonAdminBackup example_state1 = (Return false None, example_state1).
Proof.
    split; [vm_compute; reflexivity|].
    apply (held_finalizer_is_not_written_again example_state1). vm_compute; reflexivity.
Defined.

  (** X10 on the example: the fresh object carries no UUID. *)
Lemma steps_without_uuid_do_nothing_witness :
    statusNACUUID (nab example_state) = None
    ∧ createVeleroDeleteBackupRequest example_state = (Return false None, example_state)
    ∧ deleteVeleroBackupObjects example_state = (Return false None, example_state)
    ∧ deleteDeleteBackupRequestObjects example_state = (Return false None, example_state)
    ∧ createVeleroBackupAndSyncWithNonAdminBackup example_state
      = (Return false
           (Some (errors_New "unable to get Velero Backup UUID from NonAdminBackup Status")),
         example_state).
Proof.
    split; [vm_compute; reflexivity|].
    apply (steps_without_uuid_do_nothing example_state). vm_compute; reflexivity.
Defined.

  (** X11 on the example: phase Created, no condition, the engine Backup
      lost. *)
Lemma missing_backup_of_unqueued_created_object_panics_witness :
    (createVeleroBackupAndSyncWithNonAdminBackup example_unqueued_state).1 = Panic
    ∧ createVeleroBackupAndSyncWithNonAdminBackup example_unqueued_state
      = (Panic,
         {| cluster := Cluster.with_faults
                         (tl (Cluster.faults (cluster example_unqueued_state)))
                         (cluster example_unqueued_state);
            nab := NonAdminBackup.with_Status
                     (NonAdminBackupStatus.with_Phase NonAdminPhaseBackingOff
                        (NonAdminBackup.Status (nab example_unqueued_state)))
                     (nab example_unqueued_state) |}).
Proof.
    split; [vm_compute; reflexivity|].
    apply (missing_backup_of_unqueued_created_object_panics example_unqueued_state
             "team-a-nightly-6f1c2a"); vm_compute; reflexivity.
Defined.

  (** X12 on the example: the fresh object carries no sync label, its UUID
      is generated. *)
Lemma uuid_is_the_sync_label_or_generated_witness :
    assignedUUID example_nab = "team-a-nightly-6f1c2a"
    ∧ match setBackupUUIDInStatus example_state with
      | (flow, s') =>
          flow = Return false None
          ∧ nab s' = withUUID (assignedUUID example_nab) example_nab
          ∧ Cluster.nonAdminBackup (cluster s')
            = Some (withUUID (assignedUUID example_nab) example_nab)
          ∧ Cluster.calls (cluster s')
            = Cluster.calls (cluster example_state)
              ++ [StatusUpdate (withUUID (assignedUUID example_nab) example_nab)]
          ∧ Cluster.backups (cluster s') = Cluster.backups (cluster example_state)
      end.
Proof.
    split; [vm_compute; reflexivity|].
    apply (uuid_is_the_sync_label_or_generated example_state example_nab).
    - vm_compute; reflexivity.
    - vm_compute; reflexivity.
    - exact example_nab_stored_in_state.
    - vm_compute; reflexivity.
Defined.

  (** X13 on the example: the fresh object holds no finalizer. *)
Lemma missing_finalizer_is_appended_witness :
    held (nab example_state) = false
    ∧ match setFinalizerOnNonAdminBackup example_state with
      | (flow, s') =>
          flow = Return false None
          ∧ Cluster.nonAdminBackup (cluster s') = Some (nab s')
          ∧ NonAdminBackup.Finalizers (nab s')
            = NonAdminBackup.Finalizers (nab example_state)
              ++ [NabFinalizerName example_constants]
          ∧ held (nab s') = true
          ∧ NonAdminBackup.Spec (nab s') = NonAdminBackup.Spec (nab example_state)
          ∧ NonAdminBackup.Labels (nab s') = NonAdminBackup.Labels (nab example_state)
          ∧ NonAdminBackup.Status (nab s') = NonAdminBackup.Status example_nab
          ∧ Cluster.calls (cluster s')
            = Cluster.calls (cluster example_state)
              ++ [Update (AddFinalizer (nab example_state)
                            (NabFinalizerName example_constants))]
      end.
Proof.
    split; [vm_compute; reflexivity|].
    apply (missing_finalizer_is_appended example_state example_nab).
    - vm_compute; reflexivity.
    - vm_compute; reflexivity.
    - exact example_nab_stored_in_state.
Defined.

  (** X14 on the example: the validation accepts the spec of the fresh
      object. *)
Lemma accepted_spec_is_marked_accepted_witness :
    ValidateBackupSpec example_functions (cluster example_state) "openshift-adp"
      (nab example_state) (EnforcedBackupSpec example_reconciler) = None
    ∧ match validateSpec example_state with
      | (flow, s') =>
          hasCondition (nab s') NonAdminConditionAccepted ConditionTrue "BackupAccepted"
            "backup accepted"
          ∧ phaseOf (nab s') = phaseOf (nab example_state)
          ∧ ((flow = Return false None
              ∧ (Cluster.calls (cluster s') = Cluster.calls (cluster example_state)
                 ∨ ∃ n, Cluster.calls (cluster s')
                        = Cluster.calls (cluster example_state) ++ [StatusUpdate n]))
             ∨ ∃ failure n,
                 flow = Return false (Some (StatusError failure))
                 ∧ Cluster.calls (cluster s')
                   = Cluster.calls (cluster example_state) ++ [StatusUpdate n]
                 ∧ Cluster.nonAdminBackup (cluster s')
                   = Cluster.nonAdminBackup (cluster example_state))
      end.
Proof.
    split; [vm_compute; reflexivity|].
    apply (accepted_spec_is_marked_accepted example_state). vm_compute; reflexivity.
Defined.

  (** X15 on the example: the pass over the object whose deletion the tenant
      asks for ends with a requeue. *)
Lemma requeue_follows_the_delete_call_witness :
    stored example_request example_delete_cluster = Some example_delete_nab
    ∧ (Reconcile example_request example_delete_cluster).1 = Result true None
    ∧ selectPath example_delete_nab = GracefulDelete
    ∧ ∃ before n,
        newCalls example_delete_cluster (Reconcile example_request example_delete_cluster).2
        = before ++ [DeleteNonAdminBackup n].
Proof.
    assert (Hpass : (Reconcile example_request example_delete_cluster).1 = Result true None)
      by (vm_compute; reflexivity).
    pose proof (requeue_follows_the_delete_call example_request example_delete_cluster
                  example_delete_nab None example_delete_nab_stored Hpass)
      as (_ & Hpath & Hlast).
    split; [exact example_delete_nab_stored|]. split; [exact Hpass|].
    split; [exact Hpath|exact Hlast].
Defined.



  (** X24 on the example: the first pass over the fresh object ends without
      error. *)
Lemma pass_without_error_leaves_the_object_established_witness :
    stored example_request example_cluster = Some example_nab
    ∧ selectPath example_nab = CreateUpdate
    ∧ (Reconcile example_request example_cluster).1 = Result false None
    ∧ ∃ n, Cluster.nonAdminBackup (Reconcile example_request example_cluster).2 = Some n
           ∧ established (Reconcile example_request example_cluster).2 n.
Proof.
    assert (Hstored : stored example_request example_cluster = Some example_nab)
      by (vm_compute; reflexivity).
    assert (Hpath : selectPath example_nab = CreateUpdate) by (vm_compute; reflexivity).
    assert (Hpass : (Reconcile example_request example_cluster).1 = Result false None)
      by (vm_compute; reflexivity).
    split; [exact Hstored|]. split; [exact Hpath|]. split; [exact Hpass|].
    exact (pass_without_error_leaves_the_object_established example_request example_cluster
             example_nab Hstored (or_introl Hpath) Hpass).
Defined.

  (** X25 on the example: the fresh object has no phase. *)
Lemma initNabCreate_makes_an_object_without_phase_New_witness :
    phaseOf (nab example_state) = ""
    ∧ match initNabCreate example_state with
      | (flow, s') =>
          flow = Return false None
          ∧ phaseOf (nab s') = NonAdminPhaseNew
          ∧ Cluster.nonAdminBackup (cluster s') = Some (nab s')
          ∧ nab s'
            = NonAdminBackup.with_Status
                (NonAdminBackupStatus.with_Phase NonAdminPhaseNew
                   (NonAdminBackup.Status (nab example_state)))
                example_nab
          ∧ Cluster.calls (cluster s')
            = Cluster.calls (cluster example_state)
              ++ [StatusUpdate
                    (NonAdminBackup.with_Status
                       (NonAdminBackupStatus.with_Phase NonAdminPhaseNew
                          (NonAdminBackup.Status (nab example_state)))
                       (nab example_state))]
      end.
Proof.
    split; [vm_compute; reflexivity|].
    apply (initNabCreate_makes_an_object_without_phase_New example_state example_nab).
    - vm_compute; reflexivity.
    - vm_compute; reflexivity.
    - exact example_nab_stored_in_state.
Defined.

  (** X26 on the example: the pass after the one that asked for the
      deletion finds the object marked. *)
Lemma marked_object_is_neither_deleted_again_nor_requeued_witness :
    stored example_request example_marked_cluster = Some example_marked_nab
    ∧ Time_IsZero (NonAdminBackup.DeletionTimestamp example_marked_nab) = false
    ∧ selectPath example_marked_nab = GracefulDelete
    ∧ (∀ err, (Reconcile example_request example_marked_cluster).1 ≠ Result true err)
    ∧ Forall keepsObject
        (newCalls example_marked_cluster
           (Reconcile example_request example_marked_cluster).2).
Proof.
    assert (Hstored : stored example_request example_marked_cluster
                      = Some example_marked_nab) by (vm_compute; reflexivity).
    assert (Hmarked : Time_IsZero (NonAdminBackup.DeletionTimestamp example_marked_nab)
                      = false) by (vm_compute; reflexivity).
    split; [exact Hstored|]. split; [exact Hmarked|]. split; [vm_compute; reflexivity|].
    exact (marked_object_is_neither_deleted_again_nor_requeued example_request
             example_marked_cluster example_marked_nab Hstored Hmarked).
Defined.

  (** X27 on the example: the object deleted through the API, once its
      engine Backup is gone. *)
Lemma object_leaves_the_cluster_when_the_backup_is_gone_witness :
    inHand example_released_state
    ∧ held (nab example_released_state) = true
    ∧ match deleteVeleroBackupObjects example_released_state with
      | (flow, s') =>
          flow = Return false None
          ∧ Cluster.nonAdminBackup (cluster s') = None
          ∧ newCalls (cluster example_released_state) (cluster s')
            = [Update (RemoveFinalizer (nab example_released_state)
                         (NabFinalizerName example_constants))]
      end
    ∧ match createVeleroDeleteBackupRequest example_released_state with
      | (flow, s') =>
          flow = Return false None
          ∧ Cluster.nonAdminBackup (cluster s') = None
          ∧ newCalls (cluster example_released_state) (cluster s')
            = [Update (RemoveFinalizer (nab example_released_state)
                         (NabFinalizerName example_constants))]
      end.
Proof.
    assert (Hhand : inHand example_released_state) by (vm_compute; reflexivity).
    assert (Hheld : held (nab example_released_state) = true) by (vm_compute; reflexivity).
    pose proof (object_leaves_the_cluster_when_the_backup_is_gone example_released_state
                  "team-a-nightly-6f1c2a" 1500 Hhand) as [Hdirect Hgraceful];
      try (vm_compute; reflexivity).
    split; [exact Hhand|]. split; [exact Hheld|]. split; [exact Hdirect|].
    exact (Hgraceful Hheld).
Defined.
End OnTheExampleLater.
